(** * aws_monitor: a shallow embedding of the fetch/aggregate/cost core

    The development follows the Python sources:
    - [config/settings.py]                 -> [Settings], [read_enabled_regions]
    - [services/parallel_fetcher.py]       -> [Module ParallelFetcher]
    - [services/resource_aggregator.py]    -> [Module ResourceAggregator],
                                              [fetch_s3_resources]
    - [aws_clients/base_client.py]         -> [Module BaseClient]
    - [aws_clients/region_manager.py]      -> [Module RegionManager]
    - [aws_clients/cost_explorer_client.py]-> [Module CostExplorer]
    - [aws_clients/glue_client.py]         -> [Module GlueClient]
    - [aws_clients/sagemaker_client.py]    -> [Module SageMakerClient]
    - [aws_clients/s3_client.py]           -> [Module S3Client]

    Python values are modelled as the code has them: dictionaries are
    insertion-ordered association lists with unique keys, exceptions are
    values of an error monad, floats are IEEE-754 binary64 numbers
    ([SpecFloat] at precision 53), integers are [Z]. *)

From Stdlib Require Import ZArith List String Ascii Bool Lia.
From Stdlib Require Import Permutation Sorted SpecFloat DecimalString.
Import ListNotations.

Local Open Scope string_scope.
Local Open Scope Z_scope.

#[local] Set Warnings "-register-all".

(* ================================================================== *)
(** * Part I: the model *)
(* ================================================================== *)

(** ** Exceptions and the error monad *)

(** The exception classes the modelled code can meet.  Only instances of
    [Exception] are modelled (what [except Exception] catches);
    [KeyboardInterrupt] and [SystemExit] are outside the model.  A
    subclass is represented by the listed class it derives from. *)
Inductive ExnClass : Type :=
| TimeoutError
| ValueError
| KeyError
| IndexError
| TypeError
| AttributeError
| OverflowError
| OtherError (name : string).

(** An exception object: its class and [str(e)]. *)
Record Exn : Type := mkExn { exn_class : ExnClass; exn_str : string }.

Definition is_TimeoutError (e : Exn) : bool :=
  match exn_class e with
  | TimeoutError => true
  | _ => false
  end.

(** The outcome of running a piece of Python: a value or a raised exception. *)
Inductive PyResult (A : Type) : Type :=
| Return (a : A)
| Raise (e : Exn).
Arguments Return {A} a.
Arguments Raise {A} e.

Definition bind {A B : Type} (m : PyResult A) (k : A -> PyResult B) : PyResult B :=
  match m with
  | Return a => k a
  | Raise e => Raise e
  end.

Notation "x <- m ;; k" := (bind m (fun x => k))
  (at level 61, m at next level, right associativity).

(** [try: body  except Exception as e: handler e]. *)
Definition try_except {A : Type} (body : PyResult A) (handler : Exn -> PyResult A)
  : PyResult A :=
  match body with
  | Return a => Return a
  | Raise e => handler e
  end.

(** A [for] loop whose body may raise: the first exception ends the loop. *)
Fixpoint for_each {A S : Type} (body : S -> A -> PyResult S) (xs : list A) (s : S)
  : PyResult S :=
  match xs with
  | [] => Return s
  | x :: xs' => s' <- body s x ;; for_each body xs' s'
  end.

(** ** Python values *)

(** The values a region payload is made of (JSON-like: no floats, no
    booleans in the payloads of the resource clients). *)
Inductive PyVal : Type :=
| PyNone
| PyInt (z : Z)
| PyStr (s : string)
| PyList (l : list PyVal)
| PyDict (d : list (string * PyVal)).

(** [type(v).__name__], as it appears in CPython's messages. *)
Definition type_name (v : PyVal) : string :=
  match v with
  | PyNone => "NoneType"
  | PyInt _ => "int"
  | PyStr _ => "str"
  | PyList _ => "list"
  | PyDict _ => "dict"
  end.

(** ** Dictionaries: insertion-ordered, one entry per key *)

Definition Dict (V : Type) : Type := list (string * V).

Definition dict_keys {V : Type} (d : Dict V) : list string := map fst d.


(** [d.get(k)] *)
Fixpoint dict_get {V : Type} (k : string) (d : Dict V) : option V :=
  match d with
  | [] => None
  | (k', v) :: d' => if String.eqb k k' then Some v else dict_get k d'
  end.

(** [k in d] *)
Definition dict_has {V : Type} (k : string) (d : Dict V) : bool :=
  match dict_get k d with
  | Some _ => true
  | None => false
  end.

(** [d.get(k, default)] *)
Definition dict_get_default {V : Type} (k : string) (default : V) (d : Dict V) : V :=
  match dict_get k d with
  | Some v => v
  | None => default
  end.

(** [d[k]], raising [KeyError] on a missing key. *)
Definition dict_getitem {V : Type} (k : string) (d : Dict V) : PyResult V :=
  match dict_get k d with
  | Some v => Return v
  | None => Raise (mkExn KeyError ("'" ++ k ++ "'"))
  end.

(** [d[k] = v]: an existing key keeps its position, a new key goes last. *)
Fixpoint dict_set {V : Type} (k : string) (v : V) (d : Dict V) : Dict V :=
  match d with
  | [] => [(k, v)]
  | (k', v') :: d' =>
      if String.eqb k k' then (k', v) :: d' else (k', v') :: dict_set k v d'
  end.

(** A well-formed dictionary holds each key once. *)
Definition dict_wf {V : Type} (d : Dict V) : Prop := NoDup (dict_keys d).

(** ** Builtins used by the aggregators *)

(** [str(n)] for an integer. *)
Definition str_of_int (n : Z) : string := NilZero.string_of_int (Z.to_int n).

(** The characters of a string, as Python iterates them. *)
Fixpoint str_chars (s : string) : list PyVal :=
  match s with
  | EmptyString => []
  | String c s' => PyStr (String c EmptyString) :: str_chars s'
  end.

(** [iter(v)]: what [list.extend(v)] and [for x in v] walk through. *)
Definition py_iter (v : PyVal) : PyResult (list PyVal) :=
  match v with
  | PyList l => Return l
  | PyStr s => Return (str_chars s)
  | PyDict d => Return (map (fun kv => PyStr (fst kv)) d)
  | _ => Raise (mkExn TypeError ("'" ++ type_name v ++ "' object is not iterable"))
  end.

(** [l.extend(v)] *)
Definition list_extend (l : list PyVal) (v : PyVal) : PyResult (list PyVal) :=
  xs <- py_iter v ;; Return (l ++ xs)%list.

(** [v.get(k, default)]: only dictionaries have a [get] method. *)
Definition py_get (v : PyVal) (k : string) (default : PyVal) : PyResult PyVal :=
  match v with
  | PyDict d => Return (dict_get_default k default d)
  | _ => Raise (mkExn AttributeError
                  ("'" ++ type_name v ++ "' object has no attribute 'get'"))
  end.

(** [total += v] for an integer counter [total]. *)
Definition int_iadd (total : Z) (v : PyVal) : PyResult Z :=
  match v with
  | PyInt z => Return (total + z)
  | _ => Raise (mkExn TypeError
                  ("unsupported operand type(s) for +=: 'int' and '"
                     ++ type_name v ++ "'"))
  end.

(** [a or b] where [a] may be [None] or an integer. *)
Definition int_or (a : option Z) (b : Z) : Z :=
  match a with
  | Some z => if z =? 0 then b else z
  | None => b
  end.

(** ** config/settings.py *)

Record Settings : Type := mkSettings {
  AWS_DEFAULT_REGION : string;
  API_TIMEOUT : Z;
  MAX_PARALLEL_WORKERS : Z;
  ENABLED_REGIONS : list string
}.

(** The values [Settings] takes when no environment variable is set. *)
Definition default_settings : Settings :=
  {| AWS_DEFAULT_REGION := "us-east-1";
     API_TIMEOUT := 30;
     MAX_PARALLEL_WORKERS := 10;
     ENABLED_REGIONS := [] |}.

(** *** The value of [ENABLED_REGIONS]

    [[r.strip() for r in os.getenv('ENABLED_REGIONS', '').split(',') if r.strip()]].
    A string is a sequence of characters with codes below 256 here. *)

(** [c.isspace()] *)
Definition isspace (c : ascii) : bool :=
  let n := nat_of_ascii c in
  ((9 <=? n) && (n <=? 13) || (28 <=? n) && (n <=? 32) || (n =? 133) || (n =? 160))%nat.

(** [s.split(sep)] for a separator of one character. *)
Fixpoint str_split (sep : ascii) (s : string) : list string :=
  match s with
  | EmptyString => [EmptyString]
  | String c s' =>
      if Ascii.eqb c sep then EmptyString :: str_split sep s'
      else match str_split sep s' with
           | piece :: pieces => String c piece :: pieces
           | [] => [String c EmptyString]
           end
  end.

(** [s.lstrip()] *)
Fixpoint str_lstrip (s : string) : string :=
  match s with
  | EmptyString => EmptyString
  | String c s' => if isspace c then str_lstrip s' else s
  end.

(** [s.rstrip()] *)
Fixpoint str_rstrip (s : string) : string :=
  match s with
  | EmptyString => EmptyString
  | String c s' =>
      match str_rstrip s' with
      | EmptyString => if isspace c then EmptyString else String c EmptyString
      | rest => String c rest
      end
  end.

(** [s.strip()] *)
Definition str_strip (s : string) : string := str_rstrip (str_lstrip s).

(** The list [Settings.ENABLED_REGIONS] is set to, given the value of
    the environment variable, if it is set. *)
Definition read_enabled_regions (value : option string) : list string :=
  let raw := match value with
             | Some s => s
             | None => EmptyString
             end in
  map str_strip
      (filter (fun r => negb (String.eqb (str_strip r) EmptyString))
              (str_split "," raw)).

(** The payload of one region: a dictionary with string keys. *)
Definition Payload : Type := Dict PyVal.

(** What one call [fetch_function(region)] does: it runs for
    [run_elapsed] seconds and then returns a payload or raises. *)
Record FetchRun : Type := mkRun {
  run_elapsed : Z;
  run_outcome : PyResult Payload
}.

(** ** services/parallel_fetcher.py *)
Module ParallelFetcher.

(** *** The part of [concurrent.futures] the fetcher uses *)

(** A submitted task.  [fut_id] is the identity of the future object (its
    submission index); the task is finished from time [fut_done_at] on. *)
Record Future : Type := mkFuture {
  fut_id : nat;
  fut_done_at : Z;
  fut_outcome : PyResult Payload
}.

(** The worker pool.  When each submitted task starts is the pool's
    business: [pool_start i] is the time the [i]-th submitted task starts
    to run. *)
Record Executor : Type := mkExecutor {
  pool_workers : Z;
  pool_start : nat -> Z
}.

(** [ThreadPoolExecutor(max_workers=n)] *)
Definition ThreadPoolExecutor (schedule : nat -> Z) (max_workers : Z)
  : PyResult Executor :=
  if max_workers <=? 0
  then Raise (mkExn ValueError "max_workers must be greater than 0")
  else Return (mkExecutor max_workers schedule).

(** [executor.submit(fetch_function, region)] for the [i]-th task. *)
Definition submit (executor : Executor) (fetch_function : string -> FetchRun)
  (i : nat) (region : string) : Future :=
  let run := fetch_function region in
  {| fut_id := i;
     fut_done_at := pool_start executor i + run_elapsed run;
     fut_outcome := run_outcome run |}.

(** [{executor.submit(fetch_function, region): region for region in regions}]:
    the futures are distinct objects, so every region of the list gets an
    entry of its own. *)
Fixpoint submit_all (executor : Executor) (fetch_function : string -> FetchRun)
  (i : nat) (regions : list string) : list (Future * string) :=
  match regions with
  | [] => []
  | region :: rest =>
      (submit executor fetch_function i region, region)
        :: submit_all executor fetch_function (S i) rest
  end.

(** [as_completed(fs)] hands the futures out as they finish.  Futures
    that finish at the same time come in submission order here; CPython
    promises no order among them, and no property below depends on one. *)
Fixpoint insert_by_done (x : Future * string) (l : list (Future * string))
  : list (Future * string) :=
  match l with
  | [] => [x]
  | y :: l' =>
      if fut_done_at (fst y) <=? fut_done_at (fst x)
      then y :: insert_by_done x l'
      else x :: l
  end.

Definition as_completed (fs : list (Future * string)) : list (Future * string) :=
  fold_left (fun acc x => insert_by_done x acc) fs [].

(** [future.result(timeout=timeout)] called at time [now], with the time
    at which the call is over: a finished future answers at once, a
    running one is waited for up to [timeout] seconds and then
    [TimeoutError] is raised (the builtin class, which is what
    [concurrent.futures] raises from Python 3.11 on). *)
Definition Future_result (now : Z) (future : Future) (timeout : Z)
  : PyResult Payload * Z :=
  if fut_done_at future <=? now then (fut_outcome future, now)
  else if fut_done_at future <=? now + timeout
       then (fut_outcome future, fut_done_at future)
       else (Raise (mkExn TimeoutError ""), now + Z.max 0 timeout).

(** *** class ParallelFetcher *)

Record t : Type := mkFetcher { max_workers : Z }.

(** [ParallelFetcher.__init__] *)
Definition init (settings : Settings) (max_workers : option Z) : t :=
  {| max_workers := int_or max_workers (MAX_PARALLEL_WORKERS settings) |}.

(** The entry recorded for a region whose fetch timed out. *)
Definition timeout_entry (timeout : Z) (region : string) : Payload :=
  [("error", PyStr ("Timeout after " ++ str_of_int timeout ++ "s"));
   ("region", PyStr region)].

(** The entry recorded for a region whose fetch raised [e]. *)
Definition error_entry (e : Exn) (region : string) : Payload :=
  [("error", PyStr (exn_str e)); ("region", PyStr region)].

(** The body of [for future in as_completed(future_to_region)].  The loop
    state is the clock and the [results] dictionary; [as_completed]
    yields [future] once it is finished, at the earliest, which is why
    the clock is moved to [fut_done_at future] before the body runs. *)
Definition collect (timeout : Z) (st : Z * Dict Payload) (fr : Future * string)
  : Z * Dict Payload :=
  let '(now, results) := st in
  let '(future, region) := fr in
  let now := Z.max now (fut_done_at future) in
  let '(outcome, now) := Future_result now future timeout in
  match outcome with
  | Return result => (now, dict_set region result results)
  | Raise e =>
      if is_TimeoutError e
      then (now, dict_set region (timeout_entry timeout region) results)
      else (now, dict_set region (error_entry e region) results)
  end.

(** [fetch_from_regions].  Besides the result the model returns the
    regions [fetch_function] was submitted with, one per invocation. *)
Definition fetch_from_regions (settings : Settings) (schedule : nat -> Z)
  (self : t) (regions : list string) (fetch_function : string -> FetchRun)
  (timeout : option Z) : PyResult (Dict Payload) * list string :=
  let timeout := int_or timeout (API_TIMEOUT settings) in
  let results : Dict Payload := [] in
  match regions with
  | [] => (Return results, [])
  | _ =>
      match ThreadPoolExecutor schedule (max_workers self) with
      | Raise e => (Raise e, [])
      | Return executor =>
          let future_to_region := submit_all executor fetch_function 0 regions in
          let '(_, results) :=
            fold_left (collect timeout) (as_completed future_to_region) (0, results) in
          (Return results, map snd future_to_region)
      end
  end.


(** One entry of the [errors] list: [{'region': ..., 'error': ...}]. *)
Record ErrorEntry : Type := mkError {
  err_region : string;
  err_error : PyVal
}.

(** The dictionary [aggregate_results] returns. *)
Record Aggregate : Type := mkAggregate {
  items : list PyVal;
  total_count : nat;
  successful_regions : list string;
  failed_regions : list string;
  errors : list ErrorEntry
}.

(** The loop state of [aggregate_results]. *)
Record AggState : Type := mkAggState {
  st_items : list PyVal;
  st_errors : list ErrorEntry;
  st_successful : list string
}.

(** The body of [for region, result in region_results.items()]. *)
Definition aggregate_step (st : AggState) (kv : string * Payload)
  : PyResult AggState :=
  let '(region, result) := kv in
  if dict_has "error" result then
    e <- dict_getitem "error" result ;;
    Return (mkAggState (st_items st)
                       (st_errors st ++ [mkError region e])%list
                       (st_successful st))
  else
    let successful_regions := (st_successful st ++ [region])%list in
    if dict_has "instances" result then
      v <- dict_getitem "instances" result ;;
      all_items <- list_extend (st_items st) v ;;
      Return (mkAggState all_items (st_errors st) successful_regions)
    else if dict_has "buckets" result then
      v <- dict_getitem "buckets" result ;;
      all_items <- list_extend (st_items st) v ;;
      Return (mkAggState all_items (st_errors st) successful_regions)
    else if dict_has "databases" result then
      v <- dict_getitem "databases" result ;;
      all_items <- list_extend (st_items st) v ;;
      Return (mkAggState all_items (st_errors st) successful_regions)
    else if dict_has "items" result then
      v <- dict_getitem "items" result ;;
      all_items <- list_extend (st_items st) v ;;
      Return (mkAggState all_items (st_errors st) successful_regions)
    else
      Return (mkAggState (st_items st) (st_errors st) successful_regions).

(** [aggregate_results] *)
Definition aggregate_results (region_results : Dict Payload) : PyResult Aggregate :=
  st <- for_each aggregate_step region_results (mkAggState [] [] []) ;;
  Return {| items := st_items st;
            total_count := List.length (st_items st);
            successful_regions := st_successful st;
            failed_regions := map err_region (st_errors st);
            errors := st_errors st |}.

End ParallelFetcher.

(** ** services/resource_aggregator.py *)
Module ResourceAggregator.

(** The closure [fetch_ec2_from_region] of [fetch_ec2_resources].
    [get_instances region] stands for [EC2Client(region=region).get_instances()],
    constructor included; [aws_clients/ec2_client.py] is not part of the
    sources at hand, so the call is a parameter. *)
Definition fetch_ec2_from_region (get_instances : string -> FetchRun)
  (region : string) : FetchRun :=
  let run := get_instances region in
  {| run_elapsed := run_elapsed run;
     run_outcome :=
       try_except (run_outcome run)
         (fun e => Return [("error", PyStr (exn_str e)); ("region", PyStr region)]) |}.

(** The [summary] dictionary of the EC2 aggregate. *)
Record Ec2Summary : Type := mkEc2Summary {
  total : nat;
  running : Z;
  stopped : Z;
  terminated : Z
}.

(** The dictionary [fetch_ec2_resources] returns. *)
Record Ec2Resources : Type := mkEc2Resources {
  instances : list PyVal;
  summary : Ec2Summary;
  successful_regions : list string;
  errors : list ParallelFetcher.ErrorEntry
}.

(** The loop state of the aggregation in [fetch_ec2_resources]. *)
Record Ec2State : Type := mkEc2State {
  all_instances : list PyVal;
  total_running : Z;
  total_stopped : Z;
  total_terminated : Z;
  st_successful : list string;
  st_errors : list ParallelFetcher.ErrorEntry
}.

(** The body of [for region, result in region_results.items()]. *)
Definition ec2_step (st : Ec2State) (kv : string * Payload) : PyResult Ec2State :=
  let '(region, result) := kv in
  if dict_has "error" result then
    e <- dict_getitem "error" result ;;
    Return (mkEc2State (all_instances st) (total_running st) (total_stopped st)
              (total_terminated st) (st_successful st)
              (st_errors st ++ [ParallelFetcher.mkError region e])%list)
  else
    let successful_regions := (st_successful st ++ [region])%list in
    all_instances <- list_extend (all_instances st)
                       (dict_get_default "instances" (PyList []) result) ;;
    let summary := dict_get_default "summary" (PyDict []) result in
    v <- py_get summary "running" (PyInt 0) ;;
    total_running <- int_iadd (total_running st) v ;;
    v <- py_get summary "stopped" (PyInt 0) ;;
    total_stopped <- int_iadd (total_stopped st) v ;;
    v <- py_get summary "terminated" (PyInt 0) ;;
    total_terminated <- int_iadd (total_terminated st) v ;;
    Return (mkEc2State all_instances total_running total_stopped total_terminated
              successful_regions (st_errors st)).

(** The aggregation loop of [fetch_ec2_resources] and the dictionary built
    from its final state. *)
Definition aggregate_ec2 (region_results : Dict Payload) : PyResult Ec2Resources :=
  st <- for_each ec2_step region_results (mkEc2State [] 0 0 0 [] []) ;;
  Return {| instances := all_instances st;
            summary := {| total := List.length (all_instances st);
                          running := total_running st;
                          stopped := total_stopped st;
                          terminated := total_terminated st |};
            successful_regions := st_successful st;
            errors := st_errors st |}.

(** [fetch_ec2_resources], run with the module's [parallel_fetcher]
    singleton and the default timeout. *)
Definition fetch_ec2_resources (settings : Settings) (schedule : nat -> Z)
  (get_instances : string -> FetchRun) (regions : list string)
  : PyResult Ec2Resources :=
  let parallel_fetcher := ParallelFetcher.init settings None in
  region_results <-
    fst (ParallelFetcher.fetch_from_regions settings schedule parallel_fetcher
           regions (fetch_ec2_from_region get_instances) None) ;;
  aggregate_ec2 region_results.

(** *** [fetch_glue_resources]: the aggregation of the region results *)
Module Glue.

(** The [summary] dictionary of the Glue aggregate. *)
Record Summary : Type := mkSummary {
  total_databases : Z;
  total_tables : Z
}.

(** The dictionary [fetch_glue_resources] returns. *)
Record Resources : Type := mkResources {
  databases : list PyVal;
  summary : Summary;
  successful_regions : list string;
  errors : list ParallelFetcher.ErrorEntry
}.

(** The loop state: [all_databases], [total_databases], [total_tables],
    [successful_regions] and [errors]. *)
Record State : Type := mkState {
  st_databases : list PyVal;
  st_total_databases : Z;
  st_total_tables : Z;
  st_successful : list string;
  st_errors : list ParallelFetcher.ErrorEntry
}.

(** The body of [for region, result in region_results.items()]. *)
Definition step (st : State) (kv : string * Payload) : PyResult State :=
  let '(region, result) := kv in
  if dict_has "error" result then
    e <- dict_getitem "error" result ;;
    Return (mkState (st_databases st) (st_total_databases st) (st_total_tables st)
              (st_successful st)
              (st_errors st ++ [ParallelFetcher.mkError region e])%list)
  else
    let successful_regions := (st_successful st ++ [region])%list in
    all_databases <- list_extend (st_databases st)
                       (dict_get_default "databases" (PyList []) result) ;;
    let summary := dict_get_default "summary" (PyDict []) result in
    v <- py_get summary "total_databases" (PyInt 0) ;;
    total_databases <- int_iadd (st_total_databases st) v ;;
    v <- py_get summary "total_tables" (PyInt 0) ;;
    total_tables <- int_iadd (st_total_tables st) v ;;
    Return (mkState all_databases total_databases total_tables
              successful_regions (st_errors st)).

(** The aggregation loop and the dictionary built from its final state. *)
Definition aggregate (region_results : Dict Payload) : PyResult Resources :=
  st <- for_each step region_results (mkState [] 0 0 [] []) ;;
  Return {| databases := st_databases st;
            summary := {| total_databases := st_total_databases st;
                          total_tables := st_total_tables st |};
            successful_regions := st_successful st;
            errors := st_errors st |}.

End Glue.

(** *** [fetch_sagemaker_resources]: the aggregation of the region results *)
Module SageMaker.

(** The [summary] dictionary of the SageMaker aggregate. *)
Record Summary : Type := mkSummary {
  total_notebooks : nat;
  active_notebooks : Z;
  total_endpoints : nat;
  active_endpoints : Z;
  total_training_jobs : nat
}.

(** The dictionary [fetch_sagemaker_resources] returns. *)
Record Resources : Type := mkResources {
  notebook_instances : list PyVal;
  endpoints : list PyVal;
  training_jobs : list PyVal;
  summary : Summary;
  successful_regions : list string;
  errors : list ParallelFetcher.ErrorEntry
}.

(** The loop state: [all_notebooks], [all_endpoints],
    [all_training_jobs], [total_active_notebooks],
    [total_active_endpoints], [successful_regions] and [errors]. *)
Record State : Type := mkState {
  all_notebooks : list PyVal;
  all_endpoints : list PyVal;
  all_training_jobs : list PyVal;
  total_active_notebooks : Z;
  total_active_endpoints : Z;
  st_successful : list string;
  st_errors : list ParallelFetcher.ErrorEntry
}.

(** The body of [for region, result in region_results.items()]. *)
Definition step (st : State) (kv : string * Payload) : PyResult State :=
  let '(region, result) := kv in
  if dict_has "error" result then
    e <- dict_getitem "error" result ;;
    Return (mkState (all_notebooks st) (all_endpoints st) (all_training_jobs st)
              (total_active_notebooks st) (total_active_endpoints st)
              (st_successful st)
              (st_errors st ++ [ParallelFetcher.mkError region e])%list)
  else
    let successful_regions := (st_successful st ++ [region])%list in
    all_notebooks <- list_extend (all_notebooks st)
                       (dict_get_default "notebook_instances" (PyList []) result) ;;
    all_endpoints <- list_extend (all_endpoints st)
                       (dict_get_default "endpoints" (PyList []) result) ;;
    all_training_jobs <- list_extend (all_training_jobs st)
                           (dict_get_default "training_jobs" (PyList []) result) ;;
    let summary := dict_get_default "summary" (PyDict []) result in
    v <- py_get summary "active_notebooks" (PyInt 0) ;;
    total_active_notebooks <- int_iadd (total_active_notebooks st) v ;;
    v <- py_get summary "active_endpoints" (PyInt 0) ;;
    total_active_endpoints <- int_iadd (total_active_endpoints st) v ;;
    Return (mkState all_notebooks all_endpoints all_training_jobs
              total_active_notebooks total_active_endpoints
              successful_regions (st_errors st)).

(** The aggregation loop and the dictionary built from its final state. *)
Definition aggregate (region_results : Dict Payload) : PyResult Resources :=
  st <- for_each step region_results (mkState [] [] [] 0 0 [] []) ;;
  Return {| notebook_instances := all_notebooks st;
            endpoints := all_endpoints st;
            training_jobs := all_training_jobs st;
            summary := {| total_notebooks := List.length (all_notebooks st);
                          active_notebooks := total_active_notebooks st;
                          total_endpoints := List.length (all_endpoints st);
                          active_endpoints := total_active_endpoints st;
                          total_training_jobs := List.length (all_training_jobs st) |};
            successful_regions := st_successful st;
            errors := st_errors st |}.

End SageMaker.

(** *** [get_resource_summary] *)

(** [resources.get(section, {}).get('summary', {})] *)
Definition section_summary (resources : Dict PyVal) (section : string)
  : PyResult PyVal :=
  py_get (dict_get_default section (PyDict []) resources) "summary" (PyDict []).

(** [get_resource_summary]: a dictionary of dictionaries, one per
    service, and the number of regions queried. *)
Definition get_resource_summary (resources : Dict PyVal)
  : PyResult (Dict (Dict PyVal)) :=
  ec2_summary <- section_summary resources "ec2" ;;
  s3_summary <- section_summary resources "s3" ;;
  glue_summary <- section_summary resources "glue" ;;
  sagemaker_summary <- section_summary resources "sagemaker" ;;
  total_instances <- py_get ec2_summary "total" (PyInt 0) ;;
  running_instances <- py_get ec2_summary "running" (PyInt 0) ;;
  stopped_instances <- py_get ec2_summary "stopped" (PyInt 0) ;;
  total_buckets <- py_get s3_summary "total" (PyInt 0) ;;
  total_size_gb <- py_get s3_summary "total_size_gb" (PyInt 0) ;;
  total_databases <- py_get glue_summary "total_databases" (PyInt 0) ;;
  total_tables <- py_get glue_summary "total_tables" (PyInt 0) ;;
  total_notebooks <- py_get sagemaker_summary "total_notebooks" (PyInt 0) ;;
  active_notebooks <- py_get sagemaker_summary "active_notebooks" (PyInt 0) ;;
  total_endpoints <- py_get sagemaker_summary "total_endpoints" (PyInt 0) ;;
  Return [("ec2", [("total_instances", total_instances);
                   ("running_instances", running_instances);
                   ("stopped_instances", stopped_instances)]);
          ("s3", [("total_buckets", total_buckets);
                  ("total_size_gb", total_size_gb)]);
          ("glue", [("total_databases", total_databases);
                    ("total_tables", total_tables)]);
          ("sagemaker", [("total_notebooks", total_notebooks);
                         ("active_notebooks", active_notebooks);
                         ("total_endpoints", total_endpoints)]);
          ("regions", [("queried", dict_get_default "total_regions" (PyInt 0)
                                     resources)])].

End ResourceAggregator.

(** ** aws_clients/base_client.py *)
Module BaseClient.

(** What one invocation of a boto3 client method does: it answers, raises
    [ClientError] with an error code and message, or raises something else. *)
Inductive CallOutcome (R : Type) : Type :=
| Responded (r : R)
| ClientError (code message : string)
| Unexpected (e : Exn).
Arguments Responded {R} r.
Arguments ClientError {R} code message.
Arguments Unexpected {R} e.

Definition mem_string (x : string) (l : list string) : bool :=
  existsb (String.eqb x) l.

Definition throttling_codes : list string :=
  ["Throttling"; "ThrottlingException"; "RequestLimitExceeded"].

Definition permission_codes : list string :=
  ["AccessDenied"; "UnauthorizedOperation"; "AccessDeniedException"].

(** The loop [for attempt in range(max_retries)] of [safe_api_call], with
    [remaining] iterations to go.  [func n] is what the boto3 method does
    on the [n]-th invocation made against the service; the state is the
    number of invocations made so far.  [time.sleep] has no other effect. *)
Fixpoint attempts {R : Type} (func : nat -> CallOutcome R)
  (max_retries remaining calls : nat) : option R * nat :=
  match remaining with
  | O => (None, calls)
  | S remaining' =>
      let attempt := (max_retries - remaining)%nat in
      let retry_or_give_up :=
        if (attempt <? max_retries - 1)%nat
        then attempts func max_retries remaining' (S calls)
        else (None, S calls) in
      match func calls with
      | Responded response => (Some response, S calls)
      | ClientError error_code error_message =>
          if mem_string error_code throttling_codes then retry_or_give_up
          else if mem_string error_code permission_codes then (None, S calls)
          else retry_or_give_up
      | Unexpected e => retry_or_give_up
      end
  end.

(** [safe_api_call(func, max_retries, **kwargs)]: the response, or [None]
    when every attempt failed. *)
Definition safe_api_call {R : Type} (func : nat -> CallOutcome R)
  (max_retries : nat) (calls : nat) : option R * nat :=
  attempts func max_retries max_retries calls.

(** The default [max_retries: int = 3]. *)
Definition default_max_retries : nat := 3.

End BaseClient.

(** ** aws_clients/region_manager.py *)
Module RegionManager.

(** One element of the [Regions] list of a [describe_regions] response;
    a field the response lacks is [None]. *)
Record RegionDesc : Type := mkRegionDesc { RegionName : option string }.

(** The response of [describe_regions]. *)
Record DescribeRegionsResponse : Type := mkDescribe {
  Regions : option (list RegionDesc)
}.

(** The EC2 service as the region manager meets it: whether the [n]-th
    construction of [BaseAWSClient('ec2', ...)] raises, and what the
    [n]-th invocation of [describe_regions] does. *)
Record Ec2Service : Type := mkEc2Service {
  client_init : nat -> PyResult unit;
  describe_regions : nat -> BaseClient.CallOutcome DescribeRegionsResponse
}.

(** What has been asked of the service so far: clients constructed,
    [safe_api_call(describe_regions)] requests issued, and invocations of
    the boto3 method made by those requests (retries included). *)
Record Calls : Type := mkCalls {
  clients_built : nat;
  describe_requests : nat;
  describe_attempts : nat
}.

Definition no_calls : Calls := mkCalls 0 0 0.

(** The fields of a [RegionManager] object. *)
Record t : Type := mkManager {
  _all_regions : option (list string);
  _enabled_regions : option (list string)
}.

(** [RegionManager.__init__] *)
Definition init : t := mkManager None None.

(** [[region['RegionName'] for region in response['Regions']]] *)
Definition region_names (regions : list RegionDesc) : PyResult (list string) :=
  for_each
    (fun acc region =>
       match RegionName region with
       | Some name => Return (acc ++ [name])%list
       | None => Raise (mkExn KeyError "'RegionName'")
       end)
    regions [].

(** The [try] block of [get_all_regions], up to the value assigned to
    [self._all_regions]; the calls made are recorded even when it raises. *)
Definition discover (settings : Settings) (ec2 : Ec2Service) (calls : Calls)
  : PyResult (list string) * Calls :=
  let built := mkCalls (S (clients_built calls)) (describe_requests calls)
                 (describe_attempts calls) in
  match client_init ec2 (clients_built calls) with
  | Raise e => (Raise e, built)
  | Return _ =>
      let '(response, attempts) :=
        BaseClient.safe_api_call (describe_regions ec2)
          BaseClient.default_max_retries (describe_attempts calls) in
      let calls' := mkCalls (clients_built built)
                      (S (describe_requests calls)) attempts in
      match response with
      | Some (mkDescribe (Some regions)) => (region_names regions, calls')
      | _ => (Return [AWS_DEFAULT_REGION settings], calls')
      end
  end.

(** [get_all_regions] *)
Definition get_all_regions (settings : Settings) (ec2 : Ec2Service)
  (self : t) (calls : Calls) : PyResult (list string) * (t * Calls) :=
  match _all_regions self with
  | Some regions => (Return regions, (self, calls))
  | None =>
      let '(found, calls') := discover settings ec2 calls in
      match try_except found (fun e => Return [AWS_DEFAULT_REGION settings]) with
      | Return all_regions =>
          (Return all_regions,
           (mkManager (Some all_regions) (_enabled_regions self), calls'))
      | Raise e => (Raise e, (self, calls'))
      end
  end.

(** [clear_cache] *)
Definition clear_cache (self : t) : t := mkManager None None.

(** [n] calls of [get_all_regions] in a row: the lists returned, in
    order, and the final state. *)
Fixpoint get_all_regions_times (settings : Settings) (ec2 : Ec2Service)
  (n : nat) (self : t) (calls : Calls)
  : list (PyResult (list string)) * (t * Calls) :=
  match n with
  | O => ([], (self, calls))
  | S n' =>
      let '(r, (self', calls')) := get_all_regions settings ec2 self calls in
      let '(rs, final) := get_all_regions_times settings ec2 n' self' calls' in
      (r :: rs, final)
  end.

(** [get_enabled_regions]: the list configured in
    [settings.ENABLED_REGIONS] when there is one, every region of
    [get_all_regions] otherwise; the answer is kept in
    [self._enabled_regions]. *)
Definition get_enabled_regions (settings : Settings) (ec2 : Ec2Service)
  (self : t) (calls : Calls) : PyResult (list string) * (t * Calls) :=
  match _enabled_regions self with
  | Some regions => (Return regions, (self, calls))
  | None =>
      match ENABLED_REGIONS settings with
      | _ :: _ =>
          (Return (ENABLED_REGIONS settings),
           (mkManager (_all_regions self) (Some (ENABLED_REGIONS settings)), calls))
      | [] =>
          match get_all_regions settings ec2 self calls with
          | (Return all_regions, (self', calls')) =>
              (Return all_regions,
               (mkManager (_all_regions self') (Some all_regions), calls'))
          | (Raise e, state) => (Raise e, state)
          end
      end
  end.

(** [is_region_available] *)
Definition is_region_available (settings : Settings) (ec2 : Ec2Service)
  (self : t) (region : string) (calls : Calls) : PyResult bool * (t * Calls) :=
  match get_all_regions settings ec2 self calls with
  | (Return all_regions, state) =>
      (Return (BaseClient.mem_string region all_regions), state)
  | (Raise e, state) => (Raise e, state)
  end.

(** [filter_regions]; the warning it logs about the regions left out
    has no effect on the result. *)
Definition filter_regions (settings : Settings) (ec2 : Ec2Service)
  (self : t) (regions : list string) (calls : Calls)
  : PyResult (list string) * (t * Calls) :=
  match get_all_regions settings ec2 self calls with
  | (Return all_regions, state) =>
      let valid_regions :=
        filter (fun r => BaseClient.mem_string r all_regions) regions in
      (Return valid_regions, state)
  | (Raise e, state) => (Raise e, state)
  end.

End RegionManager.

(** ** Floats: IEEE-754 binary64 *)

Definition float : Type := spec_float.

Definition prec : Z := 53.
Definition emax : Z := 1024.

Definition float_add : float -> float -> float := SFadd prec emax.
Definition float_mul : float -> float -> float := SFmul prec emax.
Definition float_div : float -> float -> float := SFdiv prec emax.

(** [a < b] on floats: false as soon as one side is NaN. *)
Definition float_ltb : float -> float -> bool := SFltb.

(** [0.0] *)
Definition float_zero : float := S754_zero false.

Definition is_nan (x : float) : bool :=
  match x with
  | S754_nan => true
  | _ => false
  end.

(** The conversion of an integer to the nearest float, as [float / int]
    and [float * int] apply it to their integer operand. *)
Definition float_of_int (z : Z) : float := binary_normalize prec emax z 0 false.

(** The integer nearest to [a / b] for [b > 0], ties going to the even one. *)
Definition div_half_even (a b : Z) : Z :=
  let q := a / b in
  match 2 * (a mod b) ?= b with
  | Lt => q
  | Gt => q + 1
  | Eq => if Z.even q then q else q + 1
  end.

(** [round(x, 2)] on a float: the exact binary value of [x] is rounded
    to two decimals (ties to even) and the float nearest to that decimal
    is returned; infinities and NaN round to themselves. *)
Definition float_round2 (x : float) : float :=
  match x with
  | S754_finite s m e =>
      let hundredths :=
        if 0 <=? e then Z.pos m * 100 * 2 ^ e
        else div_half_even (Z.pos m * 100) (2 ^ (- e)) in
      match hundredths with
      | Z.pos n => float_div (S754_finite s n 0) (S754_finite false 100 0)
      | _ => S754_zero s
      end
  | _ => x
  end.

(** [int(x)] for a float: the value is cut towards zero; an infinity and
    NaN have no integer. *)
Definition int_of_float (x : float) : PyResult Z :=
  match x with
  | S754_zero _ => Return 0
  | S754_finite s m e =>
      let magnitude :=
        if 0 <=? e then Z.pos m * 2 ^ e else Z.pos m / 2 ^ (- e) in
      Return (if s then - magnitude else magnitude)
  | S754_infinity _ =>
      Raise (mkExn OverflowError "cannot convert float infinity to integer")
  | S754_nan => Raise (mkExn ValueError "cannot convert float NaN to integer")
  end.

(** [a / b] for two positive integers: the float nearest to the
    quotient, and [OverflowError] when the quotient is beyond the floats. *)
Definition int_truediv (a b : positive) : PyResult float :=
  match float_div (S754_finite false a 0) (S754_finite false b 0) with
  | S754_infinity _ =>
      Raise (mkExn OverflowError "integer division result too large for a float")
  | q => Return q
  end.

(** A Python number that is an [int] or a [float]. *)
Inductive PyNum : Type :=
| NumInt (z : Z)
| NumFloat (f : float).

(** [x * n] for an integer [n]. *)
Definition num_mul_int (x : PyNum) (n : Z) : PyNum :=
  match x with
  | NumInt z => NumInt (z * n)
  | NumFloat f => NumFloat (float_mul f (float_of_int n))
  end.

(** [round(x, 2)] *)
Definition num_round2 (x : PyNum) : PyNum :=
  match x with
  | NumInt z => NumInt z
  | NumFloat f => NumFloat (float_round2 f)
  end.

(** *** [float(s)] on plain decimal literals

    [float_of_decimal] reads an optional sign, digits, and an optional
    fraction ([12], [-3.50], [0.125]), giving the float nearest to the
    decimal, and raises [ValueError] on anything else.  It agrees with
    Python's [float] on these literals and is the instance the examples
    run with; the other spellings Python accepts (exponents, [inf],
    [nan], surrounding blanks) are not covered by it, and the client
    itself is parametric in the builtin. *)

Definition digit_of (c : ascii) : option Z :=
  let n := Z.of_nat (nat_of_ascii c) in
  if (48 <=? n) && (n <=? 57) then Some (n - 48) else None.

(** Reads digits, returning their value and count, up to the first
    character that is not a digit. *)
Fixpoint read_digits (s : string) (acc : Z) (count : Z) : Z * Z * string :=
  match s with
  | EmptyString => (acc, count, s)
  | String c s' =>
      match digit_of c with
      | Some d => read_digits s' (10 * acc + d) (count + 1)
      | None => (acc, count, s)
      end
  end.

Definition float_of_unsigned (negative : bool) (s : string) : PyResult float :=
  let bad := Raise (mkExn ValueError "could not convert string to float") in
  let '(int_part, int_digits, rest) := read_digits s 0 0 in
  let finish (n : Z) (scale : Z) : PyResult float :=
    let magnitude :=
      match n with
      | Z.pos p => float_div (S754_finite false p 0)
                     (S754_finite false (Z.to_pos scale) 0)
      | _ => float_zero
      end in
    Return (if negative then SFopp magnitude else magnitude) in
  match rest with
  | EmptyString => if int_digits =? 0 then bad else finish int_part 1
  | String "." frac =>
      let '(n, all_digits, rest') := read_digits frac int_part int_digits in
      match rest' with
      | EmptyString =>
          if all_digits =? 0 then bad else finish n (10 ^ (all_digits - int_digits))
      | _ => bad
      end
  | _ => bad
  end.

Definition float_of_decimal (s : string) : PyResult float :=
  match s with
  | String "-" s' => float_of_unsigned true s'
  | String "+" s' => float_of_unsigned false s'
  | _ => float_of_unsigned false s
  end.

(** ** Dates: the part of [datetime.date] the cost client uses *)

Record date : Type := mkDate { year : Z; month : Z; day : Z }.

Definition is_leap (y : Z) : bool :=
  (y mod 4 =? 0) && (negb (y mod 100 =? 0) || (y mod 400 =? 0)).

(** The number of days of month [m] of year [y]. *)
Definition month_days (y m : Z) : Z :=
  match m with
  | 2 => if is_leap y then 29 else 28
  | 4 | 6 | 9 | 11 => 30
  | _ => 31
  end.

Definition MINYEAR : Z := 1.
Definition MAXYEAR : Z := 9999.

(** The dates a [datetime.date] object can hold. *)
Definition date_valid (d : date) : Prop :=
  MINYEAR <= year d <= MAXYEAR /\ 1 <= month d <= 12 /\
  1 <= day d <= month_days (year d) (month d).

Definition next_day (d : date) : date :=
  if day d <? month_days (year d) (month d)
  then mkDate (year d) (month d) (day d + 1)
  else if month d <? 12 then mkDate (year d) (month d + 1) 1
  else mkDate (year d + 1) 1 1.

Definition prev_day (d : date) : date :=
  if 1 <? day d then mkDate (year d) (month d) (day d - 1)
  else if 1 <? month d
  then mkDate (year d) (month d - 1) (month_days (year d) (month d - 1))
  else mkDate (year d - 1) 12 31.

(** [d + timedelta(days=n)]: [OverflowError] when the result leaves the
    years 1..9999. *)
Definition date_add_days (d : date) (n : Z) : PyResult date :=
  let r := if 0 <=? n then Nat.iter (Z.to_nat n) next_day d
           else Nat.iter (Z.to_nat (- n)) prev_day d in
  if (MINYEAR <=? year r) && (year r <=? MAXYEAR) then Return r
  else Raise (mkExn OverflowError "date value out of range").

(** [d.replace(day=n)] *)
Definition date_replace_day (d : date) (n : Z) : PyResult date :=
  if (1 <=? n) && (n <=? month_days (year d) (month d))
  then Return (mkDate (year d) (month d) n)
  else Raise (mkExn ValueError "day is out of range for month").

(** [n] written with at least [width] digits, zeros in front. *)
Definition zero_pad (width : nat) (n : Z) : string :=
  let digits := str_of_int n in
  (String.concat "" (repeat "0" (width - String.length digits)) ++ digits)%string.

(** [str(d)], the ISO form [YYYY-MM-DD]. *)
Definition date_str (d : date) : string :=
  zero_pad 4 (year d) ++ "-" ++ zero_pad 2 (month d) ++ "-" ++ zero_pad 2 (day d).

(** ** Code that calls the service: state and exceptions together *)

(** A computation that may invoke the service and may raise: it maps the
    number of invocations made so far to its outcome and the new count. *)
Definition Aws (A : Type) : Type := nat -> PyResult A * nat.

Definition aws_ret {A : Type} (a : A) : Aws A := fun calls => (Return a, calls).

Definition aws_bind {A B : Type} (m : Aws A) (k : A -> Aws B) : Aws B :=
  fun calls =>
    match m calls with
    | (Return a, calls') => k a calls'
    | (Raise e, calls') => (Raise e, calls')
    end.

Notation "x <~ m ;; k" := (aws_bind m (fun x => k))
  (at level 61, m at next level, right associativity).

(** A computation that does not touch the service. *)
Definition aws_lift {A : Type} (m : PyResult A) : Aws A := fun calls => (m, calls).

(** [try: body  except Exception as e: handler e]; the invocations made
    by [body] before it raised stay made. *)
Definition aws_try {A : Type} (body : Aws A) (handler : Exn -> Aws A) : Aws A :=
  fun calls =>
    match body calls with
    | (Return a, calls') => (Return a, calls')
    | (Raise e, calls') => handler e calls'
    end.

(** ** aws_clients/cost_explorer_client.py *)
Module CostExplorer.

(** *** The shape of a [get_cost_and_usage] response

    The records follow the response documented for the operation; a key
    the response lacks is [None], which is what the code's [.get(key,
    default)] calls provide for. *)

(** [{'Amount': '12.5', 'Unit': 'USD'}] *)
Definition Metric : Type := Dict string.

Record Group : Type := mkGroup {
  Keys : option (list string);
  Metrics : option (Dict Metric)
}.

Record ResultByTime : Type := mkResult {
  TimePeriod : option (Dict string);
  Total : option (Dict Metric);
  Groups : option (list Group)
}.

Record Response : Type := mkResponse {
  ResultsByTime : option (list ResultByTime)
}.

(** The keyword arguments of a [get_cost_and_usage] request. *)
Record Request : Type := mkRequest {
  req_Start : string;
  req_End : string;
  req_Granularity : string;
  req_Metrics : list string;
  req_GroupBy : list (string * string)
}.

(** [{'date': ..., 'cost': ...}] *)
Record DailyCost : Type := mkDaily { dc_date : string; dc_cost : float }.

(** [{'service': ..., 'cost': ...}] *)
Record ServiceCost : Type := mkService { service : string; cost : float }.

(** A value of the [metadata] dictionary of a snapshot. *)
Inductive MetaValue : Type :=
| MetaStr (s : string)
| MetaInt (z : Z).

(** A value of the dictionary [get_cost_and_usage] returns. *)
Inductive SnapshotValue : Type :=
| Number (x : PyNum)
| DailyCosts (l : list DailyCost)
| ServiceCosts (l : list ServiceCost)
| MetadataDict (m : Dict MetaValue).

(** The dictionary [get_cost_and_usage] returns. *)
Definition CostSnapshot : Type := Dict SnapshotValue.

(** [x.get(key, {})] for a field that may be missing. *)
Definition or_empty {V : Type} (field : option (Dict V)) : Dict V :=
  match field with
  | Some d => d
  | None => []
  end.

(** [metrics.get('UnblendedCost', {}).get('Amount', '0')] *)
Definition unblended_amount (metrics : option (Dict Metric)) : string :=
  dict_get_default "Amount" "0" (dict_get_default "UnblendedCost" [] (or_empty metrics)).

(** [l[0]] *)
Definition first_item (l : list string) : PyResult string :=
  match l with
  | x :: _ => Return x
  | [] => Raise (mkExn IndexError "list index out of range")
  end.

(** [service_costs.sort(key=lambda x: x['cost'], reverse=True)]: a stable
    sort, larger costs first, entries of equal cost in their original
    order.  This is what [list.sort] computes when [<] orders the keys
    totally, that is when no cost is NaN. *)
Fixpoint insert_by_cost (x : ServiceCost) (l : list ServiceCost) : list ServiceCost :=
  match l with
  | [] => [x]
  | y :: l' =>
      if float_ltb (cost x) (cost y) then y :: insert_by_cost x l' else x :: l
  end.

Definition sort_by_cost_desc (l : list ServiceCost) : list ServiceCost :=
  fold_right insert_by_cost [] l.

(** [_empty_response] *)
Definition _empty_response : CostSnapshot :=
  [("mtd_cost", Number (NumFloat float_zero));
   ("projected_eom_cost", Number (NumFloat float_zero));
   ("daily_average", Number (NumFloat float_zero));
   ("yesterday_cost", Number (NumFloat float_zero));
   ("daily_costs", DailyCosts []);
   ("service_costs", ServiceCosts []);
   ("metadata", MetadataDict [])].

Section Client.

(** Python's [float] applied to a string. *)
Variable float_of_str : string -> PyResult float.

(** The Cost Explorer service: what the [n]-th invocation of
    [client.get_cost_and_usage] does, given its arguments. *)
Variable service_api : Request -> nat -> BaseClient.CallOutcome Response.

(** [self.safe_api_call(self.client.get_cost_and_usage, **request)] *)
Definition call_api (request : Request) : Aws (option Response) :=
  fun calls =>
    let '(response, calls') :=
      BaseClient.safe_api_call (service_api request)
        BaseClient.default_max_retries calls in
    (Return response, calls').

(** The loop of [_get_cost_for_period] over [response['ResultsByTime']]. *)
Definition sum_totals (results : list ResultByTime) : PyResult float :=
  for_each
    (fun total_cost result =>
       let amount := unblended_amount (Total result) in
       x <- float_of_str amount ;;
       Return (float_add total_cost x))
    results float_zero.

(** [_get_cost_for_period] *)
Definition _get_cost_for_period (start_date end_date : date) : Aws float :=
  aws_try
    (response <~ call_api {| req_Start := date_str start_date;
                             req_End := date_str end_date;
                             req_Granularity := "MONTHLY";
                             req_Metrics := ["UnblendedCost"];
                             req_GroupBy := [] |} ;;
     match response with
     | Some (mkResponse (Some results)) => aws_lift (sum_totals results)
     | _ => aws_ret float_zero
     end)
    (fun e => aws_ret float_zero).

(** The loop of [_get_daily_costs]. *)
Definition daily_entries (results : list ResultByTime) : PyResult (list DailyCost) :=
  for_each
    (fun daily_costs result =>
       let date := dict_get_default "Start" "Unknown" (or_empty (TimePeriod result)) in
       let amount := unblended_amount (Total result) in
       x <- float_of_str amount ;;
       Return (daily_costs ++ [mkDaily date (float_round2 x)])%list)
    results [].

(** [_get_daily_costs] *)
Definition _get_daily_costs (start_date end_date : date) : Aws (list DailyCost) :=
  aws_try
    (response <~ call_api {| req_Start := date_str start_date;
                             req_End := date_str end_date;
                             req_Granularity := "DAILY";
                             req_Metrics := ["UnblendedCost"];
                             req_GroupBy := [] |} ;;
     match response with
     | Some (mkResponse (Some results)) => aws_lift (daily_entries results)
     | _ => aws_ret []
     end)
    (fun e => aws_ret []).

(** The body of [for group in result.get('Groups', [])]. *)
Definition add_group (service_totals : Dict float) (group : Group)
  : PyResult (Dict float) :=
  service_name <- first_item (match Keys group with
                              | Some keys => keys
                              | None => ["Unknown"]
                              end) ;;
  let amount := unblended_amount (Metrics group) in
  cost <- float_of_str amount ;;
  match dict_get service_name service_totals with
  | Some total => Return (dict_set service_name (float_add total cost) service_totals)
  | None => Return (dict_set service_name cost service_totals)
  end.

(** The loops of [_get_service_breakdown] that fill [service_totals]. *)
Definition accumulate (results : list ResultByTime) : PyResult (Dict float) :=
  for_each
    (fun service_totals result =>
       for_each add_group
         (match Groups result with Some groups => groups | None => [] end)
         service_totals)
    results [].

(** The list built from [service_totals.items()]. *)
Definition to_entries (service_totals : Dict float) : list ServiceCost :=
  map (fun kv => mkService (fst kv) (float_round2 (snd kv))) service_totals.

(** What [_get_service_breakdown] makes of the time buckets of a response. *)
Definition breakdown (results : list ResultByTime) : PyResult (list ServiceCost) :=
  service_totals <- accumulate results ;;
  Return (sort_by_cost_desc (to_entries service_totals)).

(** [_get_service_breakdown] *)
Definition _get_service_breakdown (start_date end_date : date)
  : Aws (list ServiceCost) :=
  aws_try
    (response <~ call_api {| req_Start := date_str start_date;
                             req_End := date_str end_date;
                             req_Granularity := "MONTHLY";
                             req_Metrics := ["UnblendedCost"];
                             req_GroupBy := [("Type", "DIMENSION"); ("Key", "SERVICE")] |} ;;
     match response with
     | Some (mkResponse (Some results)) => aws_lift (breakdown results)
     | _ => aws_ret []
     end)
    (fun e => aws_ret []).

(** [mtd_cost / days_elapsed if days_elapsed > 0 else 0] *)
Definition average_per_day (mtd_cost : float) (days_elapsed : Z) : PyNum :=
  if 0 <? days_elapsed
  then NumFloat (float_div mtd_cost (float_of_int days_elapsed))
  else NumInt 0.

(** The day number of the last day of the month of [month_start]:
    [((month_start + timedelta(days=32)).replace(day=1) - timedelta(days=1)).day] *)
Definition month_end (month_start : date) : PyResult date :=
  d <- date_add_days month_start 32 ;;
  d <- date_replace_day d 1 ;;
  date_add_days d (-1).

(** [get_cost_and_usage], with [datetime.now().date()] as [today]. *)
Definition get_cost_and_usage (today : date) : Aws CostSnapshot :=
  aws_try
    (month_start <~ aws_lift (date_replace_day today 1) ;;
     month_end_date <~ aws_lift (month_end month_start) ;;
     thirty_days_ago <~ aws_lift (date_add_days today (-30)) ;;
     mtd_cost <~ _get_cost_for_period month_start today ;;
     daily_costs <~ _get_daily_costs thirty_days_ago today ;;
     service_costs <~ _get_service_breakdown month_start today ;;
     let days_in_month := day month_end_date in
     let days_elapsed := day today in
     let daily_average := average_per_day mtd_cost days_elapsed in
     let projected_eom := num_mul_int daily_average days_in_month in
     yesterday <~ aws_lift (date_add_days today (-1)) ;;
     yesterday_cost <~ _get_cost_for_period yesterday today ;;
     aws_ret [("mtd_cost", Number (num_round2 (NumFloat mtd_cost)));
              ("projected_eom_cost", Number (num_round2 projected_eom));
              ("daily_average", Number (num_round2 daily_average));
              ("yesterday_cost", Number (num_round2 (NumFloat yesterday_cost)));
              ("daily_costs", DailyCosts daily_costs);
              ("service_costs", ServiceCosts service_costs);
              ("metadata",
               MetadataDict [("month_start", MetaStr (date_str month_start));
                             ("today", MetaStr (date_str today));
                             ("days_elapsed", MetaInt days_elapsed);
                             ("days_in_month", MetaInt days_in_month)])])
    (fun e => aws_ret _empty_response).

End Client.

End CostExplorer.

(** ** Timestamps and the retrying call, as the resource clients use them *)

(** A [datetime] object of a service response (boto3 hands out
    timezone-aware ones): the instant it denotes, in microseconds since
    the epoch, and its offset from UTC in seconds.  Two of them compare
    as their instants do.  The clients print timestamps and pass them
    on; how [str] and [strftime] print one is a parameter of each
    client. *)
Record datetime : Type := mkDatetime {
  instant : Z;
  utcoffset : Z
}.

(** [self.safe_api_call(func, **kwargs)] with the default [max_retries]. *)
Definition aws_safe_api_call {R : Type} (func : nat -> BaseClient.CallOutcome R)
  : Aws (option R) :=
  fun calls =>
    let '(response, calls') :=
      BaseClient.safe_api_call func BaseClient.default_max_retries calls in
    (Return response, calls').

(** [bool(s)] for a value that is [None] or a string. *)
Definition truthy (s : option string) : bool :=
  match s with
  | Some (String _ _) => true
  | _ => false
  end.

(** ** aws_clients/glue_client.py *)
Module GlueClient.

(** *** The responses of [get_databases] and [get_tables]

    The records follow the responses documented for the operations; a
    key the response lacks is [None]. *)

Record Table : Type := mkTable {
  Table_Name : option string;
  Table_CreateTime : option datetime;
  UpdateTime : option datetime;
  TableType : option string;
  Parameters : option (Dict string)
}.

Record GetTablesResponse : Type := mkTables {
  TableList : option (list Table);
  NextToken : option string
}.

Record Database : Type := mkDatabase {
  Name : option string;
  Description : option string;
  LocationUri : option string;
  CreateTime : option datetime
}.

Record GetDatabasesResponse : Type := mkDatabases {
  DatabaseList : option (list Database)
}.

(** The Glue service of one region: what the [n]-th invocation of a
    client method does, given its arguments ([DatabaseName] and
    [NextToken], if any, for [get_tables]). *)
Record Service : Type := mkService {
  client_get_databases : nat -> BaseClient.CallOutcome GetDatabasesResponse;
  client_get_tables :
    string -> option string -> nat -> BaseClient.CallOutcome GetTablesResponse
}.

(** *** What the client returns *)

(** The dictionary made of a table. *)
Record TableData : Type := mkTableData {
  table_name : string;
  table_database : string;
  table_create_time : string;
  table_update_time : string;
  table_type : string;
  table_parameters : Dict string
}.

(** A value that is a timestamp or a text. *)
Inductive TimeOrText : Type :=
| Time (t : datetime)
| Text (s : string).

(** The dictionary made of a database. *)
Record DatabaseData : Type := mkDatabaseData {
  name : string;
  description : string;
  location : string;
  create_time : TimeOrText;
  table_count : nat;
  tables : list TableData;
  region : string
}.

(** A value of the dictionary [get_databases] returns. *)
Inductive Value : Type :=
| Databases (l : list DatabaseData)
| Summary (counters : Dict nat)
| Region (r : string).

(** [_empty_response] *)
Definition _empty_response (self_region : string) : Dict Value :=
  [("databases", Databases []);
   ("summary", Summary [("total_databases", O); ("total_tables", O)]);
   ("region", Region self_region)].

Section Client.

(** [str] applied to a timestamp. *)
Variable str_datetime : datetime -> string.

Variable service : Service.

(** [str(table.get(key, 'N/A'))] for a timestamp field. *)
Definition str_time_or_na (field : option datetime) : string :=
  match field with
  | Some t => str_datetime t
  | None => "N/A"
  end.

(** The dictionary [_get_tables] makes of a table. *)
Definition table_data (database_name : string) (table : Table)
  : PyResult TableData :=
  match Table_Name table with
  | None => Raise (mkExn KeyError "'Name'")
  | Some table_name =>
      Return {| table_name := table_name;
                table_database := database_name;
                table_create_time := str_time_or_na (Table_CreateTime table);
                table_update_time := str_time_or_na (UpdateTime table);
                table_type := match TableType table with
                              | Some s => s
                              | None => "N/A"
                              end;
                table_parameters := CostExplorer.or_empty (Parameters table) |}
  end.

(** [for table in response['TableList']: ... tables.append(table_data)] *)
Definition append_tables (database_name : string) (table_list : list Table)
  (tables : list TableData) : PyResult (list TableData) :=
  for_each
    (fun tables table =>
       data <- table_data database_name table ;;
       Return (tables ++ [data])%list)
    table_list tables.

(** The [while True] loop of [_get_tables], entered with [next_token]
    and the [tables] read so far.  The loop has no bound of its own;
    [fuel] bounds the pages read here, and the result is [None] when the
    bound is reached with a page still to read. *)
Fixpoint read_pages (fuel : nat) (database_name : string)
  (next_token : option string) (tables : list TableData) (calls : nat)
  : option (PyResult (list TableData) * nat) :=
  match fuel with
  | O => None
  | S fuel' =>
      let token_param := if truthy next_token then next_token else None in
      let '(response, calls') :=
        BaseClient.safe_api_call
          (client_get_tables service database_name token_param)
          BaseClient.default_max_retries calls in
      match response with
      | Some (mkTables (Some table_list) next_token) =>
          match append_tables database_name table_list tables with
          | Raise e => Some (Raise e, calls')
          | Return tables =>
              if truthy next_token
              then read_pages fuel' database_name next_token tables calls'
              else Some (Return tables, calls')
          end
      | _ => Some (Return tables, calls')
      end
  end.

(** [_get_tables]: the tables read, or [[]] when reading raised. *)
Definition _get_tables (fuel : nat) (database_name : string) (calls : nat)
  : option (list TableData * nat) :=
  match read_pages fuel database_name None [] calls with
  | None => None
  | Some (Return tables, calls') => Some (tables, calls')
  | Some (Raise e, calls') => Some ([], calls')
  end.

(** The loop of [get_databases] over [response['DatabaseList']]; the
    state is the [databases] list and [total_tables]. *)
Fixpoint parse_databases (fuel : nat) (self_region : string)
  (database_list : list Database) (databases : list DatabaseData)
  (total_tables : nat) (calls : nat)
  : option (PyResult (list DatabaseData * nat) * nat) :=
  match database_list with
  | [] => Some (Return (databases, total_tables), calls)
  | db :: rest =>
      match Name db with
      | None => Some (Raise (mkExn KeyError "'Name'"), calls)
      | Some database_name =>
          match _get_tables fuel database_name calls with
          | None => None
          | Some (tables, calls') =>
              let table_count := List.length tables in
              let total_tables := (total_tables + table_count)%nat in
              let database_data :=
                {| name := database_name;
                   description := match Description db with
                                  | Some s => s
                                  | None => "N/A"
                                  end;
                   location := match LocationUri db with
                               | Some s => s
                               | None => "N/A"
                               end;
                   create_time := match CreateTime db with
                                  | Some t => Time t
                                  | None => Text "N/A"
                                  end;
                   table_count := table_count;
                   tables := tables;
                   region := self_region |} in
              parse_databases fuel self_region rest
                (databases ++ [database_data])%list total_tables calls'
          end
      end
  end.

(** [get_databases], for a client of region [self_region]. *)
Definition get_databases (fuel : nat) (self_region : string) (calls : nat)
  : option (Dict Value * nat) :=
  let '(response, calls') :=
    BaseClient.safe_api_call (client_get_databases service)
      BaseClient.default_max_retries calls in
  match response with
  | Some (mkDatabases (Some database_list)) =>
      match parse_databases fuel self_region database_list [] O calls' with
      | None => None
      | Some (Raise e, calls'') => Some (_empty_response self_region, calls'')
      | Some (Return (databases, total_tables), calls'') =>
          let total_databases := List.length databases in
          Some ([("databases", Databases databases);
                 ("summary", Summary [("total_databases", total_databases);
                                      ("total_tables", total_tables)]);
                 ("region", Region self_region)],
                calls'')
      end
  | _ => Some (_empty_response self_region, calls')
  end.

End Client.

End GlueClient.

(** ** aws_clients/sagemaker_client.py *)
Module SageMakerClient.

(** *** The responses of the three listing operations *)

Record NotebookInstance : Type := mkNotebookInstance {
  NotebookInstanceName : option string;
  InstanceType : option string;
  NotebookInstanceStatus : option string;
  CreationTime : option datetime;
  LastModifiedTime : option datetime;
  Url : option string
}.

Record ListNotebookInstancesResponse : Type := mkNotebookInstances {
  NotebookInstances : option (list NotebookInstance)
}.

Record Endpoint : Type := mkEndpoint {
  EndpointName : option string;
  EndpointStatus : option string;
  Endpoint_CreationTime : option datetime;
  Endpoint_LastModifiedTime : option datetime
}.

Record ListEndpointsResponse : Type := mkEndpoints {
  Endpoints : option (list Endpoint)
}.

Record TrainingJob : Type := mkTrainingJob {
  TrainingJobName : option string;
  TrainingJobStatus : option string;
  TrainingJob_CreationTime : option datetime;
  TrainingStartTime : option datetime;
  TrainingEndTime : option datetime
}.

Record ListTrainingJobsResponse : Type := mkTrainingJobs {
  TrainingJobSummaries : option (list TrainingJob)
}.

(** The SageMaker service of one region: what the [n]-th invocation of
    a client method does.  The arguments of the three calls are
    constants of the code. *)
Record Service : Type := mkService {
  client_list_notebook_instances :
    nat -> BaseClient.CallOutcome ListNotebookInstancesResponse;
  client_list_endpoints : nat -> BaseClient.CallOutcome ListEndpointsResponse;
  client_list_training_jobs :
    nat -> BaseClient.CallOutcome ListTrainingJobsResponse
}.

(** *** What the client returns *)

(** The dictionary made of a notebook instance. *)
Record NotebookData : Type := mkNotebookData {
  nb_name : string;
  nb_instance_type : string;
  nb_status : string;
  nb_creation_time : string;
  nb_last_modified : string;
  nb_url : string;
  nb_region : string
}.

(** The dictionary made of an endpoint. *)
Record EndpointData : Type := mkEndpointData {
  ep_name : string;
  ep_status : string;
  ep_creation_time : string;
  ep_last_modified : string;
  ep_region : string
}.

(** The dictionary made of a training job. *)
Record JobData : Type := mkJobData {
  job_name : string;
  job_status : string;
  job_creation_time : string;
  job_training_start : string;
  job_training_end : string;
  job_region : string
}.

(** A value of the dictionary [get_resources] returns. *)
Inductive Value : Type :=
| NotebookList (l : list NotebookData)
| EndpointList (l : list EndpointData)
| JobList (l : list JobData)
| Summary (counters : Dict nat)
| Region (r : string).

(** [_empty_response] *)
Definition _empty_response (self_region : string) : Dict Value :=
  [("notebook_instances", NotebookList []);
   ("endpoints", EndpointList []);
   ("training_jobs", JobList []);
   ("summary", Summary [("total_notebooks", O);
                        ("active_notebooks", O);
                        ("total_endpoints", O);
                        ("active_endpoints", O);
                        ("total_training_jobs", O);
                        ("running_training_jobs", O)]);
   ("region", Region self_region)].

Section Client.

(** [str] applied to a timestamp. *)
Variable str_datetime : datetime -> string.

Variable service : Service.

(** The region of the client, [self.region]. *)
Variable self_region : string.

(** [x.get(key, default)] for a text field. *)
Definition text_or (default : string) (field : option string) : string :=
  match field with
  | Some s => s
  | None => default
  end.

(** [str(x.get(key, 'N/A'))] for a timestamp field. *)
Definition str_time_or_na (field : option datetime) : string :=
  match field with
  | Some t => str_datetime t
  | None => "N/A"
  end.

(** The dictionary [_get_notebook_instances] makes of an instance. *)
Definition instance_data (nb : NotebookInstance) : PyResult NotebookData :=
  match NotebookInstanceName nb with
  | None => Raise (mkExn KeyError "'NotebookInstanceName'")
  | Some name =>
      Return {| nb_name := name;
                nb_instance_type := text_or "N/A" (InstanceType nb);
                nb_status := text_or "Unknown" (NotebookInstanceStatus nb);
                nb_creation_time := str_time_or_na (CreationTime nb);
                nb_last_modified := str_time_or_na (LastModifiedTime nb);
                nb_url := text_or "N/A" (Url nb);
                nb_region := self_region |}
  end.

(** The dictionary [_get_endpoints] makes of an endpoint. *)
Definition endpoint_data (ep : Endpoint) : PyResult EndpointData :=
  match EndpointName ep with
  | None => Raise (mkExn KeyError "'EndpointName'")
  | Some name =>
      Return {| ep_name := name;
                ep_status := text_or "Unknown" (EndpointStatus ep);
                ep_creation_time := str_time_or_na (Endpoint_CreationTime ep);
                ep_last_modified := str_time_or_na (Endpoint_LastModifiedTime ep);
                ep_region := self_region |}
  end.

(** The dictionary [_get_recent_training_jobs] makes of a job. *)
Definition job_data (job : TrainingJob) : PyResult JobData :=
  match TrainingJobName job with
  | None => Raise (mkExn KeyError "'TrainingJobName'")
  | Some name =>
      Return {| job_name := name;
                job_status := text_or "Unknown" (TrainingJobStatus job);
                job_creation_time := str_time_or_na (TrainingJob_CreationTime job);
                job_training_start := str_time_or_na (TrainingStartTime job);
                job_training_end := str_time_or_na (TrainingEndTime job);
                job_region := self_region |}
  end.

(** [for x in items: ... result.append(data)] *)
Definition collect_data {A B : Type} (data : A -> PyResult B) (items : list A)
  : PyResult (list B) :=
  for_each (fun result x => d <- data x ;; Return (result ++ [d])%list) items [].

(** [_get_notebook_instances] *)
Definition _get_notebook_instances : Aws (list NotebookData) :=
  aws_try
    (response <~ aws_safe_api_call (client_list_notebook_instances service) ;;
     match response with
     | Some (mkNotebookInstances (Some instances)) =>
         aws_lift (collect_data instance_data instances)
     | _ => aws_ret []
     end)
    (fun e => aws_ret []).

(** [_get_endpoints] *)
Definition _get_endpoints : Aws (list EndpointData) :=
  aws_try
    (response <~ aws_safe_api_call (client_list_endpoints service) ;;
     match response with
     | Some (mkEndpoints (Some endpoints)) =>
         aws_lift (collect_data endpoint_data endpoints)
     | _ => aws_ret []
     end)
    (fun e => aws_ret []).

(** [_get_recent_training_jobs] *)
Definition _get_recent_training_jobs : Aws (list JobData) :=
  aws_try
    (response <~ aws_safe_api_call (client_list_training_jobs service) ;;
     match response with
     | Some (mkTrainingJobs (Some jobs)) => aws_lift (collect_data job_data jobs)
     | _ => aws_ret []
     end)
    (fun e => aws_ret []).

(** [sum(1 for x in items if x['status'] == wanted)] *)
Definition count_status {A : Type} (status : A -> string) (wanted : string)
  (items : list A) : nat :=
  List.length (filter (fun x => String.eqb (status x) wanted) items).

(** [get_resources] *)
Definition get_resources : Aws (Dict Value) :=
  aws_try
    (notebook_instances <~ _get_notebook_instances ;;
     endpoints <~ _get_endpoints ;;
     training_jobs <~ _get_recent_training_jobs ;;
     let active_notebooks := count_status nb_status "InService" notebook_instances in
     let active_endpoints := count_status ep_status "InService" endpoints in
     let running_training := count_status job_status "InProgress" training_jobs in
     aws_ret [("notebook_instances", NotebookList notebook_instances);
              ("endpoints", EndpointList endpoints);
              ("training_jobs", JobList training_jobs);
              ("summary",
               Summary [("total_notebooks", List.length notebook_instances);
                        ("active_notebooks", active_notebooks);
                        ("total_endpoints", List.length endpoints);
                        ("active_endpoints", active_endpoints);
                        ("total_training_jobs", List.length training_jobs);
                        ("running_training_jobs", running_training)]);
              ("region", Region self_region)])
    (fun e => aws_ret (_empty_response self_region)).

End Client.

End SageMakerClient.

(** ** aws_clients/s3_client.py *)
Module S3Client.

(** *** The responses of the operations the client calls *)

Record Bucket : Type := mkBucket {
  Name : option string;
  CreationDate : option datetime
}.

Record ListBucketsResponse : Type := mkBuckets {
  Buckets : option (list Bucket)
}.

(** ['LocationConstraint'] is a region, or [None] for a bucket of
    us-east-1. *)
Record GetBucketLocationResponse : Type := mkLocation {
  LocationConstraint : option (option string)
}.

Record Datapoint : Type := mkDatapoint {
  Timestamp : option datetime;
  Average : option float
}.

Record MetricStatistics : Type := mkStatistics {
  Datapoints : option (list Datapoint)
}.

Record S3Object : Type := mkObject { Size : option Z }.

(** One page of [list_objects_v2]. *)
Record Page : Type := mkPage { Contents : option (list S3Object) }.

(** S3 and CloudWatch as the client meets them.  The three operations
    called through [safe_api_call] are given by what their [n]-th
    invocation does; [cloudwatch_get_metric_statistics] takes the
    [MetricName], the [StorageType] and the [BucketName] of the request
    (its time window is read off the clock, like everything else the
    answer of an invocation may depend on).  [list_objects_v2_pages
    bucket n] is what the iterator of the [n]-th
    [paginator.paginate(Bucket=bucket, PaginationConfig={'MaxItems':
    1000})] yields: pages, up to the first one whose request raises. *)
Record Service : Type := mkService {
  client_list_buckets : nat -> BaseClient.CallOutcome ListBucketsResponse;
  client_get_bucket_location :
    string -> nat -> BaseClient.CallOutcome GetBucketLocationResponse;
  list_objects_v2_pages : string -> nat -> list (PyResult Page);
  cloudwatch_get_metric_statistics :
    string -> string -> string -> nat -> BaseClient.CallOutcome MetricStatistics
}.

(** What has been asked so far: invocations made through the S3 client,
    invocations made through the CloudWatch client, and object listings
    started. *)
Record Calls : Type := mkCalls {
  s3_calls : nat;
  cloudwatch_calls : nat;
  listings : nat
}.

(** *** The client and what it returns *)

(** The fields of an [S3Client] object; [cloudwatch_client] tells
    whether the object holds a CloudWatch client or [None]. *)
Record t : Type := mkClient {
  region : string;
  cloudwatch_client : bool
}.

(** [S3Client.__init__]: [s3_init] and [cloudwatch_init] are what the
    two constructions of a [BaseAWSClient] do. *)
Definition init (settings : Settings) (s3_init cloudwatch_init : PyResult unit)
  (region : option string) : PyResult t :=
  _ <- s3_init ;;
  Return {| region := if truthy region
                      then match region with
                           | Some r => r
                           | None => AWS_DEFAULT_REGION settings
                           end
                      else AWS_DEFAULT_REGION settings;
            cloudwatch_client := match cloudwatch_init with
                                 | Return _ => true
                                 | Raise _ => false
                                 end |}.

(** The dictionary made of a bucket. *)
Record BucketData : Type := mkBucketData {
  name : string;
  bucket_region : string;
  creation_date : string;
  size_bytes : Z;
  size_gb : PyNum;
  object_count : Z
}.

(** A value of the dictionary [get_buckets] returns, or of the one
    [fetch_s3_resources] returns. *)
Inductive Value : Type :=
| BucketList (l : list BucketData)
| Summary (figures : Dict PyNum)
| Region (r : string)
| ErrorText (s : string).

(** [_empty_response] *)
Definition _empty_response (self : t) : Dict Value :=
  [("buckets", BucketList []);
   ("summary", Summary [("total", NumInt 0);
                        ("total_size_bytes", NumInt 0);
                        ("total_size_gb", NumInt 0)]);
   ("region", Region (region self))].

Section Client.

(** [d.strftime('%Y-%m-%d %H:%M:%S')] *)
Variable strftime : datetime -> string.

Variable service : Service.

(** [_get_bucket_region] *)
Definition _get_bucket_region (bucket_name : string) (calls : Calls)
  : string * Calls :=
  let '(response, n) :=
    BaseClient.safe_api_call (client_get_bucket_location service bucket_name)
      BaseClient.default_max_retries (s3_calls calls) in
  let calls := mkCalls n (cloudwatch_calls calls) (listings calls) in
  match response with
  | Some (mkLocation (Some constraint)) =>
      (if truthy constraint
       then match constraint with
            | Some region => region
            | None => "us-east-1"
            end
       else "us-east-1",
       calls)
  | _ => ("Unknown", calls)
  end.

(** The keys [sorted] computes before it sorts: [x['Timestamp']] of
    every datapoint. *)
Definition timestamp_keys (datapoints : list Datapoint)
  : PyResult (list (datetime * Datapoint)) :=
  for_each
    (fun keyed x =>
       match Timestamp x with
       | Some timestamp => Return (keyed ++ [(timestamp, x)])%list
       | None => Raise (mkExn KeyError "'Timestamp'")
       end)
    datapoints [].

(** A stable sort, later timestamps first. *)
Fixpoint insert_by_timestamp (x : datetime * Datapoint)
  (l : list (datetime * Datapoint)) : list (datetime * Datapoint) :=
  match l with
  | [] => [x]
  | y :: l' =>
      if instant (fst x) <? instant (fst y)
      then y :: insert_by_timestamp x l'
      else x :: l
  end.

(** [sorted(datapoints, key=lambda x: x['Timestamp'], reverse=True)] *)
Definition sorted_by_timestamp (datapoints : list Datapoint)
  : PyResult (list Datapoint) :=
  keyed <- timestamp_keys datapoints ;;
  Return (map snd (fold_right insert_by_timestamp [] keyed)).

(** What [_get_bucket_metrics] reads from the response to one of its
    two requests: [0], or [int(datapoints[0]['Average'])] for the
    datapoints of the response sorted by timestamp, latest first. *)
Definition latest_average (response : option MetricStatistics) : PyResult Z :=
  match response with
  | Some (mkStatistics (Some ((_ :: _) as datapoints))) =>
      datapoints <- sorted_by_timestamp datapoints ;;
      match datapoints with
      | first :: _ =>
          match Average first with
          | Some average => int_of_float average
          | None => Raise (mkExn KeyError "'Average'")
          end
      | [] => Raise (mkExn IndexError "list index out of range")
      end
  | _ => Return 0
  end.

(** [for obj in page['Contents']: size_bytes += obj.get('Size', 0);
    object_count += 1] *)
Definition count_objects (contents : list S3Object) (totals : Z * Z) : Z * Z :=
  fold_left
    (fun '(size_bytes, object_count) obj =>
       (size_bytes + match Size obj with
                     | Some size => size
                     | None => 0
                     end,
        object_count + 1))
    contents totals.

(** [_get_bucket_metrics_direct] *)
Definition _get_bucket_metrics_direct (bucket_name : string) (calls : Calls)
  : (Z * Z) * Calls :=
  let page_iterator := list_objects_v2_pages service bucket_name (listings calls) in
  let calls := mkCalls (s3_calls calls) (cloudwatch_calls calls)
                 (S (listings calls)) in
  let counted :=
    for_each
      (fun totals next_page =>
         page <- next_page ;;
         match Contents page with
         | Some contents => Return (count_objects contents totals)
         | None => Return totals
         end)
      page_iterator (0, 0) in
  match counted with
  | Return totals => (totals, calls)
  | Raise e => ((0, 0), calls)
  end.

(** The request [_get_bucket_metrics] makes for a metric. *)
Definition metric_statistics (metric_name storage_type bucket_name : string)
  (calls : Calls) : option MetricStatistics * Calls :=
  let '(response, n) :=
    BaseClient.safe_api_call
      (cloudwatch_get_metric_statistics service metric_name storage_type bucket_name)
      BaseClient.default_max_retries (cloudwatch_calls calls) in
  (response, mkCalls (s3_calls calls) n (listings calls)).

(** [_get_bucket_metrics] *)
Definition _get_bucket_metrics (self : t) (bucket_name : string) (calls : Calls)
  : (Z * Z) * Calls :=
  if cloudwatch_client self then
    let '(size_response, calls) :=
      metric_statistics "BucketSizeBytes" "StandardStorage" bucket_name calls in
    match latest_average size_response with
    | Raise e => _get_bucket_metrics_direct bucket_name calls
    | Return size_bytes =>
        let '(count_response, calls) :=
          metric_statistics "NumberOfObjects" "AllStorageTypes" bucket_name calls in
        match latest_average count_response with
        | Raise e => _get_bucket_metrics_direct bucket_name calls
        | Return object_count =>
            if (0 <? size_bytes) || (0 <? object_count)
            then ((size_bytes, object_count), calls)
            else _get_bucket_metrics_direct bucket_name calls
        end
    end
  else _get_bucket_metrics_direct bucket_name calls.

(** [round(n / (1024 ** 3), 2) if n > 0 else 0] *)
Definition gigabytes (n : Z) : PyResult PyNum :=
  match n with
  | Z.pos p =>
      x <- int_truediv p (1024 ^ 3) ;;
      Return (NumFloat (float_round2 x))
  | _ => Return (NumInt 0)
  end.

(** [_parse_bucket] *)
Definition _parse_bucket (self : t) (bucket : Bucket) (calls : Calls)
  : PyResult BucketData * Calls :=
  match Name bucket with
  | None => (Raise (mkExn KeyError "'Name'"), calls)
  | Some bucket_name =>
      let creation_date := CreationDate bucket in
      let '(bucket_region, calls) := _get_bucket_region bucket_name calls in
      let '((size_bytes, object_count), calls) :=
        _get_bucket_metrics self bucket_name calls in
      let creation_date_str :=
        match creation_date with
        | Some d => strftime d
        | None => "N/A"
        end in
      (size_gb <- gigabytes size_bytes ;;
       Return {| name := bucket_name;
                 bucket_region := bucket_region;
                 creation_date := creation_date_str;
                 size_bytes := size_bytes;
                 size_gb := size_gb;
                 object_count := object_count |},
       calls)
  end.

(** The loop of [get_buckets] over [response['Buckets']]; the state is
    the [buckets] list and [total_size_bytes]. *)
Fixpoint parse_buckets (self : t) (bucket_list : list Bucket)
  (buckets : list BucketData) (total_size_bytes : Z) (calls : Calls)
  : PyResult (list BucketData * Z) * Calls :=
  match bucket_list with
  | [] => (Return (buckets, total_size_bytes), calls)
  | bucket :: rest =>
      match _parse_bucket self bucket calls with
      | (Raise e, calls) => (Raise e, calls)
      | (Return bucket_data, calls) =>
          let buckets := (buckets ++ [bucket_data])%list in
          let total_size_bytes :=
            if 0 <? size_bytes bucket_data
            then total_size_bytes + size_bytes bucket_data
            else total_size_bytes in
          parse_buckets self rest buckets total_size_bytes calls
      end
  end.

(** [get_buckets] *)
Definition get_buckets (self : t) (calls : Calls) : Dict Value * Calls :=
  let '(response, n) :=
    BaseClient.safe_api_call (client_list_buckets service)
      BaseClient.default_max_retries (s3_calls calls) in
  let calls := mkCalls n (cloudwatch_calls calls) (listings calls) in
  match response with
  | Some (mkBuckets (Some bucket_list)) =>
      match parse_buckets self bucket_list [] 0 calls with
      | (Raise e, calls) => (_empty_response self, calls)
      | (Return (buckets, total_size_bytes), calls) =>
          let total_buckets := Z.of_nat (List.length buckets) in
          match gigabytes total_size_bytes with
          | Raise e => (_empty_response self, calls)
          | Return total_size_gb =>
              ([("buckets", BucketList buckets);
                ("summary",
                 Summary [("total", NumInt total_buckets);
                          ("total_size_bytes", NumInt total_size_bytes);
                          ("total_size_gb", total_size_gb)]);
                ("region", Region (region self))],
               calls)
          end
      end
  | _ => (_empty_response self, calls)
  end.

End Client.

End S3Client.

(** ** services/resource_aggregator.py: the S3 buckets *)

(** [fetch_s3_resources]: [s3_init] and [cloudwatch_init] are what the
    constructions of the two clients of [S3Client()] do. *)
Definition fetch_s3_resources (settings : Settings)
  (strftime : datetime -> string) (service : S3Client.Service)
  (s3_init cloudwatch_init : PyResult unit) (calls : S3Client.Calls)
  : Dict S3Client.Value * S3Client.Calls :=
  match S3Client.init settings s3_init cloudwatch_init None with
  | Return client => S3Client.get_buckets strftime service client calls
  | Raise e =>
      ([("buckets", S3Client.BucketList []);
        ("summary", S3Client.Summary [("total", NumInt 0);
                                      ("total_size_bytes", NumInt 0);
                                      ("total_size_gb", NumInt 0)]);
        ("error", S3Client.ErrorText (exn_str e))],
       calls)
  end.

(* ================================================================== *)
(** * Part II: the vocabulary of the properties *)
(* ================================================================== *)

Section Vocabulary.

Import ParallelFetcher.
Import CostExplorer.

(** ** The parallel fetcher *)

(** What ends up in [results] for a region, given how its fetch ended. *)
Definition recorded (timeout : Z) (region : string) (outcome : PyResult Payload)
  : Payload :=
  match outcome with
  | Return result => result
  | Raise e =>
      if is_TimeoutError e then timeout_entry timeout region
      else error_entry e region
  end.

(** Every submitted future carries the outcome of its region's fetch. *)
Definition runs_fetch (fetch_function : string -> FetchRun)
  (fr : Future * string) : Prop :=
  fut_outcome (fst fr) = run_outcome (fetch_function (snd fr)).

(** ** Aggregates *)

(** ['error' in result] *)
Definition has_error (kv : string * Payload) : bool := dict_has "error" (snd kv).

(** The regions of a result dictionary without an ['error'] key, in order. *)
Definition ok_regions (d : Dict Payload) : list string :=
  map fst (filter (fun kv => negb (has_error kv)) d).

(** The error entries of a result dictionary, in order. *)
Definition error_entries (d : Dict Payload) : list ErrorEntry :=
  map (fun kv => mkError (fst kv) (dict_get_default "error" PyNone (snd kv)))
      (filter has_error d).

(** What an aggregate says about the dictionary it was built from. *)
Definition partitions (d : Dict Payload) (succeeded : list string)
  (errs : list ErrorEntry) : Prop :=
  (List.length succeeded + List.length errs = List.length d)%nat /\
  NoDup (succeeded ++ map err_region errs) /\
  forall r, In r (dict_keys d) <-> In r (succeeded ++ map err_region errs).

(** A region is a failure exactly when its result has an ['error'] key. *)
Definition classified_by_error_key (d : Dict Payload) (succeeded : list string)
  (errs : list ErrorEntry) : Prop :=
  forall (region : string) (result : Payload),
    dict_get region d = Some result ->
    (In region (map err_region errs) <-> dict_has "error" result = true) /\
    (In region succeeded <-> dict_has "error" result = false) /\
    (forall v, dict_get "error" result = Some v -> In (mkError region v) errs).

(** The item list [aggregate_results] reads from a result, if any: the
    first of ['instances'], ['buckets'], ['databases'], ['items']. *)
Definition items_field (result : Payload) : option PyVal :=
  match dict_get "instances" result with
  | Some v => Some v
  | None =>
      match dict_get "buckets" result with
      | Some v => Some v
      | None =>
          match dict_get "databases" result with
          | Some v => Some v
          | None => dict_get "items" result
          end
      end
  end.

(** A result [aggregate_results] can merge: a failure, or a payload
    whose item list can be walked through. *)
Definition mergeable (kv : string * Payload) : Prop :=
  dict_has "error" (snd kv) = true \/
  forall v, items_field (snd kv) = Some v -> exists xs, py_iter v = Return xs.

(** A result [fetch_ec2_resources] can merge: a failure, or a payload
    whose instances can be walked through and whose summary is a
    dictionary of integer counters. *)
Definition mergeable_ec2 (kv : string * Payload) : Prop :=
  dict_has "error" (snd kv) = true \/
  ((exists xs, py_iter (dict_get_default "instances" (PyList []) (snd kv)) = Return xs) /\
   exists counters,
     dict_get_default "summary" (PyDict []) (snd kv) = PyDict counters /\
     forall k, exists z, dict_get_default k (PyInt 0) counters = PyInt z).


(** ** The calendar *)

(** The first day of the month after month [m] of year [y]. *)
Definition next_month_start (y m : Z) : date :=
  if m <? 12 then mkDate y (m + 1) 1 else mkDate (y + 1) 1 1.

(** The dates of a snapshot taken on [today], when none overflows. *)
Definition dates_in_range (today : date) : Prop :=
  (exists d, date_add_days (mkDate (year today) (month today) 1) 32 = Return d) /\
  (exists d, date_add_days today (-30) = Return d).

(** ** The cost client *)

(** The value a computation settles on when its failure is caught. *)
Definition or_default {A : Type} (default : A) (m : PyResult A) : A :=
  match m with
  | Return a => a
  | Raise _ => default
  end.

(** The outcome of a request for the time buckets of a response. *)
Definition from_buckets {A : Type} (default : A)
  (read : list ResultByTime -> PyResult A) (response : option Response) : A :=
  match response with
  | Some (mkResponse (Some results)) => or_default default (read results)
  | _ => default
  end.

(** The request [_get_cost_for_period] sends. *)
Definition period_request (start_date end_date : date) : Request :=
  {| req_Start := date_str start_date;
     req_End := date_str end_date;
     req_Granularity := "MONTHLY";
     req_Metrics := ["UnblendedCost"];
     req_GroupBy := [] |}.

(** The request [_get_daily_costs] sends. *)
Definition daily_request (start_date end_date : date) : Request :=
  {| req_Start := date_str start_date;
     req_End := date_str end_date;
     req_Granularity := "DAILY";
     req_Metrics := ["UnblendedCost"];
     req_GroupBy := [] |}.

(** The request [_get_service_breakdown] sends. *)
Definition breakdown_request (start_date end_date : date) : Request :=
  {| req_Start := date_str start_date;
     req_End := date_str end_date;
     req_Granularity := "MONTHLY";
     req_Metrics := ["UnblendedCost"];
     req_GroupBy := [("Type", "DIMENSION"); ("Key", "SERVICE")] |}.

(** The response to a request issued after [calls] invocations. *)
Definition response_to
  (service_api : Request -> nat -> BaseClient.CallOutcome Response)
  (request : Request) (calls : nat) : option Response :=
  fst (BaseClient.safe_api_call (service_api request)
         BaseClient.default_max_retries calls).

(** The invocations made once that request is answered. *)
Definition calls_after
  (service_api : Request -> nat -> BaseClient.CallOutcome Response)
  (request : Request) (calls : nat) : nat :=
  snd (BaseClient.safe_api_call (service_api request)
         BaseClient.default_max_retries calls).

(** A sub-call has failed: the request gave no response, the response
    has no ['ResultsByTime'], or reading its buckets raised. *)
Definition sub_call_failed {A : Type}
  (read : list CostExplorer.ResultByTime -> PyResult A)
  (response : option CostExplorer.Response) : Prop :=
  response = None \/
  response = Some (CostExplorer.mkResponse None) \/
  exists results e,
    response = Some (CostExplorer.mkResponse (Some results)) /\
    read results = Raise e.

(** The snapshot built on [today] from what the four sub-calls gave. *)
Definition snapshot_from (today : date) (mtd : float) (daily : list DailyCost)
  (services : list ServiceCost) (yesterday : float) : CostSnapshot :=
  let average := average_per_day mtd (day today) in
  let days := month_days (year today) (month today) in
  [("mtd_cost", Number (NumFloat (float_round2 mtd)));
   ("projected_eom_cost", Number (num_round2 (num_mul_int average days)));
   ("daily_average", Number (num_round2 average));
   ("yesterday_cost", Number (NumFloat (float_round2 yesterday)));
   ("daily_costs", DailyCosts daily);
   ("service_costs", ServiceCosts services);
   ("metadata",
    MetadataDict
      [("month_start", MetaStr (date_str (mkDate (year today) (month today) 1)));
       ("today", MetaStr (date_str today));
       ("days_elapsed", MetaInt (day today));
       ("days_in_month", MetaInt days)])].

(** The keys of a snapshot. *)
Definition snapshot_keys : list string :=
  ["mtd_cost"; "projected_eom_cost"; "daily_average"; "yesterday_cost";
   "daily_costs"; "service_costs"; "metadata"].

(** ** The service breakdown *)

(** A number: not an infinity, not NaN. *)
Definition is_finite (x : float) : bool :=
  match x with
  | S754_zero _ | S754_finite _ _ _ => true
  | _ => false
  end.

(** [x] may stand before [y]: its cost is not the smaller one. *)
Definition by_cost_desc (x y : ServiceCost) : Prop := SFleb (cost y) (cost x) = true.

(** An entry whose cost is not NaN. *)
Definition cost_not_nan (x : ServiceCost) : Prop := is_nan (cost x) = false.

(** A total that is not NaN. *)
Definition value_not_nan (kv : string * float) : Prop := is_nan (snd kv) = false.

(** The label and the amount [add_group] reads from a group. *)
Definition group_entry (float_of_str : string -> PyResult float)
  (group : Group) : PyResult (string * float) :=
  service_name <- first_item (match Keys group with
                              | Some keys => keys
                              | None => ["Unknown"]
                              end) ;;
  cost <- float_of_str (unblended_amount (Metrics group)) ;;
  Return (service_name, cost).

(** A group of a billing response: it has a label, and its amount is a
    number. *)
Definition billed (float_of_str : string -> PyResult float)
  (group : CostExplorer.Group) : Prop :=
  CostExplorer.Keys group <> Some [] /\
  exists x,
    float_of_str (CostExplorer.unblended_amount (CostExplorer.Metrics group))
      = Return x /\
    is_finite x = true.

(** What [add_group] does to [service_totals] with a label and an amount. *)
Definition upsert (service_totals : Dict float) (entry : string * float) : Dict float :=
  match dict_get (fst entry) service_totals with
  | Some total => dict_set (fst entry) (float_add total (snd entry)) service_totals
  | None => dict_set (fst entry) (snd entry) service_totals
  end.

(** The groups of all the time buckets, in order. *)
Definition all_groups (results : list ResultByTime) : list Group :=
  flat_map (fun result => match Groups result with
                          | Some groups => groups
                          | None => []
                          end) results.

(** [f] over a list, stopping at the first exception. *)
Fixpoint map_result {A B : Type} (f : A -> PyResult B) (l : list A)
  : PyResult (list B) :=
  match l with
  | [] => Return []
  | x :: l' => y <- f x ;; ys <- map_result f l' ;; Return (y :: ys)
  end.

(** The amounts billed under a label, in order. *)
Definition amounts_of (label : string) (entries : list (string * float)) : list float :=
  map snd (filter (fun entry => String.eqb (fst entry) label) entries).

(** The running total of a label: the first amount, then each further
    amount added to it. *)
Definition add_amounts (start : option float) (amounts : list float) : option float :=
  fold_left (fun total a => Some (match total with
                                  | Some t => float_add t a
                                  | None => a
                                  end)) amounts start.

(** ** The retrying call *)

(** An invocation that ended with a permission error. *)
Definition permission_denied {R : Type} (outcome : BaseClient.CallOutcome R) : bool :=
  match outcome with
  | BaseClient.ClientError code _ =>
      BaseClient.mem_string code BaseClient.permission_codes
  | _ => false
  end.

(** An invocation that failed in a way [safe_api_call] tries again after. *)
Definition retried {R : Type} (outcome : BaseClient.CallOutcome R) : bool :=
  match outcome with
  | BaseClient.Responded _ => false
  | _ => negb (permission_denied outcome)
  end.

(** ** What the aggregation loops add up *)

(** The elements [l.extend(result.get(key, []))] takes from a result
    without an ['error'] key. *)
Definition listed (key : string) (kv : string * Payload) : list PyVal :=
  if has_error kv then []
  else or_default [] (py_iter (dict_get_default key (PyList []) (snd kv))).

(** The integer [result.get(section, {}).get(key, 0)] of a result
    without an ['error'] key. *)
Definition counted (section key : string) (kv : string * Payload) : Z :=
  if has_error kv then 0
  else match dict_get_default section (PyDict []) (snd kv) with
       | PyDict counters =>
           match dict_get_default key (PyInt 0) counters with
           | PyInt z => z
           | _ => 0
           end
       | _ => 0
       end.

Definition sum_Z (l : list Z) : Z := fold_right Z.add 0 l.

(** The elements [aggregate_results] takes from a result. *)
Definition merged_items (kv : string * Payload) : list PyVal :=
  if has_error kv then []
  else match items_field (snd kv) with
       | Some v => or_default [] (py_iter v)
       | None => []
       end.

(** ** The daily costs *)

(** The amount of a time bucket reads as a float. *)
Definition amount_reads (float_of_str : string -> PyResult float)
  (result : ResultByTime) : bool :=
  match float_of_str (unblended_amount (Total result)) with
  | Return _ => true
  | Raise _ => false
  end.

(** The entry [_get_daily_costs] makes of a time bucket. *)
Definition daily_entry (float_of_str : string -> PyResult float)
  (result : ResultByTime) : DailyCost :=
  mkDaily (dict_get_default "Start" "Unknown" (or_empty (TimePeriod result)))
          (float_round2
             (or_default float_zero
                (float_of_str (unblended_amount (Total result))))).

(** ** The resource summary *)

(** The section of [resources] is a dictionary (or is missing) and so is
    its ['summary']. *)
Definition summary_readable (resources : Dict PyVal) (section : string) : Prop :=
  exists fields counters,
    dict_get_default section (PyDict []) resources = PyDict fields /\
    dict_get_default "summary" (PyDict []) fields = PyDict counters.

(** The counter [key] of the summary of a section, [0] when the section,
    its summary or the counter is missing. *)
Definition figure (resources : Dict PyVal) (section key : string) : PyVal :=
  match dict_get_default section (PyDict []) resources with
  | PyDict fields =>
      match dict_get_default "summary" (PyDict []) fields with
      | PyDict counters => dict_get_default key (PyInt 0) counters
      | _ => PyInt 0
      end
  | _ => PyInt 0
  end.

(** ** Region names in the environment *)

(** [c in s] for a character. *)
Fixpoint has_char (c : ascii) (s : string) : bool :=
  match s with
  | EmptyString => false
  | String c' s' => Ascii.eqb c' c || has_char c s'
  end.

(** A name as [ENABLED_REGIONS] lists it: not empty, no blank in front
    or behind, no comma. *)
Definition tidy (name : string) : Prop :=
  name <> EmptyString /\ str_strip name = name /\ has_char "," name = false.

(** A string made of blanks and commas only. *)
Fixpoint blanks_and_commas (s : string) : bool :=
  match s with
  | EmptyString => true
  | String c s' => (isspace c || Ascii.eqb c ",") && blanks_and_commas s'
  end.

(** A string that does not start with a blank. *)
Definition starts_clean (s : string) : Prop :=
  match s with
  | EmptyString => True
  | String c _ => isspace c = false
  end.

(** A string made of blanks only. *)
Fixpoint all_blank (s : string) : bool :=
  match s with
  | EmptyString => true
  | String c s' => isspace c && all_blank s'
  end.

(** ** The pages of a table listing *)

(** The response to the [get_tables] request made with [next_token]
    after [calls] invocations, and the invocations made once it is
    answered. *)
Definition tables_response (service : GlueClient.Service) (database_name : string)
  (next_token : option string) (calls : nat)
  : option GlueClient.GetTablesResponse * nat :=
  BaseClient.safe_api_call
    (GlueClient.client_get_tables service database_name
       (if truthy next_token then next_token else None))
    BaseClient.default_max_retries calls.

(** The service serves the pages [pages], one after the other, to the
    requests that start with [next_token] after [calls] invocations;
    [calls'] invocations have been made when the listing ends.  A
    listing ends with a page that carries no token, or with a request
    that gives no table list. *)
Inductive serves (service : GlueClient.Service) (database_name : string)
  : option string -> nat -> list (list GlueClient.Table) -> nat -> Prop :=
| serves_nothing (next_token : option string) (calls : nat)
    (response : option GlueClient.GetTablesResponse) (calls' : nat) :
    tables_response service database_name next_token calls = (response, calls') ->
    (forall table_list token,
       response <> Some (GlueClient.mkTables (Some table_list) token)) ->
    serves service database_name next_token calls [] calls'
| serves_last (next_token : option string) (calls : nat)
    (table_list : list GlueClient.Table) (token : option string) (calls' : nat) :
    tables_response service database_name next_token calls
      = (Some (GlueClient.mkTables (Some table_list) token), calls') ->
    truthy token = false ->
    serves service database_name next_token calls [table_list] calls'
| serves_more (next_token : option string) (calls : nat)
    (table_list : list GlueClient.Table) (token : option string) (calls' : nat)
    (pages : list (list GlueClient.Table)) (calls'' : nat) :
    tables_response service database_name next_token calls
      = (Some (GlueClient.mkTables (Some table_list) token), calls') ->
    truthy token = true ->
    serves service database_name token calls' pages calls'' ->
    serves service database_name next_token calls (table_list :: pages) calls''.

(** A service that hands out a token with every page of tables. *)
Definition endless (service : GlueClient.Service) (database_name : string) : Prop :=
  forall (next_token : option string) (n : nat),
    exists table_list token,
      GlueClient.client_get_tables service database_name next_token n
        = BaseClient.Responded (GlueClient.mkTables (Some table_list) token) /\
      truthy token = true /\
      Forall (fun table => GlueClient.Table_Name table <> None) table_list.

(** The dictionary [get_databases] returns for the databases [databases]. *)
Definition glue_result (self_region : string)
  (databases : list GlueClient.DatabaseData) : Dict GlueClient.Value :=
  [("databases", GlueClient.Databases databases);
   ("summary",
    GlueClient.Summary
      [("total_databases", List.length databases);
       ("total_tables", list_sum (map GlueClient.table_count databases))]);
   ("region", GlueClient.Region self_region)].

(** A database entry agrees with the tables it lists and with the client. *)
Definition database_consistent (self_region : string)
  (data : GlueClient.DatabaseData) : Prop :=
  GlueClient.table_count data = List.length (GlueClient.tables data) /\
  GlueClient.region data = self_region /\
  Forall (fun table => GlueClient.table_database table = GlueClient.name data)
         (GlueClient.tables data).

(** The names of the databases of a response when each has one. *)
Definition database_names (database_list : list GlueClient.Database)
  : option (list string) :=
  fold_right (fun db names =>
                match GlueClient.Name db, names with
                | Some n, Some ns => Some (n :: ns)
                | _, _ => None
                end)
             (Some []) database_list.

(** ** The listings of the SageMaker client *)

(** The entries a listing gives: one per item of the response, in its
    order, and none at all when an item cannot be read or the response
    has no list. *)
Definition entries_of {A B : Type} (data : A -> PyResult B)
  (items : option (list A)) : list B :=
  match items with
  | Some l => or_default [] (map_result data l)
  | None => []
  end.

(** The list a response holds, if there is a response. *)
Definition field_of {R A : Type} (field : R -> option (list A))
  (response : option R) : option (list A) :=
  match response with
  | Some r => field r
  | None => None
  end.

(** ** The S3 buckets *)

(** The objects of the pages an iterator yields, when no page raises. *)
Fixpoint objects_listed (pages : list (PyResult S3Client.Page))
  : option (list S3Client.S3Object) :=
  match pages with
  | [] => Some []
  | Return page :: rest =>
      match objects_listed rest with
      | Some objects =>
          Some (match S3Client.Contents page with
                | Some contents => contents
                | None => []
                end ++ objects)%list
      | None => None
      end
  | Raise _ :: _ => None
  end.

(** [obj.get('Size', 0)] *)
Definition size_of (obj : S3Client.S3Object) : Z :=
  match S3Client.Size obj with
  | Some size => size
  | None => 0
  end.

(** The dictionary [get_buckets] returns for the entries [buckets]: the
    sizes that are positive are summed. *)
Definition s3_result (self : S3Client.t) (buckets : list S3Client.BucketData)
  : Dict S3Client.Value :=
  let total_size_bytes :=
    sum_Z (map (fun bucket => Z.max 0 (S3Client.size_bytes bucket)) buckets) in
  [("buckets", S3Client.BucketList buckets);
   ("summary",
    S3Client.Summary
      [("total", NumInt (Z.of_nat (List.length buckets)));
       ("total_size_bytes", NumInt total_size_bytes);
       ("total_size_gb",
        or_default (NumInt 0) (S3Client.gigabytes total_size_bytes))]);
   ("region", S3Client.Region (S3Client.region self))].

(** The size in gigabytes of an entry is computed from its size in bytes. *)
Definition bucket_consistent (bucket : S3Client.BucketData) : Prop :=
  S3Client.gigabytes (S3Client.size_bytes bucket)
  = Return (S3Client.size_gb bucket).

(** ** Sample inputs *)

(** The results of three regions, the second one a failure. *)
Definition three_region_results : Dict Payload :=
  [("r1", [("instances", PyList [PyStr "i-1"; PyStr "i-2"]);
           ("summary", PyDict [("running", PyInt 2)])]);
   ("r2", [("error", PyStr "PermissionDenied: not authorized");
           ("region", PyStr "r2")]);
   ("r3", [("instances", PyList [PyStr "i-3"; PyStr "i-4"; PyStr "i-5"]);
           ("summary", PyDict [("running", PyInt 1); ("stopped", PyInt 2)])])].

(** A region whose payload lists two instances next to an ['error'] key. *)
Definition mixed_results : Dict Payload :=
  [("r1", [("instances", PyList [PyStr "i-1"])]);
   ("r2", [("instances", PyList [PyStr "i-8"; PyStr "i-9"]);
           ("summary", PyDict [("running", PyInt 2)]);
           ("error", PyStr "partial listing")])].

(** A service that throttles twice and then lists two regions. *)
Definition throttled_ec2 : RegionManager.Ec2Service :=
  {| RegionManager.client_init := fun _ => Return tt;
     RegionManager.describe_regions := fun n =>
       if (n <? 2)%nat then BaseClient.ClientError "Throttling" "Rate exceeded"
       else BaseClient.Responded
              (RegionManager.mkDescribe
                 (Some [RegionManager.mkRegionDesc (Some "us-east-1");
                        RegionManager.mkRegionDesc (Some "eu-west-1")])) |}.

(** A service whose credentials are denied. *)
Definition denied_ec2 : RegionManager.Ec2Service :=
  {| RegionManager.client_init := fun _ => Return tt;
     RegionManager.describe_regions := fun _ =>
       BaseClient.ClientError "UnauthorizedOperation" "not authorized" |}.

(** A service that answers every request with one bucket of 62.00. *)
Definition flat_api (request : CostExplorer.Request) (n : nat)
  : BaseClient.CallOutcome CostExplorer.Response :=
  BaseClient.Responded
    (CostExplorer.mkResponse
       (Some [CostExplorer.mkResult
                (Some [("Start", "2024-06-01"); ("End", "2024-06-10")])
                (Some [("UnblendedCost", [("Amount", "62.00"); ("Unit", "USD")])])
                None])).

(** A service that is throttled on every invocation. *)
Definition throttled_api (request : CostExplorer.Request) (n : nat)
  : BaseClient.CallOutcome CostExplorer.Response :=
  BaseClient.ClientError "ThrottlingException" "Rate exceeded".

(** Two time buckets: A and B in the first, C, B and A in the second. *)
Definition two_buckets : list CostExplorer.ResultByTime :=
  let group name amount :=
    CostExplorer.mkGroup (Some [name])
      (Some [("UnblendedCost", [("Amount", amount); ("Unit", "USD")])]) in
  [CostExplorer.mkResult (Some [("Start", "2024-05-01"); ("End", "2024-06-01")]) None
     (Some [group "A" "2.0"; group "B" "12.5"]);
   CostExplorer.mkResult (Some [("Start", "2024-06-01"); ("End", "2024-06-10")]) None
     (Some [group "C" "1.0"; group "B" "7.5"; group "A" "3.0"])].

(** Two time buckets in which A is billed a little less than B: the
    amounts of A add up to 5.000999, those of B to 5.004. *)
Definition close_totals : list CostExplorer.ResultByTime :=
  let group name amount :=
    CostExplorer.mkGroup (Some [name])
      (Some [("UnblendedCost", [("Amount", amount); ("Unit", "USD")])]) in
  [CostExplorer.mkResult (Some [("Start", "2024-05-01"); ("End", "2024-06-01")]) None
     (Some [group "A" "2.5"; group "B" "2.5"]);
   CostExplorer.mkResult (Some [("Start", "2024-06-01"); ("End", "2024-06-10")]) None
     (Some [group "A" "2.500999"; group "B" "2.504"])].

(** A Glue service with two databases; every table listing has two
    pages, and the second page is throttled once before it is served. *)
Definition two_page_glue : GlueClient.Service :=
  {| GlueClient.client_get_databases := fun _ =>
       BaseClient.Responded
         (GlueClient.mkDatabases
            (Some [GlueClient.mkDatabase (Some "sales") None None None;
                   GlueClient.mkDatabase (Some "logs") (Some "raw logs") None None]));
     GlueClient.client_get_tables := fun database_name next_token n =>
       match next_token with
       | None =>
           BaseClient.Responded
             (GlueClient.mkTables
                (Some [GlueClient.mkTable (Some "orders") None None None None;
                       GlueClient.mkTable (Some "items") None None None None])
                (Some "page-2"))
       | Some _ =>
           if (n <? 2)%nat
           then BaseClient.ClientError "ThrottlingException" "Rate exceeded"
           else BaseClient.Responded
                  (GlueClient.mkTables
                     (Some [GlueClient.mkTable (Some "refunds") None None None None])
                     None)
       end |}.

(** A Glue service that hands out the same token with every page. *)
Definition repeating_glue : GlueClient.Service :=
  {| GlueClient.client_get_databases := fun _ =>
       BaseClient.Responded (GlueClient.mkDatabases (Some []));
     GlueClient.client_get_tables := fun _ _ _ =>
       BaseClient.Responded (GlueClient.mkTables (Some []) (Some "again")) |}.

(** S3 with two buckets.  CloudWatch knows the first one (two
    datapoints per metric, the later one listed first or last) and has
    nothing on the second, whose objects are then listed: two pages,
    three objects. *)
Definition two_bucket_s3 : S3Client.Service :=
  let at_ (seconds : Z) := mkDatetime (seconds * 1000000) 0 in
  {| S3Client.client_list_buckets := fun _ =>
       BaseClient.Responded
         (S3Client.mkBuckets
            (Some [S3Client.mkBucket (Some "logs") (Some (at_ 1700000000));
                   S3Client.mkBucket (Some "scratch") None]));
     S3Client.client_get_bucket_location := fun bucket_name _ =>
       BaseClient.Responded
         (S3Client.mkLocation
            (Some (if String.eqb bucket_name "logs" then None
                   else Some "eu-west-1")));
     S3Client.list_objects_v2_pages := fun _ _ =>
       [Return (S3Client.mkPage
                  (Some [S3Client.mkObject (Some 10); S3Client.mkObject None]));
        Return (S3Client.mkPage None);
        Return (S3Client.mkPage (Some [S3Client.mkObject (Some 5)]))];
     S3Client.cloudwatch_get_metric_statistics :=
       fun metric_name _ bucket_name _ =>
         BaseClient.Responded
           (S3Client.mkStatistics
              (Some (if String.eqb bucket_name "logs"
                     then if String.eqb metric_name "BucketSizeBytes"
                          then [S3Client.mkDatapoint (Some (at_ 1700000000))
                                  (Some (S754_finite false 4096 0));
                                S3Client.mkDatapoint (Some (at_ 1700086400))
                                  (Some (S754_finite false 8193 (-1)))]
                          else [S3Client.mkDatapoint (Some (at_ 1700086400))
                                  (Some (S754_finite false 7 0));
                                S3Client.mkDatapoint (Some (at_ 1700000000))
                                  (Some (S754_finite false 3 0))]
                     else []))) |}.

End Vocabulary.

(* ================================================================== *)
(** * Part III: properties *)
(* ================================================================== *)

(** A bind that returned: its first part returned too. *)
Ltac raise_or_return H :=
  match type of H with
  | bind ?m _ = Return _ =>
      let x := fresh "x" in let E := fresh "E" in
      destruct m as [x | ?] eqn:E; simpl in H; [| discriminate]
  end.

(** ** Dictionaries *)

Lemma dict_get_set_same {V : Type} (k : string) (v : V) (d : Dict V) :
  dict_get k (dict_set k v d) = Some v.
Proof.
  induction d as [| [k' v'] d IH]; simpl.
  - now rewrite String.eqb_refl.
  - destruct (String.eqb k k') eqn:E; simpl; rewrite E; auto.
Qed.

Lemma dict_get_set_other {V : Type} (k k' : string) (v : V) (d : Dict V) :
  k <> k' -> dict_get k (dict_set k' v d) = dict_get k d.
Proof.
  intros Hne. induction d as [| [k0 v0] d IH]; simpl.
  - destruct (String.eqb k k') eqn:E; auto.
    apply String.eqb_eq in E. contradiction.
  - destruct (String.eqb k' k0) eqn:E; simpl.
    + apply String.eqb_eq in E. subst k0.
      destruct (String.eqb k k') eqn:E'; auto.
      apply String.eqb_eq in E'. contradiction.
    + destruct (String.eqb k k0); auto.
Qed.

Lemma dict_keys_set {V : Type} (k x : string) (v : V) (d : Dict V) :
  In x (dict_keys (dict_set k v d)) <-> x = k \/ In x (dict_keys d).
Proof.
  induction d as [| [k' v'] d IH]; simpl.
  - intuition.
  - destruct (String.eqb k k') eqn:E; simpl.
    + apply String.eqb_eq in E. subst k'. intuition.
    + rewrite IH. intuition.
Qed.

Lemma dict_set_wf {V : Type} (k : string) (v : V) (d : Dict V) :
  dict_wf d -> dict_wf (dict_set k v d).
Proof.
  unfold dict_wf. induction d as [| [k' v'] d IH]; simpl; intros Hwf.
  - constructor; [intros [] | constructor].
  - inversion Hwf as [| ? ? Hnotin Hrest]; subst.
    destruct (String.eqb k k') eqn:E; simpl.
    + now constructor.
    + constructor; [| now apply IH].
      intros Hin. apply dict_keys_set in Hin. destruct Hin as [-> | Hin].
      * now rewrite String.eqb_refl in E.
      * contradiction.
Qed.

Lemma dict_get_In_keys {V : Type} (k : string) (d : Dict V) :
  In k (dict_keys d) <-> exists v, dict_get k d = Some v.
Proof.
  induction d as [| [k' v'] d IH]; simpl.
  - split; [intros [] | intros [v Hv]; discriminate].
  - destruct (String.eqb k k') eqn:E.
    + apply String.eqb_eq in E. subst. split; eauto.
    + apply String.eqb_neq in E. rewrite <- IH. intuition congruence.
Qed.

(** ** The parallel fetcher *)
Section Fetcher.

Import ParallelFetcher.

(** [as_completed] yields a future when it is finished, so the wait of
    [future.result] is over before it starts: the timeout plays no part. *)
Lemma collect_records (timeout now : Z) (results : Dict Payload)
  (future : Future) (region : string) :
  collect timeout (now, results) (future, region) =
  (Z.max now (fut_done_at future),
   dict_set region (recorded timeout region (fut_outcome future)) results).
Proof.
  unfold collect, Future_result, recorded.
  assert (H : (fut_done_at future <=? Z.max now (fut_done_at future)) = true)
    by (apply Z.leb_le; lia).
  rewrite H. destruct (fut_outcome future) as [result | e]; auto.
  destruct (is_TimeoutError e); auto.
Qed.

Lemma insert_by_done_perm (x : Future * string) (l : list (Future * string)) :
  Permutation (insert_by_done x l) (x :: l).
Proof.
  induction l as [| y l IH]; simpl; auto.
  destruct (fut_done_at (fst y) <=? fut_done_at (fst x)); auto.
  rewrite IH. apply perm_swap.
Qed.

Lemma as_completed_perm (fs : list (Future * string)) :
  Permutation (as_completed fs) fs.
Proof.
  unfold as_completed.
  assert (G : forall acc, Permutation
            (fold_left (fun acc x => insert_by_done x acc) fs acc) (fs ++ acc)%list).
  { induction fs as [| x fs IH]; intros acc; simpl; auto.
    rewrite IH, insert_by_done_perm. symmetry. apply Permutation_middle. }
  specialize (G []). now rewrite app_nil_r in G.
Qed.

Lemma collect_all_keys (timeout : Z) (l : list (Future * string)) :
  forall (now : Z) (results : Dict Payload),
    dict_wf results ->
    dict_wf (snd (fold_left (collect timeout) l (now, results))) /\
    forall r, In r (dict_keys (snd (fold_left (collect timeout) l (now, results))))
              <-> In r (map snd l) \/ In r (dict_keys results).
Proof.
  induction l as [| [future region] l IH]; intros now results Hwf.
  - simpl. split; [assumption | tauto].
  - cbn [fold_left]. rewrite collect_records.
    destruct (IH (Z.max now (fut_done_at future))
                (dict_set region (recorded timeout region (fut_outcome future)) results)
                (dict_set_wf _ _ _ Hwf)) as [IHwf IHkeys].
    split; [assumption |].
    intros r. rewrite IHkeys, dict_keys_set. simpl.
    split; intros H; repeat destruct H as [H | H]; subst; auto.
Qed.

Variable settings : Settings.
Variable schedule : nat -> Z.
Variable fetch_function : string -> FetchRun.

Lemma submit_all_runs_fetch (executor : Executor) (i : nat) (regions : list string) :
  Forall (runs_fetch fetch_function) (submit_all executor fetch_function i regions).
Proof.
  revert i. induction regions as [| r regions IH]; intros i; simpl; constructor; auto.
  reflexivity.
Qed.

Lemma submit_all_regions (executor : Executor) (i : nat) (regions : list string) :
  map snd (submit_all executor fetch_function i regions) = regions.
Proof.
  revert i. induction regions as [| r regions IH]; intros i; simpl; auto.
  now rewrite IH.
Qed.

(** The loop over the completed futures, seen from one region. *)
Lemma collect_all_get (timeout : Z) (r : string) (l : list (Future * string)) :
  Forall (runs_fetch fetch_function) l ->
  forall (now : Z) (results : Dict Payload),
    (In r (map snd l) ->
     dict_get r (snd (fold_left (collect timeout) l (now, results))) =
     Some (recorded timeout r (run_outcome (fetch_function r)))) /\
    (~ In r (map snd l) ->
     dict_get r (snd (fold_left (collect timeout) l (now, results))) =
     dict_get r results).
Proof.
  induction 1 as [| [future region] l Hrun _ IH]; intros now results.
  - simpl. split; [intros [] | auto].
  - cbn [fold_left]. rewrite collect_records.
    destruct (IH (Z.max now (fut_done_at future))
                (dict_set region (recorded timeout region (fut_outcome future)) results))
      as [IHin IHout].
    destruct (in_dec string_dec r (map snd l)) as [Hin | Hout].
    + split; [intros _; now apply IHin |].
      intros Hnot. exfalso. apply Hnot. simpl. now right.
    + split.
      * simpl. intros [-> | Hin]; [| contradiction].
        rewrite IHout by assumption. rewrite dict_get_set_same.
        unfold runs_fetch in Hrun. simpl in Hrun. now rewrite Hrun.
      * simpl. intros Hnot. rewrite IHout by assumption.
        apply dict_get_set_other. intuition.
Qed.

(** What [fetch_from_regions] returns once the pool could be built. *)
Lemma fetch_from_regions_returns (self : t) (regions : list string)
  (timeout : option Z) :
  0 < max_workers self ->
  exists results,
    fetch_from_regions settings schedule self regions fetch_function timeout
      = (Return results, regions) /\
    dict_wf results /\
    (forall r, In r (dict_keys results) <-> In r regions) /\
    (forall r, In r regions ->
       dict_get r results =
       Some (recorded (int_or timeout (API_TIMEOUT settings)) r
               (run_outcome (fetch_function r)))).
Proof.
  intros Hworkers. unfold fetch_from_regions.
  destruct regions as [| r0 regions'] eqn:Eregions.
  - exists []. split; [reflexivity | split; [constructor | split]].
    + intros r. simpl. tauto.
    + intros r [].
  - lazy iota zeta. rewrite <- Eregions. clear Eregions r0 regions'.
    unfold ThreadPoolExecutor.
    assert (Hpool : (max_workers self <=? 0) = false) by (apply Z.leb_gt; lia).
    rewrite Hpool.
    set (executor := mkExecutor (max_workers self) schedule).
    set (T := int_or timeout (API_TIMEOUT settings)).
    set (fs := submit_all executor fetch_function 0 regions).
    set (results := snd (fold_left (collect T) (as_completed fs) (0, []))).
    assert (Hregs : forall r, In r (map snd (as_completed fs)) <-> In r regions).
    { intros r. unfold fs at 1.
      rewrite <- (submit_all_regions executor 0 regions) at 2.
      split; apply Permutation_in, Permutation_map;
        [| symmetry]; apply as_completed_perm. }
    exists results. split; [| split; [| split]].
    + unfold results, fs. rewrite submit_all_regions.
      now destruct (fold_left _ _ _).
    + apply collect_all_keys. constructor.
    + intros r.
      destruct (collect_all_keys T (as_completed fs) 0 []) as [_ Hkeys]; [constructor |].
      unfold results. rewrite Hkeys, Hregs. simpl. intuition.
    + intros r Hin. apply collect_all_get.
      * eapply Permutation_Forall; [symmetry; apply as_completed_perm |].
        apply submit_all_runs_fetch.
      * now apply Hregs.
Qed.

End Fetcher.

(** *** Totality of the fan-out *)

(** C2: for every list of regions and every fetch function,
    [fetch_from_regions] returns a dictionary whose keys are exactly the
    regions of the list, each once; for the empty list it returns the
    empty dictionary and invokes the fetch function on nothing.  The
    worker bound of the fetcher is positive, as [ThreadPoolExecutor]
    requires of every pool it builds. *)
Theorem fetch_from_regions_total :
  forall (settings : Settings) (schedule : nat -> Z) (self : ParallelFetcher.t)
         (fetch_function : string -> FetchRun) (timeout : option Z),
    ParallelFetcher.fetch_from_regions settings schedule self [] fetch_function timeout
      = (Return [], []) /\
    forall regions : list string,
      0 < ParallelFetcher.max_workers self ->
      exists results,
        ParallelFetcher.fetch_from_regions settings schedule self regions
          fetch_function timeout = (Return results, regions) /\
        dict_wf results /\
        forall r, In r (dict_keys results) <-> In r regions.
Proof.
  intros settings schedule self fetch_function timeout. split; [reflexivity |].
  intros regions Hworkers.
  destruct (fetch_from_regions_returns settings schedule fetch_function self
              regions timeout Hworkers) as (results & Heq & Hwf & Hkeys & _).
  exists results. auto.
Qed.

(** Three regions, one of them twice in the list: three keys. *)
Lemma fetch_from_regions_total_witness :
  exists results,
    ParallelFetcher.fetch_from_regions default_settings (fun _ => 0)
      (ParallelFetcher.init default_settings None)
      ["us-east-1"; "eu-west-1"; "us-east-1"; "ap-south-1"]
      (fun region => mkRun 2 (Return [("instances", PyList [PyStr region])]))
      None
    = (Return results, ["us-east-1"; "eu-west-1"; "us-east-1"; "ap-south-1"]) /\
    dict_wf results /\
    forall r, In r (dict_keys results)
              <-> In r ["us-east-1"; "eu-west-1"; "us-east-1"; "ap-south-1"].
Proof.
  apply (proj2 (fetch_from_regions_total default_settings (fun _ => 0)
                  (ParallelFetcher.init default_settings None)
                  (fun region => mkRun 2 (Return [("instances", PyList [PyStr region])]))
                  None)).
  simpl. lia.
Defined.

(** *** Failure isolation *)

(** C1, as the code has it: when the fetch function raises [e] for a
    region [X] of the list, [fetch_from_regions] still returns; the entry
    of [X] is a failure whose message is [str(e)], unless [e] is a
    [TimeoutError], for which the message is ["Timeout after <N>s"]; and
    the entry of every other region whose fetch returned is the payload
    the fetch function returned for it. *)
Theorem fetch_from_regions_isolates_failure :
  forall (settings : Settings) (schedule : nat -> Z) (self : ParallelFetcher.t)
         (regions : list string) (fetch_function : string -> FetchRun)
         (timeout : option Z) (X : string) (e : Exn),
    0 < ParallelFetcher.max_workers self ->
    In X regions ->
    run_outcome (fetch_function X) = Raise e ->
    exists results,
      fst (ParallelFetcher.fetch_from_regions settings schedule self regions
             fetch_function timeout) = Return results /\
      dict_get X results =
        Some [("error",
               PyStr (if is_TimeoutError e
                      then "Timeout after "
                             ++ str_of_int (int_or timeout (API_TIMEOUT settings)) ++ "s"
                      else exn_str e));
              ("region", PyStr X)] /\
      forall (r : string) (payload : Payload),
        r <> X -> In r regions ->
        run_outcome (fetch_function r) = Return payload ->
        dict_get r results = Some payload.
Proof.
  intros settings schedule self regions fetch_function timeout X e Hworkers HX Hraise.
  destruct (fetch_from_regions_returns settings schedule fetch_function self
              regions timeout Hworkers) as (results & Heq & _ & _ & Hget).
  exists results. split; [now rewrite Heq | split].
  - rewrite (Hget X HX), Hraise. simpl.
    unfold ParallelFetcher.timeout_entry, ParallelFetcher.error_entry.
    now destruct (is_TimeoutError e).
  - intros r payload _ Hr Hreturn. now rewrite (Hget r Hr), Hreturn.
Qed.

(** The end-to-end scenario of the specification: [r2] is denied, [r1]
    and [r3] answer. *)
Lemma fetch_from_regions_isolates_failure_witness :
  exists results,
    fst (ParallelFetcher.fetch_from_regions default_settings (fun _ => 0)
           (ParallelFetcher.init default_settings None) ["r1"; "r2"; "r3"]
           (fun region =>
              if String.eqb region "r2"
              then mkRun 1 (Raise (mkExn (OtherError "PermissionDenied")
                                     "PermissionDenied: not authorized"))
              else mkRun 3 (Return [("instances", PyList [PyStr region])]))
           None) = Return results /\
    dict_get "r2" results =
      Some [("error", PyStr "PermissionDenied: not authorized");
            ("region", PyStr "r2")] /\
    forall (r : string) (payload : Payload),
      r <> "r2" -> In r ["r1"; "r2"; "r3"] ->
      run_outcome (if String.eqb r "r2"
                   then mkRun 1 (Raise (mkExn (OtherError "PermissionDenied")
                                          "PermissionDenied: not authorized"))
                   else mkRun 3 (Return [("instances", PyList [PyStr r])]))
        = Return payload ->
      dict_get r results = Some payload.
Proof.
  apply (fetch_from_regions_isolates_failure default_settings (fun _ => 0)
           (ParallelFetcher.init default_settings None) ["r1"; "r2"; "r3"]
           (fun region =>
              if String.eqb region "r2"
              then mkRun 1 (Raise (mkExn (OtherError "PermissionDenied")
                                     "PermissionDenied: not authorized"))
              else mkRun 3 (Return [("instances", PyList [PyStr region])]))
           None "r2"
           (mkExn (OtherError "PermissionDenied") "PermissionDenied: not authorized")).
  - simpl. lia.
  - simpl. auto.
  - reflexivity.
Defined.

(** C1 as stated fails for a [TimeoutError]: the fetch of [us-east-1]
    raises [TimeoutError("read timed out")], and the entry recorded for
    the region says ["Timeout after 30s"], not the exception's message. *)
Lemma timeout_error_message_not_kept :
  exists (results : Dict Payload) (entry : Payload),
    fst (ParallelFetcher.fetch_from_regions default_settings (fun _ => 0)
           (ParallelFetcher.init default_settings None) ["us-east-1"]
           (fun _ => mkRun 1 (Raise (mkExn TimeoutError "read timed out")))
           None) = Return results /\
    dict_get "us-east-1" results = Some entry /\
    dict_get "error" entry = Some (PyStr "Timeout after 30s") /\
    dict_get "error" entry <> Some (PyStr "read timed out").
Proof.
  eexists. eexists. split; [reflexivity |]. split; [reflexivity |].
  split; [reflexivity | discriminate].
Qed.

(** *** The per-task timeout *)

(** C4 does not hold of the code: a fetch that runs for 60 seconds under
    a 30 second timeout is waited for, and its payload is recorded as a
    success; no timeout failure is recorded. *)
Theorem slow_fetch_is_not_timed_out :
  ParallelFetcher.fetch_from_regions default_settings (fun _ => 0)
    (ParallelFetcher.init default_settings None) ["us-east-1"]
    (fun _ => mkRun 60 (Return [("instances", PyList [])]))
    (Some 30)
  = (Return [("us-east-1", [("instances", PyList [])])], ["us-east-1"]).
Proof. reflexivity. Qed.

(** Whatever the running times, the schedule and the timeout, the entry
    of a region is decided by how its fetch ended alone: a timeout failure
    is recorded only for a fetch that itself raised [TimeoutError]. *)
Lemma timeout_entry_only_from_fetch :
  forall (settings : Settings) (schedule : nat -> Z) (self : ParallelFetcher.t)
         (regions : list string) (fetch_function : string -> FetchRun)
         (timeout : option Z) (r : string) (payload : Payload),
    0 < ParallelFetcher.max_workers self ->
    In r regions ->
    run_outcome (fetch_function r) = Return payload ->
    exists results,
      fst (ParallelFetcher.fetch_from_regions settings schedule self regions
             fetch_function timeout) = Return results /\
      dict_get r results = Some payload.
Proof.
  intros settings schedule self regions fetch_function timeout r payload
         Hworkers Hr Hreturn.
  destruct (fetch_from_regions_returns settings schedule fetch_function self
              regions timeout Hworkers) as (results & Heq & _ & _ & Hget).
  exists results. split; [now rewrite Heq |].
  now rewrite (Hget r Hr), Hreturn.
Qed.

(** ** Aggregation: regions that succeeded, regions that failed *)
Section Aggregation.

Import ParallelFetcher.

Lemma error_entries_regions (d : Dict Payload) :
  map err_region (error_entries d) = map fst (filter has_error d).
Proof.
  unfold error_entries. rewrite map_map. reflexivity.
Qed.

Lemma ok_failed_length (d : Dict Payload) :
  (List.length (ok_regions d) + List.length (error_entries d) = List.length d)%nat.
Proof.
  unfold ok_regions, error_entries. rewrite !length_map.
  induction d as [| kv d IH]; simpl; auto.
  destruct (has_error kv); simpl; lia.
Qed.

Lemma ok_failed_perm (d : Dict Payload) :
  Permutation (ok_regions d ++ map err_region (error_entries d)) (dict_keys d).
Proof.
  rewrite error_entries_regions. unfold ok_regions, dict_keys.
  induction d as [| kv d IH]; simpl; auto.
  destruct (has_error kv); simpl.
  - rewrite <- Permutation_middle. now constructor.
  - now constructor.
Qed.

Lemma ok_failed_partitions (d : Dict Payload) :
  dict_wf d -> partitions d (ok_regions d) (error_entries d).
Proof.
  intros Hwf. split; [apply ok_failed_length | split].
  - eapply Permutation_NoDup; [symmetry; apply ok_failed_perm | exact Hwf].
  - intros r. split; apply Permutation_in;
      [symmetry |]; apply ok_failed_perm.
Qed.

Lemma dict_get_In {V : Type} (k : string) (v : V) (d : Dict V) :
  dict_get k d = Some v -> In (k, v) d.
Proof.
  induction d as [| [k' v'] d IH]; simpl; [discriminate |].
  destruct (String.eqb k k') eqn:E.
  - apply String.eqb_eq in E. intros [= ->]. subst. now left.
  - intros H. right. auto.
Qed.

Lemma dict_In_get {V : Type} (k : string) (v : V) (d : Dict V) :
  dict_wf d -> In (k, v) d -> dict_get k d = Some v.
Proof.
  unfold dict_wf. induction d as [| [k' v'] d IH]; simpl; [intros _ [] |].
  intros Hwf [Heq | Hin].
  - injection Heq as -> ->. now rewrite String.eqb_refl.
  - inversion Hwf as [| ? ? Hnotin Hrest]; subst.
    destruct (String.eqb k k') eqn:E; [| auto].
    apply String.eqb_eq in E. subst k'. exfalso. apply Hnotin.
    change k with (fst (k, v)). now apply in_map.
Qed.

Lemma ok_failed_classified (d : Dict Payload) :
  dict_wf d -> classified_by_error_key d (ok_regions d) (error_entries d).
Proof.
  intros Hwf region result Hget.
  pose proof (dict_get_In _ _ _ Hget) as Hin.
  assert (Hsame : forall result', In (region, result') d -> result' = result).
  { intros result' Hin'. apply (dict_In_get _ _ _ Hwf) in Hin'. congruence. }
  split; [| split].
  - rewrite error_entries_regions, in_map_iff. split.
    + intros [[region' result'] [Hfst Hfilter]]. simpl in Hfst. subst region'.
      apply filter_In in Hfilter. destruct Hfilter as [Hin' Herr].
      now rewrite <- (Hsame _ Hin').
    + intros Herr. exists (region, result). split; [reflexivity |].
      apply filter_In. auto.
  - unfold ok_regions. rewrite in_map_iff. split.
    + intros [[region' result'] [Hfst Hfilter]]. simpl in Hfst. subst region'.
      apply filter_In in Hfilter. destruct Hfilter as [Hin' Herr].
      rewrite <- (Hsame _ Hin'). now apply negb_true_iff in Herr.
    + intros Herr. exists (region, result). split; [reflexivity |].
      apply filter_In. split; [assumption |].
      unfold has_error. simpl. now rewrite Herr.
  - intros v Hv. unfold error_entries. apply in_map_iff.
    exists (region, result). split.
    + simpl. unfold dict_get_default. now rewrite Hv.
    + apply filter_In. split; [assumption |].
      unfold has_error, dict_has. simpl. now rewrite Hv.
Qed.

(** A loop whose body files each region under the successes or under the
    errors, by the ['error'] key, ends with the two lists of the
    dictionary appended to what it started with. *)
Lemma partition_loop {S : Type} (body : S -> string * Payload -> PyResult S)
  (succeeded : S -> list string) (errs : S -> list ErrorEntry) :
  (forall st kv st',
     body st kv = Return st' ->
     succeeded st' = (succeeded st ++ ok_regions [kv])%list /\
     errs st' = (errs st ++ error_entries [kv])%list) ->
  forall d st st',
    for_each body d st = Return st' ->
    succeeded st' = (succeeded st ++ ok_regions d)%list /\
    errs st' = (errs st ++ error_entries d)%list.
Proof.
  intros Hbody. induction d as [| kv d IH]; simpl; intros st st' Hloop.
  - injection Hloop as <-. unfold ok_regions, error_entries. simpl.
    now rewrite !app_nil_r.
  - destruct (body st kv) as [st1 | e] eqn:Estep; simpl in Hloop; [| discriminate].
    destruct (Hbody _ _ _ Estep) as [Hs He].
    destruct (IH _ _ Hloop) as [Hs' He'].
    rewrite Hs', He', Hs, He, <- !app_assoc. split; f_equal.
    + unfold ok_regions. simpl. now destruct (has_error kv).
    + unfold error_entries. simpl. now destruct (has_error kv).
Qed.

Lemma dict_has_getitem {V : Type} (k : string) (d : Dict V) :
  dict_has k d = true ->
  exists v, dict_get k d = Some v /\ dict_getitem k d = Return v.
Proof.
  unfold dict_has, dict_getitem. destruct (dict_get k d) as [v |]; [| discriminate].
  eauto.
Qed.

Lemma aggregate_step_files (st : AggState) (kv : string * Payload) (st' : AggState) :
  aggregate_step st kv = Return st' ->
  st_successful st' = (st_successful st ++ ok_regions [kv])%list /\
  st_errors st' = (st_errors st ++ error_entries [kv])%list.
Proof.
  destruct kv as [region result]. unfold aggregate_step, ok_regions, error_entries.
  simpl. unfold has_error. simpl.
  destruct (dict_has "error" result) eqn:Eerr; simpl.
  - destruct (dict_has_getitem _ _ Eerr) as (v & Hget & Hitem).
    rewrite Hitem. simpl. intros [= <-]. simpl.
    unfold dict_get_default. rewrite Hget. now rewrite app_nil_r.
  - intros H.
    repeat match type of H with
           | (if ?c then _ else _) = _ => destruct c
           end;
      repeat raise_or_return H; injection H as <-; simpl;
      now rewrite app_nil_r.
Qed.

Lemma ec2_step_files (st : ResourceAggregator.Ec2State) (kv : string * Payload)
  (st' : ResourceAggregator.Ec2State) :
  ResourceAggregator.ec2_step st kv = Return st' ->
  ResourceAggregator.st_successful st'
    = (ResourceAggregator.st_successful st ++ ok_regions [kv])%list /\
  ResourceAggregator.st_errors st'
    = (ResourceAggregator.st_errors st ++ error_entries [kv])%list.
Proof.
  destruct kv as [region result].
  unfold ResourceAggregator.ec2_step, ok_regions, error_entries.
  simpl. unfold has_error. simpl.
  destruct (dict_has "error" result) eqn:Eerr; simpl.
  - destruct (dict_has_getitem _ _ Eerr) as (v & Hget & Hitem).
    rewrite Hitem. simpl. intros [= <-]. simpl.
    unfold dict_get_default. rewrite Hget. now rewrite app_nil_r.
  - intros H. repeat raise_or_return H. injection H as <-. simpl.
    now rewrite app_nil_r.
Qed.

(** The two lists of an aggregate built by [aggregate_results]. *)
Lemma aggregate_results_lists (d : Dict Payload) (agg : Aggregate) :
  aggregate_results d = Return agg ->
  successful_regions agg = ok_regions d /\
  errors agg = error_entries d /\
  failed_regions agg = map err_region (error_entries d).
Proof.
  unfold aggregate_results. intros H. raise_or_return H. injection H as <-. simpl.
  destruct (partition_loop aggregate_step st_successful st_errors
              aggregate_step_files _ _ _ E) as [Hs He].
  simpl in Hs, He. now rewrite Hs, He.
Qed.

(** The two lists of an aggregate built by [fetch_ec2_resources]. *)
Lemma aggregate_ec2_lists (d : Dict Payload) (res : ResourceAggregator.Ec2Resources) :
  ResourceAggregator.aggregate_ec2 d = Return res ->
  ResourceAggregator.successful_regions res = ok_regions d /\
  ResourceAggregator.errors res = error_entries d.
Proof.
  unfold ResourceAggregator.aggregate_ec2. intros H. raise_or_return H.
  injection H as <-. simpl.
  destruct (partition_loop ResourceAggregator.ec2_step
              ResourceAggregator.st_successful ResourceAggregator.st_errors
              ec2_step_files _ _ _ E) as [Hs He].
  simpl in Hs, He. now rewrite Hs, He.
Qed.







(** A loop whose body returns on every element returns. *)
Lemma for_each_returns {A S : Type} (body : S -> A -> PyResult S) (P : A -> Prop)
  (l : list A) :
  (forall s x, P x -> exists s', body s x = Return s') ->
  Forall P l -> forall s, exists s', for_each body l s = Return s'.
Proof.
  intros Hbody. induction 1 as [| x l Hx _ IH]; intros s; simpl; eauto.
  destruct (Hbody s x Hx) as [s' ->]. simpl. apply IH.
Qed.

(** The aggregates are built from results that can be merged. *)
Lemma aggregate_results_built (d : Dict Payload) :
  Forall mergeable d -> exists agg, aggregate_results d = Return agg.
Proof.
  intros Hd. unfold aggregate_results.
  destruct (for_each_returns aggregate_step mergeable d) with (s := mkAggState [] [] [])
    as [st ->]; [| assumption | simpl; eauto].
  intros st [region result] Hok. unfold aggregate_step.
  destruct (dict_has "error" result) eqn:Eerr.
  - destruct (dict_has_getitem _ _ Eerr) as (v & _ & ->). simpl. eauto.
  - destruct Hok as [Hok | Hok]; [simpl in Hok; congruence |].
    simpl in Hok. unfold items_field, dict_has, dict_getitem in *.
    repeat match goal with
           | |- context [match dict_get ?k result with _ => _ end] =>
               destruct (dict_get k result) eqn:?
           end;
      simpl; eauto;
      match goal with
      | |- context [list_extend _ ?v] =>
          destruct (Hok v eq_refl) as [xs Hxs]; unfold list_extend; rewrite Hxs;
          simpl; eauto
      end.
Qed.

Lemma aggregate_ec2_built (d : Dict Payload) :
  Forall mergeable_ec2 d -> exists res, ResourceAggregator.aggregate_ec2 d = Return res.
Proof.
  intros Hd. unfold ResourceAggregator.aggregate_ec2.
  destruct (for_each_returns ResourceAggregator.ec2_step mergeable_ec2 d)
    with (s := ResourceAggregator.mkEc2State [] 0 0 0 [] [])
    as [st ->]; [| assumption | simpl; eauto].
  intros st [region result] Hok. unfold ResourceAggregator.ec2_step.
  destruct (dict_has "error" result) eqn:Eerr.
  - destruct (dict_has_getitem _ _ Eerr) as (v & _ & ->). simpl. eauto.
  - destruct Hok as [Hok | ([xs Hxs] & counters & Hsummary & Hints)];
      [simpl in Hok; congruence |].
    simpl in Hxs, Hsummary. unfold list_extend. rewrite Hxs, Hsummary. simpl.
    destruct (Hints "running") as [z1 ->]. simpl.
    destruct (Hints "stopped") as [z2 ->]. simpl.
    destruct (Hints "terminated") as [z3 ->]. simpl. eauto.
Qed.

End Aggregation.

(** *** The partition invariant *)

(** C3: for every region-to-result dictionary whose results can be
    merged (a failure, or a payload whose item list can be walked
    through and, for EC2, whose summary holds integer counters),
    [aggregate_results] and the aggregation of [fetch_ec2_resources]
    build an aggregate, and in it [len(successful_regions) + len(errors)]
    is the number of regions of the dictionary and every region of the
    dictionary is in exactly one of the two collections, once.  No
    aggregate is ever built that does not have this property: whatever
    the dictionary, an aggregate that is returned partitions its regions. *)
Theorem aggregate_partitions_regions :
  forall region_results : Dict Payload,
    dict_wf region_results ->
    (Forall mergeable region_results ->
     exists agg,
       ParallelFetcher.aggregate_results region_results = Return agg /\
       partitions region_results (ParallelFetcher.successful_regions agg)
         (ParallelFetcher.errors agg)) /\
    (Forall mergeable_ec2 region_results ->
     exists res,
       ResourceAggregator.aggregate_ec2 region_results = Return res /\
       partitions region_results (ResourceAggregator.successful_regions res)
         (ResourceAggregator.errors res)) /\
    (forall agg,
       ParallelFetcher.aggregate_results region_results = Return agg ->
       partitions region_results (ParallelFetcher.successful_regions agg)
         (ParallelFetcher.errors agg)) /\
    (forall res,
       ResourceAggregator.aggregate_ec2 region_results = Return res ->
       partitions region_results (ResourceAggregator.successful_regions res)
         (ResourceAggregator.errors res)).
Proof.
  intros d Hwf.
  assert (Hagg : forall agg,
            ParallelFetcher.aggregate_results d = Return agg ->
            partitions d (ParallelFetcher.successful_regions agg)
              (ParallelFetcher.errors agg)).
  { intros agg H. destruct (aggregate_results_lists _ _ H) as (-> & -> & _).
    now apply ok_failed_partitions. }
  assert (Hec2 : forall res,
            ResourceAggregator.aggregate_ec2 d = Return res ->
            partitions d (ResourceAggregator.successful_regions res)
              (ResourceAggregator.errors res)).
  { intros res H. destruct (aggregate_ec2_lists _ _ H) as (-> & ->).
    now apply ok_failed_partitions. }
  split; [| split; [| split]]; auto.
  - intros Hmergeable.
    destruct (aggregate_results_built d Hmergeable) as [agg Hbuilt]. eauto.
  - intros Hmergeable.
    destruct (aggregate_ec2_built d Hmergeable) as [res Hbuilt]. eauto.
Qed.

Lemma three_region_results_wf : dict_wf three_region_results.
Proof.
  unfold dict_wf. simpl.
  repeat (constructor; [simpl; intuition discriminate |]). constructor.
Defined.

(** The results of the three regions can be merged. *)
Lemma three_region_results_mergeable :
  Forall mergeable three_region_results /\
  Forall mergeable_ec2 three_region_results.
Proof.
  split.
  - apply Forall_cons; [| apply Forall_cons; [| apply Forall_cons; [| apply Forall_nil]]].
    + right. intros v Hv. injection Hv as <-. eexists. reflexivity.
    + left. reflexivity.
    + right. intros v Hv. injection Hv as <-. eexists. reflexivity.
  - apply Forall_cons; [| apply Forall_cons; [| apply Forall_cons; [| apply Forall_nil]]].
    + right. split; [eexists; reflexivity |].
      eexists. split; [reflexivity |]. intros k.
      unfold dict_get_default. simpl.
      destruct (String.eqb k "running"); eauto.
    + left. reflexivity.
    + right. split; [eexists; reflexivity |].
      eexists. split; [reflexivity |]. intros k.
      unfold dict_get_default. simpl.
      destruct (String.eqb k "running"); eauto.
      destruct (String.eqb k "stopped"); eauto.
Defined.

(** The two aggregates of the three regions are built, and each files
    the three regions under its two collections. *)
Lemma aggregate_partitions_regions_witness :
  exists agg res,
    ParallelFetcher.aggregate_results three_region_results = Return agg /\
    ResourceAggregator.aggregate_ec2 three_region_results = Return res /\
    partitions three_region_results (ParallelFetcher.successful_regions agg)
      (ParallelFetcher.errors agg) /\
    partitions three_region_results (ResourceAggregator.successful_regions res)
      (ResourceAggregator.errors res) /\
    (List.length (ParallelFetcher.successful_regions agg)
     + List.length (ParallelFetcher.errors agg) = 3)%nat /\
    (List.length (ResourceAggregator.successful_regions res)
     + List.length (ResourceAggregator.errors res) = 3)%nat.
Proof.
  destruct (aggregate_partitions_regions three_region_results
              three_region_results_wf) as (Hagg & Hec2 & _ & _).
  destruct (Hagg (proj1 three_region_results_mergeable)) as (agg & Hbuilt & Hp).
  destruct (Hec2 (proj2 three_region_results_mergeable)) as (res & Hbuilt' & Hp').
  exists agg, res.
  split; [exact Hbuilt |]. split; [exact Hbuilt' |].
  split; [exact Hp |]. split; [exact Hp' |].
  split; [exact (proj1 Hp) | exact (proj1 Hp')].
Defined.

(** The aggregates of the three regions are built: five items, one error. *)
Example three_regions_aggregated :
  ParallelFetcher.aggregate_results three_region_results
  = Return {| ParallelFetcher.items :=
                [PyStr "i-1"; PyStr "i-2"; PyStr "i-3"; PyStr "i-4"; PyStr "i-5"];
              ParallelFetcher.total_count := 5;
              ParallelFetcher.successful_regions := ["r1"; "r3"];
              ParallelFetcher.failed_regions := ["r2"];
              ParallelFetcher.errors :=
                [ParallelFetcher.mkError "r2"
                   (PyStr "PermissionDenied: not authorized")] |} /\
  ResourceAggregator.aggregate_ec2 three_region_results
  = Return {| ResourceAggregator.instances :=
                [PyStr "i-1"; PyStr "i-2"; PyStr "i-3"; PyStr "i-4"; PyStr "i-5"];
              ResourceAggregator.summary :=
                ResourceAggregator.mkEc2Summary 5 3 2 0;
              ResourceAggregator.successful_regions := ["r1"; "r3"];
              ResourceAggregator.errors :=
                [ParallelFetcher.mkError "r2"
                   (PyStr "PermissionDenied: not authorized")] |}.
Proof. split; reflexivity. Qed.

(** Through [fetch_ec2_resources]: when the regions queried are distinct,
    the successes and the errors add up to their number. *)
Lemma fetch_ec2_resources_counts_regions (settings : Settings) (schedule : nat -> Z)
  (get_instances : string -> FetchRun) (regions : list string)
  (res : ResourceAggregator.Ec2Resources) :
  NoDup regions ->
  ResourceAggregator.fetch_ec2_resources settings schedule get_instances regions
    = Return res ->
  (List.length (ResourceAggregator.successful_regions res)
   + List.length (ResourceAggregator.errors res) = List.length regions)%nat.
Proof.
  intros Hnodup Hfetch. unfold ResourceAggregator.fetch_ec2_resources in Hfetch.
  set (fetch := ResourceAggregator.fetch_ec2_from_region get_instances) in *.
  set (self := ParallelFetcher.init settings None) in *.
  destruct (Z_lt_le_dec 0 (ParallelFetcher.max_workers self)) as [Hpos | Hneg].
  - destruct (fetch_from_regions_returns settings schedule fetch self regions
                None Hpos) as (results & Heq & Hwf & Hkeys & _).
    rewrite Heq in Hfetch. simpl in Hfetch.
    destruct (aggregate_ec2_lists _ _ Hfetch) as (-> & ->).
    rewrite ok_failed_length.
    rewrite <- (length_map fst results).
    apply Permutation_length, NoDup_Permutation; assumption.
  - unfold ParallelFetcher.fetch_from_regions in Hfetch.
    destruct regions as [| r0 regions']; [simpl in Hfetch |].
    + injection Hfetch as <-. reflexivity.
    + unfold ParallelFetcher.ThreadPoolExecutor in Hfetch.
      assert (Hpool : (ParallelFetcher.max_workers self <=? 0) = true)
        by (apply Z.leb_le; lia).
      rewrite Hpool in Hfetch. discriminate.
Qed.

(** A region listed twice is queried twice and counted once. *)
Example region_listed_twice :
  exists res,
    ResourceAggregator.fetch_ec2_resources default_settings (fun _ => 0)
      (fun region => mkRun 1 (Return [("instances", PyList [PyStr region])]))
      ["us-east-1"; "us-east-1"] = Return res /\
    ResourceAggregator.successful_regions res = ["us-east-1"] /\
    ResourceAggregator.errors res = [].
Proof. eexists. repeat split. Qed.

(** *** Classification by the ['error'] key *)



(** The instances and the counter of [r2] are not in the aggregate. *)
Example mixed_results_aggregated :
  ResourceAggregator.aggregate_ec2 mixed_results
  = Return {| ResourceAggregator.instances := [PyStr "i-1"];
              ResourceAggregator.summary := ResourceAggregator.mkEc2Summary 1 0 0 0;
              ResourceAggregator.successful_regions := ["r1"];
              ResourceAggregator.errors :=
                [ParallelFetcher.mkError "r2" (PyStr "partial listing")] |}.
Proof. reflexivity. Qed.

(** ** The retrying call of the base client *)
Section SafeApiCall.

Import BaseClient.

Context {R : Type}.
Variable func : nat -> CallOutcome R.

(** A request makes at most [max_retries] invocations. *)
Lemma attempts_bounded (max_retries remaining calls : nat) :
  (calls <= snd (attempts func max_retries remaining calls) <= calls + remaining)%nat.
Proof.
  revert calls. induction remaining as [| remaining IH]; intros calls.
  - simpl. lia.
  - cbn [attempts]. pose proof (IH (S calls)) as Hrest.
    destruct (func calls) as [r | code message | e];
      repeat match goal with
             | |- context [if ?c then _ else _] => destruct c
             end;
      simpl; lia.
Qed.

Lemma safe_api_call_bounded (max_retries calls : nat) :
  (calls <= snd (safe_api_call func max_retries calls) <= calls + max_retries)%nat.
Proof. apply attempts_bounded. Qed.

(** A request answers only with what some invocation responded. *)
Lemma attempts_response (max_retries remaining calls : nat) (r : R) :
  fst (attempts func max_retries remaining calls) = Some r ->
  exists n, (calls <= n < calls + remaining)%nat /\ func n = Responded r.
Proof.
  revert calls. induction remaining as [| remaining IH]; intros calls.
  - discriminate.
  - cbn [attempts].
    assert (Hrest : fst (attempts func max_retries remaining (S calls)) = Some r ->
                    exists n, (calls <= n < calls + S remaining)%nat /\
                              func n = Responded r).
    { intros H. destruct (IH _ H) as (n & Hn & Hf). exists n. split; [lia | auto]. }
    destruct (func calls) as [r' | code message | e] eqn:E;
      repeat match goal with
             | |- context [if ?c then _ else _] => destruct c
             end;
      simpl; auto; try discriminate.
    intros [= ->]. exists calls. split; [lia | auto].
Qed.

(** When no invocation responds the request gives [None]. *)
Lemma safe_api_call_all_fail (max_retries calls : nat) :
  (forall n r, func n <> Responded r) ->
  fst (safe_api_call func max_retries calls) = None.
Proof.
  intros Hfail. destruct (fst (safe_api_call func max_retries calls)) as [r |] eqn:E; auto.
  apply attempts_response in E. destruct E as (n & _ & Hn).
  now apply Hfail in Hn.
Qed.

End SafeApiCall.

(** ** Region discovery *)
Section Regions.

Import RegionManager.

Variable settings : Settings.
Variable ec2 : Ec2Service.

(** [discover] issues one request, which makes at most three invocations. *)
Lemma discover_calls (calls : Calls) :
  (describe_requests (snd (discover settings ec2 calls))
     <= describe_requests calls + 1)%nat /\
  (describe_attempts (snd (discover settings ec2 calls))
     <= describe_attempts calls + 3)%nat.
Proof.
  unfold discover. destruct (client_init ec2 (clients_built calls)); simpl.
  - pose proof (safe_api_call_bounded (describe_regions ec2)
                  BaseClient.default_max_retries (describe_attempts calls)) as Hb.
    destruct (BaseClient.safe_api_call _ _ _) as [response attempts]. simpl in Hb.
    destruct response as [[[regions |]] |]; simpl;
      unfold BaseClient.default_max_retries in Hb; lia.
  - lia.
Qed.

(** A manager that holds a list answers with it and asks nothing. *)
Lemma get_all_regions_cached (self : t) (calls : Calls) (regions : list string) :
  _all_regions self = Some regions ->
  get_all_regions settings ec2 self calls = (Return regions, (self, calls)).
Proof. unfold get_all_regions. now intros ->. Qed.

(** A manager that holds no list discovers one, keeps it, and returns it. *)
Lemma get_all_regions_fresh (self : t) (calls : Calls) :
  _all_regions self = None ->
  exists regions,
    get_all_regions settings ec2 self calls
      = (Return regions,
         (mkManager (Some regions) (_enabled_regions self),
          snd (discover settings ec2 calls))) /\
    regions = match fst (discover settings ec2 calls) with
              | Return found => found
              | Raise _ => [AWS_DEFAULT_REGION settings]
              end.
Proof.
  unfold get_all_regions. intros ->.
  destruct (discover settings ec2 calls) as [[found | e] calls']; simpl; eauto.
Qed.

Lemma get_all_regions_times_cached (n : nat) (self : t) (calls : Calls)
  (regions : list string) :
  _all_regions self = Some regions ->
  get_all_regions_times settings ec2 n self calls
    = (repeat (Return regions) n, (self, calls)).
Proof.
  intros Hcached. induction n as [| n IH]; simpl; auto.
  now rewrite (get_all_regions_cached _ _ _ Hcached), IH.
Qed.

End Regions.

(** C8: [get_all_regions] never raises; once it has returned a list the
    manager holds it, and a manager that holds a list returns it without
    asking the service again, so that any number of calls on a new manager
    issue at most one describe-regions request (three invocations of the
    boto3 method at most, the retries of that one request) and all return
    the same list; and whenever the discovery fails, because the client
    cannot be built, the request gives no response, the response has no
    ['Regions'], or an entry has no ['RegionName'], the list returned is
    the default region alone. *)
Theorem get_all_regions_cached_with_fallback :
  forall (settings : Settings) (ec2 : RegionManager.Ec2Service),
    (forall self calls,
       exists regions self' calls',
         RegionManager.get_all_regions settings ec2 self calls
           = (Return regions, (self', calls')) /\
         RegionManager._all_regions self' = Some regions /\
         RegionManager.get_all_regions settings ec2 self' calls'
           = (Return regions, (self', calls'))) /\
    (forall n,
       exists regions self' calls',
         RegionManager.get_all_regions_times settings ec2 n
           RegionManager.init RegionManager.no_calls
           = (repeat (Return regions) n, (self', calls')) /\
         (RegionManager.describe_requests calls' <= 1)%nat /\
         (RegionManager.describe_attempts calls' <= 3)%nat) /\
    (forall self calls,
       RegionManager._all_regions self = None ->
       let returned :=
         fst (RegionManager.get_all_regions settings ec2 self calls) in
       let response :=
         fst (BaseClient.safe_api_call (RegionManager.describe_regions ec2)
                BaseClient.default_max_retries
                (RegionManager.describe_attempts calls)) in
       ((exists e, RegionManager.client_init ec2 (RegionManager.clients_built calls)
                   = Raise e) ->
        returned = Return [AWS_DEFAULT_REGION settings]) /\
       (response = None -> returned = Return [AWS_DEFAULT_REGION settings]) /\
       (response = Some (RegionManager.mkDescribe None) ->
        returned = Return [AWS_DEFAULT_REGION settings]) /\
       (forall regions e,
          response = Some (RegionManager.mkDescribe (Some regions)) ->
          RegionManager.region_names regions = Raise e ->
          returned = Return [AWS_DEFAULT_REGION settings]) /\
       (forall regions names,
          RegionManager.client_init ec2 (RegionManager.clients_built calls)
            = Return tt ->
          response = Some (RegionManager.mkDescribe (Some regions)) ->
          RegionManager.region_names regions = Return names ->
          returned = Return names)).
Proof.
  intros settings ec2. split; [| split].
  - intros self calls.
    destruct (RegionManager._all_regions self) as [cached |] eqn:Ecache.
    + exists cached, self, calls.
      rewrite (get_all_regions_cached settings ec2 _ _ _ Ecache). auto.
    + destruct (get_all_regions_fresh settings ec2 self calls Ecache)
        as (regions & Heq & _).
      eexists regions, _, _. split; [exact Heq |]. split; [reflexivity |].
      now apply get_all_regions_cached.
  - intros [| n].
    + exists [], RegionManager.init, RegionManager.no_calls. simpl.
      repeat split; lia.
    + destruct (get_all_regions_fresh settings ec2 RegionManager.init
                  RegionManager.no_calls eq_refl) as (regions & Heq & _).
      eexists regions, _, _. simpl. rewrite Heq.
      rewrite (get_all_regions_times_cached settings ec2 n
                 (RegionManager.mkManager (Some regions)
                    (RegionManager._enabled_regions RegionManager.init))
                 _ regions eq_refl).
      split; [reflexivity |].
      pose proof (discover_calls settings ec2 RegionManager.no_calls) as [H1 H2].
      simpl in H1, H2. split; assumption.
  - intros self calls Ecache returned response.
    subst returned response.
    unfold RegionManager.get_all_regions, RegionManager.discover.
    rewrite Ecache.
    destruct (RegionManager.client_init ec2 (RegionManager.clients_built calls))
      as [[] | e0] eqn:Einit.
    + destruct (BaseClient.safe_api_call _ _ _) as [response attempts]. simpl.
      repeat split.
      * intros [e He]. discriminate.
      * now intros ->.
      * now intros ->.
      * intros regions e -> Hnames. now rewrite Hnames.
      * intros regions names _ -> Hnames. now rewrite Hnames.
    + simpl. repeat split; auto.
      intros regions names Hinit. discriminate.
Qed.

Lemma get_all_regions_cached_with_fallback_witness :
  fst (RegionManager.get_all_regions default_settings denied_ec2
         RegionManager.init RegionManager.no_calls)
  = Return ["us-east-1"].
Proof.
  apply (proj1 (proj2 (proj2 (proj2 (get_all_regions_cached_with_fallback
                                      default_settings denied_ec2))
                       RegionManager.init RegionManager.no_calls eq_refl))).
  reflexivity.
Defined.

(** Five calls on a new manager: one request, three invocations, and the
    discovered list each time. *)
Example five_calls_one_request :
  RegionManager.get_all_regions_times default_settings throttled_ec2 5
    RegionManager.init RegionManager.no_calls
  = (repeat (Return ["us-east-1"; "eu-west-1"]) 5,
     (RegionManager.mkManager (Some ["us-east-1"; "eu-west-1"]) None,
      RegionManager.mkCalls 1 1 3)).
Proof. reflexivity. Qed.

(** ** Calendar arithmetic *)

Lemma month_days_range (y m : Z) : 28 <= month_days y m <= 31.
Proof.
  unfold month_days.
  destruct m as [| p | p]; try lia.
  repeat (destruct p as [p | p |]; try lia); destruct (is_leap y); lia.
Qed.

Lemma iter_next_day_within (n : nat) (y m d : Z) :
  d + Z.of_nat n <= month_days y m ->
  Nat.iter n next_day (mkDate y m d) = mkDate y m (d + Z.of_nat n).
Proof.
  induction n as [| n IH]; intros Hle.
  - simpl. f_equal. lia.
  - rewrite Nat.iter_succ, IH by lia. unfold next_day. simpl.
    assert (H : (d + Z.of_nat n <? month_days y m) = true) by (apply Z.ltb_lt; lia).
    rewrite H. f_equal. lia.
Qed.

(** Thirty-two days after the first of a month is a day of the next month. *)
Lemma first_plus_32 (y m : Z) :
  1 <= m <= 12 ->
  exists d, 1 <= d <= 5 /\
    Nat.iter 32 next_day (mkDate y m 1)
    = mkDate (year (next_month_start y m)) (month (next_month_start y m)) d.
Proof.
  intros Hm. pose proof (month_days_range y m) as Hlen.
  set (len := month_days y m) in *.
  assert (Hsplit : (32 = (32 - Z.to_nat len) + (1 + Z.to_nat (len - 1)))%nat) by lia.
  rewrite Hsplit, Nat.iter_add. clear Hsplit.
  rewrite (Nat.iter_add 1), iter_next_day_within by (fold len; lia).
  replace (1 + Z.of_nat (Z.to_nat (len - 1))) with len by lia.
  assert (Hstep : Nat.iter 1 next_day (mkDate y m len) = next_month_start y m).
  { simpl. unfold next_day, next_month_start. simpl. fold len.
    now rewrite Z.ltb_irrefl. }
  rewrite Hstep. exists (1 + Z.of_nat (32 - Z.to_nat len)). split; [lia |].
  unfold next_month_start.
  destruct (m <? 12); cbn [year month]; apply iter_next_day_within;
    match goal with |- _ <= month_days ?a ?b => pose proof (month_days_range a b) end;
    lia.
Qed.

(** The day before the first of the next month is the last of this one. *)
Lemma prev_of_next_month_start (y m : Z) :
  1 <= m <= 12 ->
  prev_day (mkDate (year (next_month_start y m)) (month (next_month_start y m)) 1)
  = mkDate y m (month_days y m).
Proof.
  intros Hm. unfold next_month_start, prev_day.
  destruct (m <? 12) eqn:E; simpl.
  - assert (H : (1 <? m + 1) = true) by (apply Z.ltb_lt; lia).
    rewrite H. replace (m + 1 - 1) with m by lia. reflexivity.
  - apply Z.ltb_ge in E. assert (m = 12) by lia. subst m.
    replace (y + 1 - 1) with y by lia. reflexivity.
Qed.

(** [d + timedelta(days=n)] for [n >= 0] and for [n < 0]. *)
Lemma date_add_days_forward (d : date) (n : Z) :
  0 <= n ->
  date_add_days d n =
  if (MINYEAR <=? year (Nat.iter (Z.to_nat n) next_day d))
     && (year (Nat.iter (Z.to_nat n) next_day d) <=? MAXYEAR)
  then Return (Nat.iter (Z.to_nat n) next_day d)
  else Raise (mkExn OverflowError "date value out of range").
Proof.
  intros Hn. unfold date_add_days.
  assert (H : (0 <=? n) = true) by (apply Z.leb_le; lia).
  now rewrite H.
Qed.

Lemma date_add_days_backward (d : date) (n : Z) :
  n < 0 ->
  date_add_days d n =
  if (MINYEAR <=? year (Nat.iter (Z.to_nat (- n)) prev_day d))
     && (year (Nat.iter (Z.to_nat (- n)) prev_day d) <=? MAXYEAR)
  then Return (Nat.iter (Z.to_nat (- n)) prev_day d)
  else Raise (mkExn OverflowError "date value out of range").
Proof.
  intros Hn. unfold date_add_days.
  assert (H : (0 <=? n) = false) by (apply Z.leb_gt; lia).
  now rewrite H.
Qed.

(** [month_end] finds the last day of the month, when the date
    arithmetic stays within the years of [datetime.date]. *)
Lemma month_end_is_last_day (y m : Z) :
  MINYEAR <= y <= MAXYEAR -> 1 <= m <= 12 ->
  (exists d, date_add_days (mkDate y m 1) 32 = Return d) ->
  CostExplorer.month_end (mkDate y m 1) = Return (mkDate y m (month_days y m)).
Proof.
  intros Hy Hm [d32 Hadd]. unfold CostExplorer.month_end.
  rewrite Hadd. unfold bind.
  rewrite date_add_days_forward in Hadd by lia.
  change (Z.to_nat 32) with 32%nat in Hadd.
  destruct (first_plus_32 y m Hm) as (d & Hd & Hiter).
  rewrite Hiter in Hadd. cbn [year] in Hadd.
  destruct ((MINYEAR <=? year (next_month_start y m))
            && (year (next_month_start y m) <=? MAXYEAR)) eqn:Erange;
    [| discriminate].
  injection Hadd as <-.
  unfold date_replace_day. cbn [year month].
  pose proof (month_days_range (year (next_month_start y m))
                (month (next_month_start y m))) as Hlen.
  assert (Hok : (1 <=? month_days (year (next_month_start y m))
                         (month (next_month_start y m))) = true)
    by (apply Z.leb_le; lia).
  rewrite Hok. cbn [andb Z.leb Z.compare Pos.compare Pos.compare_cont].
  rewrite date_add_days_backward by lia.
  change (Z.to_nat (- -1)) with 1%nat. cbn [Nat.iter nat_rect].
  rewrite prev_of_next_month_start by assumption. cbn [year].
  assert (H1 : (MINYEAR <=? y) = true) by (apply Z.leb_le; lia).
  assert (H2 : (y <=? MAXYEAR) = true) by (apply Z.leb_le; lia).
  now rewrite H1, H2.
Qed.

(** ** The cost client: the three sub-calls *)
Section CostClient.

Import CostExplorer.

Variable float_of_str : string -> PyResult float.
Variable service_api : Request -> nat -> BaseClient.CallOutcome Response.

Lemma call_api_returns (request : Request) (calls : nat) :
  call_api service_api request calls
  = (Return (response_to service_api request calls), calls_after service_api request calls).
Proof.
  unfold call_api, response_to, calls_after.
  now destruct (BaseClient.safe_api_call _ _ _).
Qed.

(** A sub-call: a request, then the reading of its buckets, every
    exception caught. *)
Lemma sub_call_returns {A : Type} (default : A)
  (read : list ResultByTime -> PyResult A) (request : Request) (calls : nat) :
  aws_try
    (response <~ call_api service_api request ;;
     match response with
     | Some (mkResponse (Some results)) => aws_lift (read results)
     | _ => aws_ret default
     end)
    (fun e => aws_ret default) calls
  = (Return (from_buckets default read (response_to service_api request calls)),
     calls_after service_api request calls).
Proof.
  unfold aws_try, aws_bind. rewrite call_api_returns.
  unfold from_buckets.
  destruct (response_to service_api request calls) as [[[results |]] |]; auto.
  unfold aws_lift. destruct (read results); auto.
Qed.

Lemma _get_cost_for_period_returns (start_date end_date : date) (calls : nat) :
  _get_cost_for_period float_of_str service_api start_date end_date calls
  = (Return (from_buckets float_zero (sum_totals float_of_str)
               (response_to service_api (period_request start_date end_date) calls)),
     calls_after service_api (period_request start_date end_date) calls).
Proof. apply sub_call_returns. Qed.

Lemma _get_daily_costs_returns (start_date end_date : date) (calls : nat) :
  _get_daily_costs float_of_str service_api start_date end_date calls
  = (Return (from_buckets [] (daily_entries float_of_str)
               (response_to service_api (daily_request start_date end_date) calls)),
     calls_after service_api (daily_request start_date end_date) calls).
Proof. apply sub_call_returns. Qed.

Lemma _get_service_breakdown_returns (start_date end_date : date) (calls : nat) :
  _get_service_breakdown float_of_str service_api start_date end_date calls
  = (Return (from_buckets [] (breakdown float_of_str)
               (response_to service_api (breakdown_request start_date end_date) calls)),
     calls_after service_api (breakdown_request start_date end_date) calls).
Proof. apply sub_call_returns. Qed.

(** A sub-call that fails gives its default: no response, a response
    without ['ResultsByTime'], or an exception while the buckets are read. *)
Lemma from_buckets_degrades {A : Type} (default : A)
  (read : list ResultByTime -> PyResult A) (response : option Response) :
  (response = None -> from_buckets default read response = default) /\
  (response = Some (mkResponse None) -> from_buckets default read response = default) /\
  (forall results e,
     response = Some (mkResponse (Some results)) -> read results = Raise e ->
     from_buckets default read response = default) /\
  (forall results a,
     response = Some (mkResponse (Some results)) -> read results = Return a ->
     from_buckets default read response = a).
Proof.
  repeat split.
  - now intros ->.
  - now intros ->.
  - intros results e -> Hread. simpl. now rewrite Hread.
  - intros results a -> Hread. simpl. now rewrite Hread.
Qed.

Lemma replace_day_1 (d : date) :
  date_replace_day d 1 = Return (mkDate (year d) (month d) 1).
Proof.
  unfold date_replace_day. pose proof (month_days_range (year d) (month d)).
  assert (H1 : (1 <=? month_days (year d) (month d)) = true) by (apply Z.leb_le; lia).
  now rewrite H1.
Qed.

(** One day back stays in range when thirty days back do. *)
Lemma prev_day_year (d : date) : year d - 1 <= year (prev_day d) <= year d.
Proof.
  unfold prev_day. destruct (1 <? day d); simpl; [lia |].
  destruct (1 <? month d); simpl; lia.
Qed.

Lemma iter_prev_day_year (n : nat) (d : date) :
  year (Nat.iter (S n) prev_day d) <= year (Nat.iter 1 prev_day d) <= year d.
Proof.
  split.
  - induction n as [| n IH]; [lia |].
    rewrite Nat.iter_succ. pose proof (prev_day_year (Nat.iter (S n) prev_day d)). lia.
  - simpl. apply prev_day_year.
Qed.

Lemma yesterday_in_range (today : date) :
  MINYEAR <= year today <= MAXYEAR ->
  (exists d, date_add_days today (-30) = Return d) ->
  date_add_days today (-1) = Return (prev_day today).
Proof.
  intros Hy [d Hd].
  rewrite date_add_days_backward in Hd |- * by lia.
  change (Z.to_nat (- -30)) with 30%nat in Hd.
  change (Z.to_nat (- -1)) with 1%nat.
  pose proof (iter_prev_day_year 29 today) as Hyear.
  destruct ((MINYEAR <=? year (Nat.iter 30 prev_day today))
            && (year (Nat.iter 30 prev_day today) <=? MAXYEAR)) eqn:E;
    [| discriminate].
  apply andb_true_iff in E. destruct E as [E1 E2].
  apply Z.leb_le in E1.
  assert (H1 : (MINYEAR <=? year (Nat.iter 1 prev_day today)) = true)
    by (apply Z.leb_le; lia).
  assert (H2 : (year (Nat.iter 1 prev_day today) <=? MAXYEAR) = true)
    by (apply Z.leb_le; lia).
  now rewrite H1, H2.
Qed.

(** Within thirty-one days back the year changes once at most, and then
    the days are the last ones of December. *)
Lemma iter_prev_day_one_year (k : nat) (d : date) :
  (k <= 31)%nat ->
  year (Nat.iter k prev_day d) = year d \/
  (year (Nat.iter k prev_day d) = year d - 1 /\
   month (Nat.iter k prev_day d) = 12 /\
   32 - Z.of_nat k <= day (Nat.iter k prev_day d)).
Proof.
  induction k as [| k IH]; intros Hk; [now left |].
  rewrite Nat.iter_succ. set (dk := Nat.iter k prev_day d) in *.
  rewrite Nat2Z.inj_succ.
  destruct IH as [IH | (IHy & IHm & IHd)]; [lia | |]; unfold prev_day.
  - destruct (1 <? day dk); cbn [year month day]; [now left |].
    destruct (1 <? month dk); cbn [year month day]; [now left |].
    right. repeat split; lia.
  - right.
    assert (H : (1 <? day dk) = true) by (apply Z.ltb_lt; lia).
    rewrite H. cbn [year month day]. repeat split; lia.
Qed.

(** The dates of a snapshot are in range on every day after year 1 and
    before December 9999. *)
Lemma ordinary_dates_in_range (today : date) :
  date_valid today ->
  MINYEAR < year today ->
  year today < MAXYEAR \/ month today < 12 ->
  dates_in_range today.
Proof.
  intros (Hy & Hm & Hd) Hlow Hhigh. split.
  - rewrite date_add_days_forward by lia. change (Z.to_nat 32) with 32%nat.
    destruct (first_plus_32 (year today) (month today) Hm) as (d & _ & ->).
    cbn [year]. unfold next_month_start.
    assert (Hok : (MINYEAR <=? year (if month today <? 12
                                     then mkDate (year today) (month today + 1) 1
                                     else mkDate (year today + 1) 1 1)) = true /\
                  (year (if month today <? 12
                         then mkDate (year today) (month today + 1) 1
                         else mkDate (year today + 1) 1 1) <=? MAXYEAR) = true).
    { destruct (month today <? 12) eqn:E; cbn [year]; split; apply Z.leb_le;
        try lia; apply Z.ltb_ge in E; lia. }
    destruct Hok as [-> ->]. cbn [andb]. eauto.
  - rewrite date_add_days_backward by lia. change (Z.to_nat (- -30)) with 30%nat.
    assert (Hok : (MINYEAR <=? year (Nat.iter 30 prev_day today)) = true /\
                  (year (Nat.iter 30 prev_day today) <=? MAXYEAR) = true).
    { destruct (iter_prev_day_one_year 30 today) as [H | (H & _)]; [lia | |];
        rewrite H; split; apply Z.leb_le; lia. }
    destruct Hok as [-> ->]. cbn [andb]. eauto.
Qed.

(** The snapshot of a day whose dates are in range: the four sub-calls
    run one after the other, and each field is built from the sub-call
    it belongs to. *)
Lemma get_cost_and_usage_fields (today : date) (calls : nat) :
  date_valid today -> dates_in_range today ->
  let first := mkDate (year today) (month today) 1 in
  exists thirty_days_ago mtd c1 daily c2 services c3 yesterday c4,
    date_add_days today (-30) = Return thirty_days_ago /\
    _get_cost_for_period float_of_str service_api first today calls
      = (Return mtd, c1) /\
    _get_daily_costs float_of_str service_api thirty_days_ago today c1
      = (Return daily, c2) /\
    _get_service_breakdown float_of_str service_api first today c2
      = (Return services, c3) /\
    _get_cost_for_period float_of_str service_api (prev_day today) today c3
      = (Return yesterday, c4) /\
    get_cost_and_usage float_of_str service_api today calls
      = (Return (snapshot_from today mtd daily services yesterday), c4).
Proof.
  intros (Hy & Hm & Hd) [Hend [ago Hago]]. intros first.
  exists ago. do 8 eexists.
  split; [exact Hago |].
  split; [apply _get_cost_for_period_returns |].
  split; [apply _get_daily_costs_returns |].
  split; [apply _get_service_breakdown_returns |].
  split; [apply _get_cost_for_period_returns |].
  unfold get_cost_and_usage, aws_try, aws_bind, aws_lift.
  rewrite replace_day_1. fold first.
  unfold first at 1. rewrite month_end_is_last_day by assumption.
  rewrite Hago.
  rewrite _get_cost_for_period_returns, _get_daily_costs_returns,
    _get_service_breakdown_returns.
  rewrite yesterday_in_range by eauto.
  rewrite _get_cost_for_period_returns.
  reflexivity.
Qed.

(** Whatever the day and the service, a snapshot is returned, and it
    has the seven keys. *)
Lemma get_cost_and_usage_returns (today : date) (calls : nat) :
  exists snapshot calls',
    get_cost_and_usage float_of_str service_api today calls
      = (Return snapshot, calls') /\
    dict_keys snapshot = snapshot_keys.
Proof.
  unfold get_cost_and_usage, aws_try, aws_bind, aws_lift, aws_ret.
  repeat match goal with
         | |- context [match ?x with _ => _ end] =>
             lazymatch x with
             | context [match _ with _ => _ end] => fail
             | _ => destruct x
             end
         end;
    do 2 eexists; split; reflexivity.
Qed.

End CostClient.

(** *** The projection arithmetic *)

(** C5: the snapshot computes [daily_average] as [mtd_cost / days_elapsed]
    (the integer zero when [days_elapsed] is not positive) and
    [projected_eom_cost] as [daily_average * days_in_month], both rounded
    to two decimals in the snapshot, where [days_in_month] is the number
    of days of the month of the anchor date, found by date arithmetic; a
    month-to-date cost of 62.00 after 10 days of a 30-day month gives a
    daily average of 6.20 and a projection of 186.00. *)
Theorem cost_projection_arithmetic :
  (forall (float_of_str : string -> PyResult float)
          (service_api : CostExplorer.Request -> nat ->
                         BaseClient.CallOutcome CostExplorer.Response)
          (today : date) (calls : nat),
     date_valid today -> dates_in_range today ->
     exists mtd calls1 snapshot calls',
       CostExplorer._get_cost_for_period float_of_str service_api
         (mkDate (year today) (month today) 1) today calls = (Return mtd, calls1) /\
       CostExplorer.get_cost_and_usage float_of_str service_api today calls
         = (Return snapshot, calls') /\
       dict_get "mtd_cost" snapshot
         = Some (CostExplorer.Number (NumFloat (float_round2 mtd))) /\
       dict_get "daily_average" snapshot
         = Some (CostExplorer.Number
                   (NumFloat (float_round2
                                (float_div mtd (float_of_int (day today)))))) /\
       dict_get "projected_eom_cost" snapshot
         = Some (CostExplorer.Number
                   (NumFloat (float_round2
                                (float_mul (float_div mtd (float_of_int (day today)))
                                   (float_of_int
                                      (month_days (year today) (month today))))))) /\
       dict_get "metadata" snapshot
         = Some (CostExplorer.MetadataDict
                   [("month_start",
                     CostExplorer.MetaStr
                       (date_str (mkDate (year today) (month today) 1)));
                    ("today", CostExplorer.MetaStr (date_str today));
                    ("days_elapsed", CostExplorer.MetaInt (day today));
                    ("days_in_month",
                     CostExplorer.MetaInt
                       (month_days (year today) (month today)))])) /\
  (forall (mtd : float) (days_elapsed days_in_month : Z),
     (0 < days_elapsed ->
      CostExplorer.average_per_day mtd days_elapsed
        = NumFloat (float_div mtd (float_of_int days_elapsed))) /\
     (days_elapsed <= 0 ->
      CostExplorer.average_per_day mtd days_elapsed = NumInt 0 /\
      num_mul_int (CostExplorer.average_per_day mtd days_elapsed) days_in_month
        = NumInt 0)) /\
  (exists mtd average projected,
     float_of_decimal "62.00" = Return mtd /\
     float_of_decimal "6.20" = Return average /\
     float_of_decimal "186.00" = Return projected /\
     CostExplorer.average_per_day mtd 10 = NumFloat average /\
     num_mul_int (NumFloat average) 30 = NumFloat projected /\
     num_round2 (NumFloat average) = NumFloat average /\
     num_round2 (NumFloat projected) = NumFloat projected).
Proof.
  split; [| split].
  - intros float_of_str service_api today calls Hvalid Hrange.
    destruct (get_cost_and_usage_fields float_of_str service_api today calls
                Hvalid Hrange)
      as (ago & mtd & c1 & daily & c2 & services & c3 & yesterday & c4
          & _ & Hmtd & _ & _ & _ & Hsnapshot).
    exists mtd, c1. eexists. exists c4.
    split; [exact Hmtd |]. split; [exact Hsnapshot |].
    destruct Hvalid as (_ & _ & Hday).
    unfold snapshot_from, CostExplorer.average_per_day.
    assert (H : (0 <? day today) = true) by (apply Z.ltb_lt; lia).
    rewrite H. repeat split; reflexivity.
  - intros mtd days_elapsed days_in_month. unfold CostExplorer.average_per_day.
    split; intros H.
    + assert (E : (0 <? days_elapsed) = true) by (apply Z.ltb_lt; lia).
      now rewrite E.
    + assert (E : (0 <? days_elapsed) = false) by (apply Z.ltb_ge; lia).
      now rewrite E.
  - do 3 eexists.
    repeat (split; [vm_compute; reflexivity |]). vm_compute; reflexivity.
Qed.

Lemma june_10_valid : date_valid (mkDate 2024 6 10).
Proof. unfold date_valid, MINYEAR, MAXYEAR. simpl. lia. Defined.

Lemma june_10_in_range : dates_in_range (mkDate 2024 6 10).
Proof. split; eexists; vm_compute; reflexivity. Defined.

(** The snapshot of 10 June 2024, a month of 30 days. *)
Lemma cost_projection_arithmetic_witness :
  exists mtd calls1 snapshot calls',
    CostExplorer._get_cost_for_period float_of_decimal flat_api
      (mkDate 2024 6 1) (mkDate 2024 6 10) 0%nat = (Return mtd, calls1) /\
    CostExplorer.get_cost_and_usage float_of_decimal flat_api (mkDate 2024 6 10) 0%nat
      = (Return snapshot, calls') /\
    dict_get "mtd_cost" snapshot
      = Some (CostExplorer.Number (NumFloat (float_round2 mtd))) /\
    dict_get "daily_average" snapshot
      = Some (CostExplorer.Number
                (NumFloat (float_round2 (float_div mtd (float_of_int 10))))) /\
    dict_get "projected_eom_cost" snapshot
      = Some (CostExplorer.Number
                (NumFloat (float_round2
                             (float_mul (float_div mtd (float_of_int 10))
                                (float_of_int (month_days 2024 6)))))) /\
    dict_get "metadata" snapshot
      = Some (CostExplorer.MetadataDict
                [("month_start", CostExplorer.MetaStr (date_str (mkDate 2024 6 1)));
                 ("today", CostExplorer.MetaStr (date_str (mkDate 2024 6 10)));
                 ("days_elapsed", CostExplorer.MetaInt 10);
                 ("days_in_month", CostExplorer.MetaInt (month_days 2024 6))]).
Proof.
  exact (proj1 cost_projection_arithmetic float_of_decimal flat_api
           (mkDate 2024 6 10) 0%nat june_10_valid june_10_in_range).
Defined.

(** The figures of that snapshot: 62.00 to date, 6.20 a day, 186.00
    projected over the 30 days of June. *)
Example june_snapshot_figures :
  exists snapshot mtd average projected,
    fst (CostExplorer.get_cost_and_usage float_of_decimal flat_api
           (mkDate 2024 6 10) 0%nat) = Return snapshot /\
    float_of_decimal "62.00" = Return mtd /\
    float_of_decimal "6.20" = Return average /\
    float_of_decimal "186.00" = Return projected /\
    dict_get "mtd_cost" snapshot = Some (CostExplorer.Number (NumFloat mtd)) /\
    dict_get "daily_average" snapshot
      = Some (CostExplorer.Number (NumFloat average)) /\
    dict_get "projected_eom_cost" snapshot
      = Some (CostExplorer.Number (NumFloat projected)) /\
    dict_get "metadata" snapshot
      = Some (CostExplorer.MetadataDict
                [("month_start", CostExplorer.MetaStr "2024-06-01");
                 ("today", CostExplorer.MetaStr "2024-06-10");
                 ("days_elapsed", CostExplorer.MetaInt 10);
                 ("days_in_month", CostExplorer.MetaInt 30)]).
Proof.
  do 4 eexists.
  repeat (split; [vm_compute; reflexivity |]). vm_compute; reflexivity.
Qed.

(** *** Degradation of the snapshot *)

(** C7: each of the three billing sub-calls returns whatever happens,
    with its zero or empty value when it fails (0.0 for the period total,
    the empty list for the daily series and for the service breakdown);
    [get_cost_and_usage] returns a snapshot for every day and every
    behaviour of the service, never raising, and the snapshot has all
    the seven keys; and on a day whose dates are in range the fields of
    the snapshot are built from the values of the four sub-calls, each
    from its own, so that a failed sub-call leaves a zero or an empty
    list in its field and the others as they are. *)
Theorem snapshot_degrades_and_returns :
  forall (float_of_str : string -> PyResult float)
         (service_api : CostExplorer.Request -> nat ->
                        BaseClient.CallOutcome CostExplorer.Response),
    (forall start_date end_date calls,
       exists total calls',
         CostExplorer._get_cost_for_period float_of_str service_api
           start_date end_date calls = (Return total, calls') /\
         (sub_call_failed (CostExplorer.sum_totals float_of_str)
            (response_to service_api (period_request start_date end_date) calls) ->
          total = float_zero)) /\
    (forall start_date end_date calls,
       exists daily calls',
         CostExplorer._get_daily_costs float_of_str service_api
           start_date end_date calls = (Return daily, calls') /\
         (sub_call_failed (CostExplorer.daily_entries float_of_str)
            (response_to service_api (daily_request start_date end_date) calls) ->
          daily = [])) /\
    (forall start_date end_date calls,
       exists services calls',
         CostExplorer._get_service_breakdown float_of_str service_api
           start_date end_date calls = (Return services, calls') /\
         (sub_call_failed (CostExplorer.breakdown float_of_str)
            (response_to service_api (breakdown_request start_date end_date) calls) ->
          services = [])) /\
    (forall today calls,
       exists snapshot calls',
         CostExplorer.get_cost_and_usage float_of_str service_api today calls
           = (Return snapshot, calls') /\
         dict_keys snapshot = snapshot_keys) /\
    (forall today calls,
       date_valid today -> dates_in_range today ->
       exists thirty_days_ago mtd c1 daily c2 services c3 yesterday c4,
         date_add_days today (-30) = Return thirty_days_ago /\
         CostExplorer._get_cost_for_period float_of_str service_api
           (mkDate (year today) (month today) 1) today calls = (Return mtd, c1) /\
         CostExplorer._get_daily_costs float_of_str service_api
           thirty_days_ago today c1 = (Return daily, c2) /\
         CostExplorer._get_service_breakdown float_of_str service_api
           (mkDate (year today) (month today) 1) today c2 = (Return services, c3) /\
         CostExplorer._get_cost_for_period float_of_str service_api
           (prev_day today) today c3 = (Return yesterday, c4) /\
         CostExplorer.get_cost_and_usage float_of_str service_api today calls
         = (Return (snapshot_from today mtd daily services yesterday), c4) /\
         dict_get "daily_costs" (snapshot_from today mtd daily services yesterday)
           = Some (CostExplorer.DailyCosts daily) /\
         dict_get "service_costs" (snapshot_from today mtd daily services yesterday)
           = Some (CostExplorer.ServiceCosts services) /\
         (mtd = float_zero ->
          dict_get "mtd_cost" (snapshot_from today mtd daily services yesterday)
            = Some (CostExplorer.Number (NumFloat float_zero))) /\
         (yesterday = float_zero ->
          dict_get "yesterday_cost"
            (snapshot_from today mtd daily services yesterday)
            = Some (CostExplorer.Number (NumFloat float_zero)))).
Proof.
  intros float_of_str service_api.
  assert (Hfail : forall (A : Type) (default : A) read response,
            @sub_call_failed A read response ->
            from_buckets default read response = default).
  { intros A default read response [-> | [-> | (results & e & -> & Hread)]];
      simpl; auto. now rewrite Hread. }
  split; [| split; [| split; [| split]]].
  - intros start_date end_date calls. do 2 eexists.
    split; [apply _get_cost_for_period_returns | apply Hfail].
  - intros start_date end_date calls. do 2 eexists.
    split; [apply _get_daily_costs_returns | apply Hfail].
  - intros start_date end_date calls. do 2 eexists.
    split; [apply _get_service_breakdown_returns | apply Hfail].
  - apply get_cost_and_usage_returns.
  - intros today calls Hvalid Hrange.
    destruct (get_cost_and_usage_fields float_of_str service_api today calls
                Hvalid Hrange)
      as (ago & mtd & c1 & daily & c2 & services & c3 & yesterday & c4
          & H0 & H1 & H2 & H3 & H4 & H5).
    exists ago, mtd, c1, daily, c2, services, c3, yesterday, c4.
    repeat (split; [assumption |]).
    split; [reflexivity |]. split; [reflexivity |].
    split; intros ->; reflexivity.
Qed.

(** With every sub-call failing the snapshot is still there, all
    zeros and empty lists, after three invocations for each request. *)
Lemma snapshot_degrades_and_returns_witness :
  exists thirty_days_ago mtd c1 daily c2 services c3 yesterday c4,
    date_add_days (mkDate 2024 6 10) (-30) = Return thirty_days_ago /\
    CostExplorer._get_cost_for_period float_of_decimal throttled_api
      (mkDate 2024 6 1) (mkDate 2024 6 10) 0%nat = (Return mtd, c1) /\
    CostExplorer._get_daily_costs float_of_decimal throttled_api
      thirty_days_ago (mkDate 2024 6 10) c1 = (Return daily, c2) /\
    CostExplorer._get_service_breakdown float_of_decimal throttled_api
      (mkDate 2024 6 1) (mkDate 2024 6 10) c2 = (Return services, c3) /\
    CostExplorer._get_cost_for_period float_of_decimal throttled_api
      (prev_day (mkDate 2024 6 10)) (mkDate 2024 6 10) c3 = (Return yesterday, c4) /\
    CostExplorer.get_cost_and_usage float_of_decimal throttled_api
      (mkDate 2024 6 10) 0%nat
    = (Return (snapshot_from (mkDate 2024 6 10) mtd daily services yesterday), c4) /\
    dict_get "daily_costs"
      (snapshot_from (mkDate 2024 6 10) mtd daily services yesterday)
      = Some (CostExplorer.DailyCosts daily) /\
    dict_get "service_costs"
      (snapshot_from (mkDate 2024 6 10) mtd daily services yesterday)
      = Some (CostExplorer.ServiceCosts services) /\
    (mtd = float_zero ->
     dict_get "mtd_cost"
       (snapshot_from (mkDate 2024 6 10) mtd daily services yesterday)
       = Some (CostExplorer.Number (NumFloat float_zero))) /\
    (yesterday = float_zero ->
     dict_get "yesterday_cost"
       (snapshot_from (mkDate 2024 6 10) mtd daily services yesterday)
       = Some (CostExplorer.Number (NumFloat float_zero))).
Proof.
  exact (proj2 (proj2 (proj2 (proj2
           (snapshot_degrades_and_returns float_of_decimal throttled_api))))
           (mkDate 2024 6 10) 0%nat june_10_valid june_10_in_range).
Defined.

Example throttled_snapshot :
  CostExplorer.get_cost_and_usage float_of_decimal throttled_api
    (mkDate 2024 6 10) 0%nat
  = (Return [("mtd_cost", CostExplorer.Number (NumFloat float_zero));
             ("projected_eom_cost", CostExplorer.Number (NumFloat float_zero));
             ("daily_average", CostExplorer.Number (NumFloat float_zero));
             ("yesterday_cost", CostExplorer.Number (NumFloat float_zero));
             ("daily_costs", CostExplorer.DailyCosts []);
             ("service_costs", CostExplorer.ServiceCosts []);
             ("metadata",
              CostExplorer.MetadataDict
                [("month_start", CostExplorer.MetaStr "2024-06-01");
                 ("today", CostExplorer.MetaStr "2024-06-10");
                 ("days_elapsed", CostExplorer.MetaInt 10);
                 ("days_in_month", CostExplorer.MetaInt 30)])],
     12%nat).
Proof. vm_compute. reflexivity. Qed.

(** In December 9999 the date arithmetic overflows: the snapshot is the
    empty response, and the service is not asked at all. *)
Example last_december_snapshot :
  CostExplorer.get_cost_and_usage float_of_decimal flat_api (mkDate 9999 12 15) 0%nat
  = (Return CostExplorer._empty_response, 0%nat).
Proof. vm_compute. reflexivity. Qed.

(** ** Floats: what the breakdown relies on *)

(** *** Rounding a non-negative mantissa never gives NaN *)

Lemma shr_1_nonneg (mrs : shr_record) : 0 <= shr_m mrs -> 0 <= shr_m (shr_1 mrs).
Proof.
  destruct mrs as [m r s]. simpl.
  destruct m as [| p | p]; simpl; try lia; destruct p; simpl; lia.
Qed.

Lemma iter_pos_invariant {A : Type} (P : A -> Prop) (f : A -> A) :
  (forall x, P x -> P (f x)) -> forall p x, P x -> P (iter_pos f p x).
Proof.
  intros Hf. induction p as [p IH | p IH |]; intros x Hx; simpl; auto.
Qed.

Lemma shr_nonneg (mrs : shr_record) (e n : Z) :
  0 <= shr_m mrs -> 0 <= shr_m (fst (shr mrs e n)).
Proof.
  intros H. unfold shr. destruct n; simpl; auto.
  apply (iter_pos_invariant (fun mrs => 0 <= shr_m mrs)); auto.
  apply shr_1_nonneg.
Qed.

Lemma shr_fexp_nonneg (m e : Z) (l : location) :
  0 <= m -> 0 <= shr_m (fst (shr_fexp prec emax m e l)).
Proof.
  intros H. unfold shr_fexp. apply shr_nonneg.
  destruct l as [| []]; simpl; assumption.
Qed.

Lemma round_nearest_even_nonneg (m : Z) (l : location) :
  0 <= m -> 0 <= round_nearest_even m l.
Proof.
  intros H. unfold round_nearest_even.
  destruct l as [| []]; try lia. destruct (Z.even m); lia.
Qed.

Lemma binary_round_aux_not_nan (s : bool) (m e : Z) (l : location) :
  0 <= m -> is_nan (binary_round_aux prec emax s m e l) = false.
Proof.
  intros H. unfold binary_round_aux.
  pose proof (shr_fexp_nonneg m e l H) as H1.
  destruct (shr_fexp prec emax m e l) as [mrs' e']. simpl in H1.
  pose proof (shr_fexp_nonneg _ e' loc_Exact
                (round_nearest_even_nonneg _ (loc_of_shr_record mrs') H1)) as H2.
  destruct (shr_fexp prec emax _ e' loc_Exact) as [mrs'' e'']. simpl in H2.
  destruct (shr_m mrs'') as [| p | p]; try reflexivity; [| lia].
  now destruct (e'' <=? emax - prec).
Qed.

Lemma binary_normalize_not_nan (m e : Z) (szero : bool) :
  is_nan (binary_normalize prec emax m e szero) = false.
Proof.
  unfold binary_normalize, binary_round.
  destruct m as [| p | p]; try reflexivity;
    destruct (shl_align _ _ _) as [mz ez]; apply binary_round_aux_not_nan; lia.
Qed.

Lemma float_div_finite_not_nan (sx sy : bool) (mx my : positive) (ex ey : Z) :
  is_nan (float_div (S754_finite sx mx ex) (S754_finite sy my ey)) = false.
Proof.
  unfold float_div, SFdiv, SFdiv_core_binary.
  set (m' := match _ - _ - _ with
             | Z.pos _ => Z.shiftl (Z.pos mx) _
             | 0 => Z.pos mx
             | Z.neg _ => 0
             end).
  assert (Hm' : 0 <= m').
  { unfold m'. destruct (_ - _ - _); try lia. apply Z.shiftl_nonneg. lia. }
  pose proof (Z.div_pos m' (Z.pos my) Hm' ltac:(lia)) as Hq.
  unfold Z.div in Hq. destruct (Z.div_eucl m' (Z.pos my)) as [q r].
  now apply binary_round_aux_not_nan.
Qed.

(** Adding a number to a float that is not NaN does not give NaN. *)
Lemma float_add_not_nan (x y : float) :
  is_nan x = false -> is_finite y = true -> is_nan (float_add x y) = false.
Proof.
  unfold float_add.
  destruct x as [sx | sx | | sx mx ex]; try discriminate;
    destruct y as [sy | sy | | sy my ey]; try discriminate; intros _ _; simpl;
    try reflexivity.
  - now destruct sx, sy.
  - apply binary_normalize_not_nan.
Qed.

(** Rounding to two decimals does not give NaN either. *)
Lemma float_round2_not_nan (x : float) :
  is_nan x = false -> is_nan (float_round2 x) = false.
Proof.
  destruct x as [s | s | | s m e]; try discriminate; intros _; try reflexivity.
  unfold float_round2.
  destruct (if 0 <=? e then _ else _) as [| n | n]; try reflexivity.
  apply float_div_finite_not_nan.
Qed.

(** *** The order of floats that are not NaN *)

Lemma SFcompare_antisym (x y : float) :
  SFcompare y x = option_map CompOpp (SFcompare x y).
Proof.
  destruct x as [sx | sx | | sx mx ex], y as [sy | sy | | sy my ey]; simpl;
    try reflexivity;
    try (destruct sx; reflexivity); try (destruct sy; reflexivity);
    try (destruct sx, sy; reflexivity).
  destruct sx, sy; try reflexivity;
    rewrite (Z.compare_antisym ex ey);
    destruct (ex ?= ey); simpl; try reflexivity;
    fold (Pos.compare my mx); fold (Pos.compare mx my);
    rewrite (Pos.compare_antisym mx my); now destruct (mx ?= my)%positive.
Qed.

Lemma SFcompare_not_nan (x y : float) :
  is_nan x = false -> is_nan y = false -> exists c, SFcompare x y = Some c.
Proof.
  destruct x, y; try discriminate; intros _ _; simpl; eauto.
Qed.

(** [not (x < y)] is [y <= x] when neither is NaN. *)
Lemma not_ltb_leb (x y : float) :
  is_nan x = false -> is_nan y = false ->
  float_ltb x y = false -> SFleb y x = true.
Proof.
  intros Hx Hy. unfold float_ltb, SFltb, SFleb.
  rewrite (SFcompare_antisym x y).
  destruct (SFcompare_not_nan x y Hx Hy) as [c ->]. simpl.
  now destruct c.
Qed.

Lemma ltb_leb (x y : float) : float_ltb x y = true -> SFleb x y = true.
Proof.
  unfold float_ltb, SFltb, SFleb. now destruct (SFcompare x y) as [[] |].
Qed.

Lemma SFleb_trans (x y z : float) :
  SFleb x y = true -> SFleb y z = true -> SFleb x z = true.
Proof.
  unfold SFleb.
  destruct x as [sx | sx | | sx mx ex], y as [sy | sy | | sy my ey],
           z as [sz | sz | | sz mz ez]; simpl;
    try discriminate; try reflexivity;
    try (destruct sx; simpl; (discriminate || reflexivity));
    try (destruct sy; simpl; (discriminate || reflexivity));
    try (destruct sz; simpl; (discriminate || reflexivity));
    try (destruct sx, sy; simpl; (discriminate || reflexivity));
    try (destruct sy, sz; simpl; (discriminate || reflexivity));
    try (destruct sx, sz; simpl; (discriminate || reflexivity));
    try (destruct sx, sy, sz; simpl; (discriminate || reflexivity)).
  all: destruct sx, sy, sz; simpl; try discriminate; try reflexivity.
  all: fold (Pos.compare mx my); fold (Pos.compare my mz); fold (Pos.compare mx mz).
  all: destruct (Z.compare_spec ex ey); destruct (Z.compare_spec ey ez);
       destruct (Z.compare_spec ex ez); try lia; try discriminate; try reflexivity.
  all: destruct (Pos.compare_spec mx my); destruct (Pos.compare_spec my mz);
       destruct (Pos.compare_spec mx mz); simpl; try lia; try discriminate;
       try reflexivity.
Qed.

(** ** The service breakdown *)
Section Breakdown.

Import CostExplorer.

(** *** Sorting by cost *)

Lemma insert_by_cost_perm (x : ServiceCost) (l : list ServiceCost) :
  Permutation (insert_by_cost x l) (x :: l).
Proof.
  induction l as [| y l IH]; simpl; auto.
  destruct (float_ltb (cost x) (cost y)); auto.
  rewrite IH. apply perm_swap.
Qed.

Lemma sort_by_cost_desc_perm (l : list ServiceCost) :
  Permutation (sort_by_cost_desc l) l.
Proof.
  induction l as [| x l IH]; simpl; auto.
  rewrite insert_by_cost_perm. now constructor.
Qed.

Lemma insert_by_cost_sorted (x : ServiceCost) (l : list ServiceCost) :
  cost_not_nan x -> Forall cost_not_nan l ->
  StronglySorted by_cost_desc l ->
  StronglySorted by_cost_desc (insert_by_cost x l).
Proof.
  intros Hx Hl Hsorted. induction Hsorted as [| y l Hsorted IH Hy]; simpl.
  - constructor; constructor.
  - inversion Hl as [| ? ? Hynan Hlnan]; subst.
    destruct (float_ltb (cost x) (cost y)) eqn:E.
    + constructor; [now apply IH |].
      eapply Permutation_Forall; [symmetry; apply insert_by_cost_perm |].
      constructor; [| assumption]. now apply ltb_leb.
    + assert (Hxy : by_cost_desc x y) by now apply not_ltb_leb.
      constructor; [now constructor |].
      constructor; [assumption |].
      eapply Forall_impl; [| exact Hy].
      intros z Hyz. unfold by_cost_desc in *. eapply SFleb_trans; eauto.
Qed.

Lemma sort_by_cost_desc_sorted (l : list ServiceCost) :
  Forall cost_not_nan l -> StronglySorted by_cost_desc (sort_by_cost_desc l).
Proof.
  induction 1 as [| x l Hx Hl IH]; simpl; [constructor |].
  apply insert_by_cost_sorted; auto.
  eapply Permutation_Forall; [symmetry; apply sort_by_cost_desc_perm | assumption].
Qed.

(** *** Accumulating per label *)

Lemma upsert_get_same (d : Dict float) (k : string) (a : float) :
  dict_get k (upsert d (k, a))
  = Some (match dict_get k d with Some t => float_add t a | None => a end).
Proof.
  unfold upsert. simpl. destruct (dict_get k d); apply dict_get_set_same.
Qed.

Lemma upsert_get_other (d : Dict float) (k k' : string) (a : float) :
  k <> k' -> dict_get k (upsert d (k', a)) = dict_get k d.
Proof.
  intros Hne. unfold upsert. simpl.
  destruct (dict_get k' d); now apply dict_get_set_other.
Qed.

Lemma upsert_keys (d : Dict float) (entry : string * float) (x : string) :
  In x (dict_keys (upsert d entry)) <-> x = fst entry \/ In x (dict_keys d).
Proof.
  unfold upsert. destruct (dict_get (fst entry) d); apply dict_keys_set.
Qed.

Lemma upsert_wf (d : Dict float) (entry : string * float) :
  dict_wf d -> dict_wf (upsert d entry).
Proof.
  unfold upsert. destruct (dict_get (fst entry) d); apply dict_set_wf.
Qed.

Lemma fold_upsert_wf (entries : list (string * float)) (d : Dict float) :
  dict_wf d -> dict_wf (fold_left upsert entries d).
Proof.
  revert d. induction entries as [| entry entries IH]; intros d Hwf; simpl; auto.
  apply IH. now apply upsert_wf.
Qed.

Lemma fold_upsert_keys (entries : list (string * float)) (d : Dict float) (x : string) :
  In x (dict_keys (fold_left upsert entries d))
  <-> In x (map fst entries) \/ In x (dict_keys d).
Proof.
  revert d. induction entries as [| entry entries IH]; intros d; simpl.
  - tauto.
  - rewrite IH, upsert_keys.
    split; intros H; repeat destruct H as [H | H]; subst; auto.
Qed.

Lemma fold_upsert_get (entries : list (string * float)) (d : Dict float)
  (label : string) :
  dict_get label (fold_left upsert entries d)
  = add_amounts (dict_get label d) (amounts_of label entries).
Proof.
  revert d. induction entries as [| [k a] entries IH]; intros d; simpl; auto.
  rewrite IH. unfold amounts_of. simpl.
  destruct (String.eqb k label) eqn:E; simpl.
  - apply String.eqb_eq in E. subst k. now rewrite upsert_get_same.
  - apply String.eqb_neq in E. rewrite upsert_get_other by congruence. reflexivity.
Qed.

Lemma dict_set_values {V : Type} (P : string * V -> Prop) (k : string) (v : V)
  (d : Dict V) :
  (forall k', P (k', v)) -> Forall P d -> Forall P (dict_set k v d).
Proof.
  intros Hv. induction 1 as [| [k0 v0] d H0 Hd IH]; simpl.
  - constructor; auto.
  - destruct (String.eqb k k0); constructor; auto.
Qed.

Lemma upsert_not_nan (d : Dict float) (entry : string * float) :
  is_finite (snd entry) = true ->
  Forall value_not_nan d -> Forall value_not_nan (upsert d entry).
Proof.
  intros Hfin Hd. unfold upsert.
  destruct (dict_get (fst entry) d) as [t |] eqn:E.
  - apply dict_set_values; auto. intros k'. unfold value_not_nan. simpl.
    apply float_add_not_nan; auto.
    apply dict_get_In in E. rewrite Forall_forall in Hd. exact (Hd _ E).
  - apply dict_set_values; auto. intros k'. unfold value_not_nan. simpl.
    destruct (snd entry); try discriminate; reflexivity.
Qed.

Lemma fold_upsert_not_nan (entries : list (string * float)) (d : Dict float) :
  Forall (fun entry => is_finite (snd entry) = true) entries ->
  Forall value_not_nan d -> Forall value_not_nan (fold_left upsert entries d).
Proof.
  intros Hentries. revert d.
  induction Hentries as [| entry entries Hfin _ IH]; intros d Hd; simpl; auto.
  apply IH. now apply upsert_not_nan.
Qed.

Lemma to_entries_services (service_totals : Dict float) :
  map service (to_entries service_totals) = dict_keys service_totals.
Proof.
  unfold to_entries, dict_keys. rewrite map_map. reflexivity.
Qed.

Lemma to_entries_not_nan (service_totals : Dict float) :
  Forall value_not_nan service_totals -> Forall cost_not_nan (to_entries service_totals).
Proof.
  unfold to_entries. intros H. apply Forall_map.
  eapply Forall_impl; [| exact H].
  intros [k v] Hv. unfold cost_not_nan. simpl. now apply float_round2_not_nan.
Qed.

Variable float_of_str : string -> PyResult float.

Lemma add_group_upsert (d : Dict float) (group : Group) :
  add_group float_of_str d group
  = (entry <- group_entry float_of_str group ;; Return (upsert d entry)).
Proof.
  unfold add_group, group_entry, upsert.
  destruct (first_item _) as [name | e]; simpl; auto.
  destruct (float_of_str _) as [x | e]; simpl; auto.
  now destruct (dict_get name d).
Qed.

Lemma for_each_app {A S : Type} (body : S -> A -> PyResult S) (l1 l2 : list A) (s : S) :
  for_each body (l1 ++ l2) s = (s' <- for_each body l1 s ;; for_each body l2 s').
Proof.
  revert s. induction l1 as [| x l1 IH]; intros s; simpl; auto.
  destruct (body s x); simpl; auto.
Qed.

Lemma add_groups_fold (groups : list Group) (d : Dict float) :
  for_each (add_group float_of_str) groups d
  = (entries <- map_result (group_entry float_of_str) groups ;;
     Return (fold_left upsert entries d)).
Proof.
  revert d. induction groups as [| g groups IH]; intros d; simpl; auto.
  rewrite add_group_upsert.
  destruct (group_entry float_of_str g) as [entry | e]; simpl; auto.
  rewrite IH. destruct (map_result (group_entry float_of_str) groups); simpl; auto.
Qed.

Lemma accumulate_fold (results : list ResultByTime) :
  accumulate float_of_str results
  = (entries <- map_result (group_entry float_of_str) (all_groups results) ;;
     Return (fold_left upsert entries [])).
Proof.
  rewrite <- add_groups_fold. unfold accumulate. generalize (@nil (string * float)).
  induction results as [| result results IH]; intros d; simpl; auto.
  rewrite for_each_app.
  destruct (for_each (add_group float_of_str) _ d); simpl; auto.
Qed.

End Breakdown.

Lemma billed_entries (float_of_str : string -> PyResult float)
  (groups : list CostExplorer.Group) :
  Forall (billed float_of_str) groups ->
  exists entries,
    map_result (group_entry float_of_str) groups = Return entries /\
    Forall (fun entry => is_finite (snd entry) = true) entries.
Proof.
  induction 1 as [| g groups [Hkeys (x & Hx & Hfin)] _ (entries & Hmap & Hall)].
  - exists []. split; [reflexivity | constructor].
  - cbn [map_result]. rewrite Hmap. unfold group_entry.
    destruct (CostExplorer.Keys g) as [[| name keys] |]; [contradiction | |];
      simpl; rewrite Hx; simpl;
      eexists; (split; [reflexivity |]); constructor; auto.
Qed.

(** C6: for every billing response, whatever the number of its time
    buckets, the breakdown has one entry per label; the cost of a label
    is the sum of the amounts billed under it in all the buckets, in
    order, rounded to two decimals; and the entries come in descending
    order of that rounded cost, which is the key of the sort.  The
    order is not that of the accumulated amounts themselves: labels
    whose amounts round to the same cost are not ordered by them.  A
    billing response is one whose groups each carry a label and a
    numeric amount.  Totals of 5.0 for A, 20.0 for B and 1.0 for C,
    split over two buckets, give B(20.0), A(5.0), C(1.0). *)
Theorem service_breakdown_sums_and_sorts :
  (forall (float_of_str : string -> PyResult float)
          (results : list CostExplorer.ResultByTime),
     Forall (billed float_of_str) (all_groups results) ->
     exists entries out,
       map_result (group_entry float_of_str) (all_groups results) = Return entries /\
       CostExplorer.breakdown float_of_str results = Return out /\
       (forall service_api start_date end_date calls,
          response_to service_api (breakdown_request start_date end_date) calls
            = Some (CostExplorer.mkResponse (Some results)) ->
          fst (CostExplorer._get_service_breakdown float_of_str service_api
                 start_date end_date calls) = Return out) /\
       NoDup (map CostExplorer.service out) /\
       (forall label,
          In label (map CostExplorer.service out) <-> In label (map fst entries)) /\
       (forall label c,
          In (CostExplorer.mkService label c) out <->
          exists total,
            add_amounts None (amounts_of label entries) = Some total /\
            c = float_round2 total) /\
       StronglySorted by_cost_desc out) /\
  CostExplorer.breakdown float_of_decimal two_buckets
  = Return [CostExplorer.mkService "B" (float_of_int 20);
            CostExplorer.mkService "A" (float_of_int 5);
            CostExplorer.mkService "C" (float_of_int 1)].
Proof.
  split; [| vm_compute; reflexivity].
  intros float_of_str results Hbilled.
  destruct (billed_entries float_of_str _ Hbilled) as (entries & Hmap & Hfinite).
  set (totals := fold_left upsert entries []).
  assert (Hacc : CostExplorer.accumulate float_of_str results = Return totals)
    by (rewrite accumulate_fold, Hmap; reflexivity).
  assert (Hwf : dict_wf totals) by (apply fold_upsert_wf; constructor).
  assert (Hperm : Permutation
                    (CostExplorer.sort_by_cost_desc (CostExplorer.to_entries totals))
                    (CostExplorer.to_entries totals))
    by apply sort_by_cost_desc_perm.
  exists entries, (CostExplorer.sort_by_cost_desc (CostExplorer.to_entries totals)).
  split; [exact Hmap |].
  assert (Hout : CostExplorer.breakdown float_of_str results
                 = Return (CostExplorer.sort_by_cost_desc
                             (CostExplorer.to_entries totals)))
    by (unfold CostExplorer.breakdown; rewrite Hacc; reflexivity).
  split; [exact Hout |]. split; [| split; [| split; [| split]]].
  - intros service_api start_date end_date calls Hresponse.
    rewrite _get_service_breakdown_returns. simpl. rewrite Hresponse. simpl.
    now rewrite Hout.
  - eapply Permutation_NoDup.
    + symmetry. apply Permutation_map. exact Hperm.
    + rewrite to_entries_services. exact Hwf.
  - intros label.
    assert (Hkeys : In label (dict_keys totals) <-> In label (map fst entries)).
    { unfold totals. rewrite fold_upsert_keys. simpl. tauto. }
    rewrite <- Hkeys, <- to_entries_services.
    split; apply Permutation_in, Permutation_map; [| symmetry]; exact Hperm.
  - intros label c.
    assert (Hget : dict_get label totals = add_amounts None (amounts_of label entries))
      by apply fold_upsert_get.
    rewrite <- Hget. split.
    + intros Hin. apply (Permutation_in _ Hperm) in Hin.
      unfold CostExplorer.to_entries in Hin. apply in_map_iff in Hin.
      destruct Hin as ([k v] & Heq & Hin). simpl in Heq. injection Heq as -> <-.
      exists v. split; [now apply dict_In_get | reflexivity].
    + intros (total & Htotal & ->).
      apply (Permutation_in _ (Permutation_sym Hperm)).
      unfold CostExplorer.to_entries. apply in_map_iff.
      exists (label, total). split; [reflexivity | now apply dict_get_In].
  - apply sort_by_cost_desc_sorted, to_entries_not_nan.
    apply fold_upsert_not_nan; [assumption | constructor].
Qed.

Lemma two_buckets_billed : Forall (billed float_of_decimal) (all_groups two_buckets).
Proof.
  repeat constructor; try discriminate;
    eexists; (split; [vm_compute; reflexivity | reflexivity]).
Defined.

(** The breakdown of the two buckets. *)
Lemma service_breakdown_sums_and_sorts_witness :
  exists entries out,
    map_result (group_entry float_of_decimal) (all_groups two_buckets)
      = Return entries /\
    CostExplorer.breakdown float_of_decimal two_buckets = Return out /\
    (forall service_api start_date end_date calls,
       response_to service_api (breakdown_request start_date end_date) calls
         = Some (CostExplorer.mkResponse (Some two_buckets)) ->
       fst (CostExplorer._get_service_breakdown float_of_decimal service_api
              start_date end_date calls) = Return out) /\
    NoDup (map CostExplorer.service out) /\
    (forall label,
       In label (map CostExplorer.service out) <-> In label (map fst entries)) /\
    (forall label c,
       In (CostExplorer.mkService label c) out <->
       exists total,
         add_amounts None (amounts_of label entries) = Some total /\
         c = float_round2 total) /\
    StronglySorted by_cost_desc out.
Proof.
  exact (proj1 service_breakdown_sums_and_sorts float_of_decimal two_buckets
           two_buckets_billed).
Defined.

(** C6, the order of the accumulated amounts: over the two buckets of
    [close_totals] the amounts of A add up to less than those of B, and
    both totals are finite numbers; the breakdown lists A before B all
    the same, since both totals round to a cost of 5.0 and the sort,
    which compares the rounded costs, leaves equal costs in the order in
    which the labels were first met. *)
Lemma close_totals_are_listed_smaller_first :
  Forall (billed float_of_decimal) (all_groups close_totals) /\
  exists a b,
    CostExplorer.accumulate float_of_decimal close_totals
      = Return [("A", a); ("B", b)] /\
    is_finite a = true /\ is_finite b = true /\
    float_ltb a b = true /\
    CostExplorer.breakdown float_of_decimal close_totals
      = Return [CostExplorer.mkService "A" (float_of_int 5);
                CostExplorer.mkService "B" (float_of_int 5)].
Proof.
  split.
  - repeat constructor; try discriminate;
      eexists; (split; [vm_compute; reflexivity | reflexivity]).
  - eexists. eexists.
    split; [vm_compute; reflexivity |].
    split; [vm_compute; reflexivity |].
    split; [vm_compute; reflexivity |].
    split; vm_compute; reflexivity.
Qed.

(* ================================================================== *)
(** * Part IV: further properties of the code *)
(* ================================================================== *)

(** ** The retrying call, attempt by attempt *)
Section Retries.

Import BaseClient.

Context {R : Type}.
Variable func : nat -> CallOutcome R.

Lemma permission_not_throttling (code : string) :
  mem_string code permission_codes = true ->
  mem_string code throttling_codes = false.
Proof.
  unfold mem_string, permission_codes. simpl. intros H.
  repeat (apply orb_true_iff in H; destruct H as [H | H]); try discriminate;
    apply String.eqb_eq in H; subst; reflexivity.
Qed.

(** One turn of the loop: a response ends it, a permission error ends
    it, anything else leads to the next attempt, if one is left. *)
Lemma attempts_step (max_retries remaining calls : nat) :
  (S remaining <= max_retries)%nat ->
  attempts func max_retries (S remaining) calls =
  match func calls with
  | Responded response => (Some response, S calls)
  | outcome =>
      if permission_denied outcome then (None, S calls)
      else attempts func max_retries remaining (S calls)
  end.
Proof.
  intros Hle. cbn [attempts].
  assert (Hretry :
    (if (max_retries - S remaining <? max_retries - 1)%nat
     then attempts func max_retries remaining (S calls)
     else (None, S calls)) = attempts func max_retries remaining (S calls)).
  { destruct remaining as [| remaining].
    - rewrite Nat.ltb_irrefl. reflexivity.
    - assert (H : (max_retries - S (S remaining) <? max_retries - 1)%nat = true)
        by (apply Nat.ltb_lt; lia).
      now rewrite H. }
  destruct (func calls) as [response | code message | e]; cbn [permission_denied];
    auto.
  destruct (mem_string code permission_codes) eqn:Eperm.
  - now rewrite (permission_not_throttling _ Eperm).
  - destruct (mem_string code throttling_codes); auto.
Qed.

Lemma attempts_retried (max_retries remaining calls : nat) :
  (S remaining <= max_retries)%nat ->
  retried (func calls) = true ->
  attempts func max_retries (S remaining) calls
  = attempts func max_retries remaining (S calls).
Proof.
  intros Hle Hretried. rewrite attempts_step by assumption.
  unfold retried in Hretried.
  destruct (func calls) as [response | code message | e]; try discriminate;
    apply negb_true_iff in Hretried; now rewrite Hretried.
Qed.

(** After [k] attempts that are retried the loop stands at attempt [k]. *)
Lemma attempts_run (max_retries : nat) :
  forall k remaining calls,
    (remaining <= max_retries)%nat -> (k <= remaining)%nat ->
    (forall j, (j < k)%nat -> retried (func (calls + j)%nat) = true) ->
    attempts func max_retries remaining calls
    = attempts func max_retries (remaining - k) (calls + k).
Proof.
  induction k as [| k IH]; intros remaining calls Hle Hk Hretried.
  - now rewrite Nat.sub_0_r, Nat.add_0_r.
  - destruct remaining as [| remaining]; [lia |].
    rewrite attempts_retried; [| assumption |].
    + rewrite IH; [| lia | lia |].
      * now rewrite Nat.add_succ_r.
      * intros j Hj. specialize (Hretried (S j)).
        rewrite Nat.add_succ_r in Hretried. apply Hretried. lia.
    + specialize (Hretried O). rewrite Nat.add_0_r in Hretried. apply Hretried. lia.
Qed.

(** A request that is answered has made at least one invocation. *)
Lemma attempts_some_advances (max_retries remaining calls calls' : nat) (r : R) :
  attempts func max_retries remaining calls = (Some r, calls') ->
  (calls < calls')%nat.
Proof.
  destruct remaining as [| remaining]; [discriminate |].
  cbn [attempts]. intros H.
  pose proof (attempts_bounded func max_retries remaining (S calls)) as Hb.
  destruct (func calls) as [response | code message | e];
    repeat match type of H with
           | context [if ?c then _ else _] => destruct c
           end;
    try discriminate;
    try (rewrite H in Hb; simpl in Hb; lia).
  injection H as _ <-. lia.
Qed.

Lemma attempts_some (max_retries : nat) :
  forall remaining calls k r,
    (remaining <= max_retries)%nat ->
    attempts func max_retries remaining calls = (Some r, (calls + k + 1)%nat) ->
    (k < remaining)%nat /\ func (calls + k)%nat = Responded r /\
    forall j, (j < k)%nat -> retried (func (calls + j)%nat) = true.
Proof.
  induction remaining as [| remaining IH]; intros calls k r Hle H; [discriminate |].
  rewrite attempts_step in H by assumption.
  destruct (func calls) as [response | code message | e] eqn:Ecall.
  - injection H as -> Hk. assert (k = O) by lia. subst k.
    rewrite Nat.add_0_r. split; [lia | split; [assumption |]].
    intros j Hj. lia.
  - destruct (permission_denied (ClientError code message)) eqn:Eperm;
      [discriminate |].
    destruct k as [| k].
    + apply attempts_some_advances in H. lia.
    + replace (calls + S k + 1)%nat with (S calls + k + 1)%nat in H by lia.
      destruct (IH _ _ _ ltac:(lia) H) as (Hk & Hresp & Hbefore).
      split; [lia | split].
      * now rewrite Nat.add_succ_r.
      * intros [| j] Hj.
        -- rewrite Nat.add_0_r, Ecall. unfold retried. now rewrite Eperm.
        -- rewrite Nat.add_succ_r. apply Hbefore. lia.
  - destruct k as [| k].
    + cbn [permission_denied] in H. apply attempts_some_advances in H. lia.
    + cbn [permission_denied] in H.
      replace (calls + S k + 1)%nat with (S calls + k + 1)%nat in H by lia.
      destruct (IH _ _ _ ltac:(lia) H) as (Hk & Hresp & Hbefore).
      split; [lia | split].
      * now rewrite Nat.add_succ_r.
      * intros [| j] Hj.
        -- now rewrite Nat.add_0_r, Ecall.
        -- rewrite Nat.add_succ_r. apply Hbefore. lia.
Qed.

End Retries.

(** X1: [safe_api_call] answers with the response of the first
    invocation that responds, provided every invocation before it failed
    in a way that is retried and it is among the first [max_retries]; it
    answers in no other case, and the invocations made are those up to
    the responding one. *)
Theorem safe_api_call_first_response {R : Type}
  (func : nat -> BaseClient.CallOutcome R) (max_retries calls k : nat) (r : R) :
  BaseClient.safe_api_call func max_retries calls = (Some r, (calls + k + 1)%nat) <->
  (k < max_retries)%nat /\
  func (calls + k)%nat = BaseClient.Responded r /\
  forall j, (j < k)%nat -> retried (func (calls + j)%nat) = true.
Proof.
  unfold BaseClient.safe_api_call. split.
  - apply attempts_some. lia.
  - intros (Hk & Hresp & Hbefore).
    rewrite (attempts_run func max_retries k) by (auto; lia).
    destruct (max_retries - k)%nat as [| remaining] eqn:E; [lia |].
    rewrite attempts_step by lia. rewrite Hresp. f_equal. lia.
Qed.

(** X2: a permission error ends the request at once: after [k] retried
    failures, an invocation refused with [AccessDenied],
    [UnauthorizedOperation] or [AccessDeniedException] makes
    [safe_api_call] give [None] with no further invocation, whatever
    [max_retries] is left. *)
Theorem permission_error_is_not_retried {R : Type}
  (func : nat -> BaseClient.CallOutcome R) (max_retries calls k : nat) :
  (k < max_retries)%nat ->
  (forall j, (j < k)%nat -> retried (func (calls + j)%nat) = true) ->
  permission_denied (func (calls + k)%nat) = true ->
  BaseClient.safe_api_call func max_retries calls = (None, (calls + k + 1)%nat).
Proof.
  intros Hk Hbefore Hdenied. unfold BaseClient.safe_api_call.
  rewrite (attempts_run func max_retries k) by (auto; lia).
  destruct (max_retries - k)%nat as [| remaining] eqn:E; [lia |].
  rewrite attempts_step by lia.
  destruct (func (calls + k)%nat) as [response | code message | e];
    try discriminate.
  rewrite Hdenied. f_equal. lia.
Qed.

Lemma permission_error_is_not_retried_witness :
  BaseClient.safe_api_call
    (fun n => if (n <? 1)%nat
              then BaseClient.ClientError "Throttling" "Rate exceeded"
              else @BaseClient.ClientError unit "AccessDenied" "not allowed")
    5 0 = (None, 2%nat).
Proof.
  apply (permission_error_is_not_retried _ 5 0 1).
  - lia.
  - intros j Hj. assert (j = O) by lia. subst j. reflexivity.
  - reflexivity.
Defined.

(** X3: when every invocation fails in a way that is retried,
    [safe_api_call] makes exactly [max_retries] invocations and gives
    [None]. *)
Theorem safe_api_call_gives_up_after_max_retries {R : Type}
  (func : nat -> BaseClient.CallOutcome R) (max_retries calls : nat) :
  (forall j, (j < max_retries)%nat -> retried (func (calls + j)%nat) = true) ->
  BaseClient.safe_api_call func max_retries calls
  = (None, (calls + max_retries)%nat).
Proof.
  intros Hfail. unfold BaseClient.safe_api_call.
  rewrite (attempts_run func max_retries max_retries) by (auto; lia).
  now rewrite Nat.sub_diag.
Qed.

Lemma safe_api_call_gives_up_after_max_retries_witness :
  BaseClient.safe_api_call
    (fun _ => @BaseClient.ClientError unit "ThrottlingException" "Rate exceeded")
    3 4 = (None, 7%nat).
Proof.
  apply (safe_api_call_gives_up_after_max_retries _ 3 4).
  intros j Hj. reflexivity.
Defined.

(** ** The fan-out and the clock *)

(** X4: what [fetch_from_regions] records for a region depends on how
    the region's fetch ended and on nothing else: two runs over the same
    regions whose fetches end alike, however long each fetch took and
    whenever the pool started it, return dictionaries that map every
    region to the same entry. *)
Theorem fetch_results_do_not_depend_on_timing
  (settings : Settings) (schedule1 schedule2 : nat -> Z)
  (self : ParallelFetcher.t) (regions : list string)
  (fetch1 fetch2 : string -> FetchRun) (timeout : option Z) :
  0 < ParallelFetcher.max_workers self ->
  (forall region, run_outcome (fetch1 region) = run_outcome (fetch2 region)) ->
  exists results1 results2,
    fst (ParallelFetcher.fetch_from_regions settings schedule1 self regions
           fetch1 timeout) = Return results1 /\
    fst (ParallelFetcher.fetch_from_regions settings schedule2 self regions
           fetch2 timeout) = Return results2 /\
    forall region, dict_get region results1 = dict_get region results2.
Proof.
  intros Hworkers Hsame.
  destruct (fetch_from_regions_returns settings schedule1 fetch1 self regions
              timeout Hworkers) as (results1 & H1 & _ & Hkeys1 & Hget1).
  destruct (fetch_from_regions_returns settings schedule2 fetch2 self regions
              timeout Hworkers) as (results2 & H2 & _ & Hkeys2 & Hget2).
  exists results1, results2. rewrite H1, H2. repeat split.
  intros region. destruct (in_dec string_dec region regions) as [Hin | Hout].
  - now rewrite Hget1, Hget2, Hsame.
  - destruct (dict_get region results1) as [v1 |] eqn:E1.
    + exfalso. apply Hout, Hkeys1, dict_get_In_keys. eauto.
    + destruct (dict_get region results2) as [v2 |] eqn:E2; auto.
      exfalso. apply Hout, Hkeys2, dict_get_In_keys. eauto.
Qed.

Lemma fetch_results_do_not_depend_on_timing_witness :
  exists results1 results2,
    fst (ParallelFetcher.fetch_from_regions default_settings (fun _ => 0)
           (ParallelFetcher.mkFetcher 2) ["r1"; "r2"]
           (fun region =>
              mkRun (if String.eqb region "r1" then 9 else 1)
                (Return [("region", PyStr region)]))
           None) = Return results1 /\
    fst (ParallelFetcher.fetch_from_regions default_settings (fun i => Z.of_nat i)
           (ParallelFetcher.mkFetcher 2) ["r1"; "r2"]
           (fun region => mkRun 3 (Return [("region", PyStr region)]))
           None) = Return results2 /\
    forall region, dict_get region results1 = dict_get region results2.
Proof.
  apply fetch_results_do_not_depend_on_timing.
  - simpl. lia.
  - intros region. reflexivity.
Defined.

(** The two runs of the witness list the regions in different orders. *)
Example the_order_of_the_keys_follows_the_clock :
  fst (ParallelFetcher.fetch_from_regions default_settings (fun _ => 0)
         (ParallelFetcher.mkFetcher 2) ["r1"; "r2"]
         (fun region =>
            mkRun (if String.eqb region "r1" then 9 else 1)
              (Return [("region", PyStr region)]))
         None)
  = Return [("r2", [("region", PyStr "r2")]); ("r1", [("region", PyStr "r1")])] /\
  fst (ParallelFetcher.fetch_from_regions default_settings (fun i => Z.of_nat i)
         (ParallelFetcher.mkFetcher 2) ["r1"; "r2"]
         (fun region => mkRun 3 (Return [("region", PyStr region)]))
         None)
  = Return [("r1", [("region", PyStr "r1")]); ("r2", [("region", PyStr "r2")])].
Proof. split; vm_compute; reflexivity. Qed.

(** ** What the aggregates hold *)
Section Totals.

Import ParallelFetcher.

(** A loop whose body appends to a list appends, in order, what each
    element brings. *)
Lemma loop_appends {S A B : Type} (body : S -> A -> PyResult S)
  (field : S -> list B) (brings : A -> list B) :
  (forall s x s', body s x = Return s' -> field s' = (field s ++ brings x)%list) ->
  forall l s s',
    for_each body l s = Return s' ->
    field s' = (field s ++ flat_map brings l)%list.
Proof.
  intros Hbody. induction l as [| x l IH]; simpl; intros s s' Hloop.
  - injection Hloop as <-. now rewrite app_nil_r.
  - destruct (body s x) as [s1 |] eqn:Estep; simpl in Hloop; [| discriminate].
    rewrite (IH _ _ Hloop), (Hbody _ _ _ Estep). now rewrite app_assoc.
Qed.

(** A loop whose body adds to a counter adds up what each element brings. *)
Lemma loop_adds {S A : Type} (body : S -> A -> PyResult S)
  (field : S -> Z) (brings : A -> Z) :
  (forall s x s', body s x = Return s' -> field s' = field s + brings x) ->
  forall l s s',
    for_each body l s = Return s' ->
    field s' = field s + sum_Z (map brings l).
Proof.
  intros Hbody. induction l as [| x l IH]; simpl; intros s s' Hloop.
  - injection Hloop as <-. lia.
  - destruct (body s x) as [s1 |] eqn:Estep; simpl in Hloop; [| discriminate].
    rewrite (IH _ _ Hloop), (Hbody _ _ _ Estep). lia.
Qed.

(** A loop raises what its body raised on some element. *)
Lemma loop_raises {S A : Type} (body : S -> A -> PyResult S) (P : Exn -> Prop) :
  (forall s x e, body s x = Raise e -> P e) ->
  forall l s e, for_each body l s = Raise e -> P e.
Proof.
  intros Hbody. induction l as [| x l IH]; simpl; intros s e Hloop; [discriminate |].
  destruct (body s x) as [s1 | e1] eqn:Estep; simpl in Hloop.
  - eauto.
  - injection Hloop as <-. eauto.
Qed.

(** A loop that returned: its body returned on every element. *)
Lemma loop_returned {S A : Type} (body : S -> A -> PyResult S) (P : A -> Prop) :
  (forall s x s', body s x = Return s' -> P x) ->
  forall l s s', for_each body l s = Return s' -> Forall P l.
Proof.
  intros Hbody. induction l as [| x l IH]; simpl; intros s s' Hloop; constructor.
  - destruct (body s x) as [s1 |] eqn:Estep; simpl in Hloop; [| discriminate]. eauto.
  - destruct (body s x) as [s1 |] eqn:Estep; simpl in Hloop; [| discriminate]. eauto.
Qed.

Lemma list_extend_returned (l : list PyVal) (v : PyVal) (l' : list PyVal) :
  list_extend l v = Return l' ->
  exists xs, py_iter v = Return xs /\ l' = (l ++ xs)%list.
Proof.
  unfold list_extend. destruct (py_iter v) as [xs |]; simpl; [| discriminate].
  intros [= <-]. eauto.
Qed.

Lemma list_extend_raised (l : list PyVal) (v : PyVal) (e : Exn) :
  list_extend l v = Raise e -> exn_class e = TypeError.
Proof.
  unfold list_extend, py_iter. destruct v; simpl; try discriminate;
    now intros [= <-].
Qed.

(** [total += summary.get(key, 0)] that returned. *)
Lemma counter_returned (summary : PyVal) (key : string) (total total' : Z) :
  (v <- py_get summary key (PyInt 0) ;; int_iadd total v) = Return total' ->
  exists counters z,
    summary = PyDict counters /\
    dict_get_default key (PyInt 0) counters = PyInt z /\
    total' = total + z.
Proof.
  unfold py_get. destruct summary as [| | | | counters]; simpl; try discriminate.
  destruct (dict_get_default key (PyInt 0) counters) as [| z | | |] eqn:Ez;
    simpl; try discriminate.
  intros [= <-]. eauto.
Qed.

Lemma aggregate_step_items (st : AggState) (kv : string * Payload) (st' : AggState) :
  aggregate_step st kv = Return st' ->
  st_items st' = (st_items st ++ merged_items kv)%list.
Proof.
  destruct kv as [region result]. unfold aggregate_step, merged_items, has_error.
  cbn [snd]. destruct (dict_has "error" result) eqn:Eerr.
  - intros H. raise_or_return H. injection H as <-. simpl. now rewrite app_nil_r.
  - unfold items_field, dict_has, dict_getitem.
    repeat match goal with
           | |- context [match dict_get ?k result with _ => _ end] =>
               destruct (dict_get k result)
           end;
      cbn [bind]; intros H;
      try (raise_or_return H; injection H as <-; cbn [st_items];
           apply list_extend_returned in E; destruct E as (xs & -> & ->);
           reflexivity).
    injection H as <-. simpl. now rewrite app_nil_r.
Qed.

Lemma aggregate_step_mergeable (st : AggState) (kv : string * Payload)
  (st' : AggState) :
  aggregate_step st kv = Return st' -> mergeable kv.
Proof.
  destruct kv as [region result]. unfold aggregate_step, mergeable.
  cbn [snd]. destruct (dict_has "error" result) eqn:Eerr; [now left |].
  intros H. right. revert H. unfold items_field, dict_has, dict_getitem.
  repeat match goal with
         | |- context [match dict_get ?k result with _ => _ end] =>
             destruct (dict_get k result)
         end;
    cbn [bind]; intros H v' Hv'; try discriminate;
    injection Hv' as <-; raise_or_return H;
    apply list_extend_returned in E; destruct E as (xs & Hxs & _); eauto.
Qed.

Lemma aggregate_step_raises (st : AggState) (kv : string * Payload) (e : Exn) :
  aggregate_step st kv = Raise e -> exn_class e = TypeError.
Proof.
  destruct kv as [region result]. unfold aggregate_step.
  destruct (dict_has "error" result) eqn:Eerr.
  - destruct (dict_has_getitem _ _ Eerr) as (v & _ & ->). discriminate.
  - unfold dict_has, dict_getitem.
    repeat match goal with
           | |- context [match dict_get ?k result with _ => _ end] =>
               destruct (dict_get k result)
           end;
      cbn [bind]; try discriminate;
      match goal with
      | |- context [list_extend ?l ?v] =>
          destruct (list_extend l v) eqn:E; cbn [bind]; [discriminate |];
          intros [= <-]; eapply list_extend_raised; eauto
      end.
Qed.

Lemma ec2_step_adds (st : ResourceAggregator.Ec2State) (kv : string * Payload)
  (st' : ResourceAggregator.Ec2State) :
  ResourceAggregator.ec2_step st kv = Return st' ->
  ResourceAggregator.all_instances st'
    = (ResourceAggregator.all_instances st ++ listed "instances" kv)%list /\
  ResourceAggregator.total_running st'
    = ResourceAggregator.total_running st + counted "summary" "running" kv /\
  ResourceAggregator.total_stopped st'
    = ResourceAggregator.total_stopped st + counted "summary" "stopped" kv /\
  ResourceAggregator.total_terminated st'
    = ResourceAggregator.total_terminated st + counted "summary" "terminated" kv.
Proof.
  destruct kv as [region result].
  unfold ResourceAggregator.ec2_step, listed, counted, has_error.
  cbn [snd]. destruct (dict_has "error" result) eqn:Eerr.
  - intros H. raise_or_return H. injection H as <-. simpl.
    rewrite app_nil_r. repeat split; lia.
  - intros H. raise_or_return H.
    apply list_extend_returned in E. destruct E as (xs & Hxs & ->).
    rewrite Hxs. cbn [or_default].
    destruct (v <- py_get (dict_get_default "summary" (PyDict []) result)
                     "running" (PyInt 0) ;;
              int_iadd (ResourceAggregator.total_running st) v)
      as [running |] eqn:E1.
    2:{ unfold bind in E1, H.
        destruct (py_get _ "running" _); [| discriminate].
        destruct (int_iadd _ _); discriminate. }
    destruct (counter_returned _ _ _ _ E1) as (counters & z1 & Hsummary & Hz1 & ->).
    rewrite Hsummary in H |- *. cbn [py_get bind] in H. rewrite Hz1 in H |- *.
    cbn [int_iadd bind] in H.
    destruct (dict_get_default "stopped" (PyInt 0) counters) as [| z2 | | |];
      try discriminate.
    cbn [int_iadd bind] in H.
    destruct (dict_get_default "terminated" (PyInt 0) counters) as [| z3 | | |];
      try discriminate.
    cbn [int_iadd bind] in H. injection H as <-. simpl. auto.
Qed.

End Totals.

(** X6: [aggregate_results] returns exactly when every result of the
    dictionary is a failure or has an item list that can be walked
    through (the first of ['instances'], ['buckets'], ['databases'],
    ['items'] it holds, if any); in every other case it raises, and what
    it raises is a [TypeError]. *)
Theorem aggregate_results_returns_iff_mergeable (d : Dict Payload) :
  ((exists agg, ParallelFetcher.aggregate_results d = Return agg)
   <-> Forall mergeable d) /\
  (forall e, ParallelFetcher.aggregate_results d = Raise e ->
             exn_class e = TypeError).
Proof.
  split; [split |].
  - intros [agg H]. unfold ParallelFetcher.aggregate_results in H.
    raise_or_return H.
    eapply loop_returned; [| exact E]. apply aggregate_step_mergeable.
  - apply aggregate_results_built.
  - intros e H. unfold ParallelFetcher.aggregate_results in H.
    destruct (for_each _ _ _) as [st | e'] eqn:E; simpl in H; [discriminate |].
    injection H as <-.
    eapply (loop_raises ParallelFetcher.aggregate_step
              (fun e => exn_class e = TypeError)); [| exact E].
    apply aggregate_step_raises.
Qed.

(** A payload whose ['instances'] is [None] stops the aggregation. *)
Example none_instances_stop_the_aggregation :
  ParallelFetcher.aggregate_results
    [("r1", [("instances", PyList [PyStr "i-1"])]);
     ("r2", [("instances", PyNone)])]
  = Raise (mkExn TypeError "'NoneType' object is not iterable").
Proof. reflexivity. Qed.

(** X7: the [items] of the aggregate built by [aggregate_results] are,
    in the order of the dictionary, the elements of the item list of
    each result that has no ['error'] key, where the item list of a
    result is the first of ['instances'], ['buckets'], ['databases'] and
    ['items'] it holds; [total_count] is their number.  Results with an
    ['error'] key contribute no item, whatever lists they hold. *)
Theorem aggregate_results_items (d : Dict Payload) (agg : ParallelFetcher.Aggregate) :
  ParallelFetcher.aggregate_results d = Return agg ->
  ParallelFetcher.items agg = flat_map merged_items d /\
  ParallelFetcher.total_count agg = List.length (flat_map merged_items d).
Proof.
  unfold ParallelFetcher.aggregate_results. intros H. raise_or_return H.
  injection H as <-. simpl.
  pose proof (loop_appends ParallelFetcher.aggregate_step ParallelFetcher.st_items
                merged_items aggregate_step_items _ _ _ E) as Hitems.
  simpl in Hitems. now rewrite Hitems.
Qed.

Lemma aggregate_results_items_witness :
  exists agg,
    ParallelFetcher.aggregate_results
      [("r1", [("instances", PyList [PyStr "i-1"]);
               ("buckets", PyList [PyStr "b-0"])]);
       ("r2", [("error", PyStr "denied"); ("items", PyList [PyStr "x"])]);
       ("r3", [("buckets", PyList [PyStr "b-1"])])] = Return agg /\
    ParallelFetcher.items agg = [PyStr "i-1"; PyStr "b-1"] /\
    ParallelFetcher.total_count agg = 2%nat.
Proof.
  eexists. split; [reflexivity |].
  exact (aggregate_results_items
           [("r1", [("instances", PyList [PyStr "i-1"]);
                    ("buckets", PyList [PyStr "b-0"])]);
            ("r2", [("error", PyStr "denied"); ("items", PyList [PyStr "x"])]);
            ("r3", [("buckets", PyList [PyStr "b-1"])])] _ eq_refl).
Defined.

(** X8: in the dictionary [fetch_ec2_resources] builds, [instances] is
    the concatenation, in the order of the region results, of the
    ['instances'] of the regions without an ['error'] key,
    [summary.total] is the length of that list, and [summary.running],
    [summary.stopped] and [summary.terminated] are the sums of the
    regions' own counters, a missing counter counting for zero. *)
Theorem ec2_summary_adds_up_the_regions (d : Dict Payload)
  (res : ResourceAggregator.Ec2Resources) :
  ResourceAggregator.aggregate_ec2 d = Return res ->
  ResourceAggregator.instances res = flat_map (listed "instances") d /\
  ResourceAggregator.total (ResourceAggregator.summary res)
    = List.length (flat_map (listed "instances") d) /\
  ResourceAggregator.running (ResourceAggregator.summary res)
    = sum_Z (map (counted "summary" "running") d) /\
  ResourceAggregator.stopped (ResourceAggregator.summary res)
    = sum_Z (map (counted "summary" "stopped") d) /\
  ResourceAggregator.terminated (ResourceAggregator.summary res)
    = sum_Z (map (counted "summary" "terminated") d).
Proof.
  unfold ResourceAggregator.aggregate_ec2. intros H. raise_or_return H.
  injection H as <-. cbn.
  pose proof (loop_appends ResourceAggregator.ec2_step
                ResourceAggregator.all_instances (listed "instances")
                (fun s x s' Hs => proj1 (ec2_step_adds s x s' Hs)) _ _ _ E) as H1.
  pose proof (loop_adds ResourceAggregator.ec2_step
                ResourceAggregator.total_running (counted "summary" "running")
                (fun s x s' Hs => proj1 (proj2 (ec2_step_adds s x s' Hs))) _ _ _ E)
    as H2.
  pose proof (loop_adds ResourceAggregator.ec2_step
                ResourceAggregator.total_stopped (counted "summary" "stopped")
                (fun s x s' Hs =>
                   proj1 (proj2 (proj2 (ec2_step_adds s x s' Hs)))) _ _ _ E)
    as H3.
  pose proof (loop_adds ResourceAggregator.ec2_step
                ResourceAggregator.total_terminated (counted "summary" "terminated")
                (fun s x s' Hs =>
                   proj2 (proj2 (proj2 (ec2_step_adds s x s' Hs)))) _ _ _ E)
    as H4.
  simpl in H1, H2, H3, H4. rewrite H1, H2, H3, H4. auto.
Qed.

Lemma ec2_summary_adds_up_the_regions_witness :
  exists res,
    ResourceAggregator.aggregate_ec2 three_region_results = Return res /\
    ResourceAggregator.instances res
      = flat_map (listed "instances") three_region_results /\
    ResourceAggregator.running (ResourceAggregator.summary res) = 3 /\
    ResourceAggregator.stopped (ResourceAggregator.summary res) = 2.
Proof.
  eexists. split; [reflexivity |].
  destruct (ec2_summary_adds_up_the_regions three_region_results _ eq_refl)
    as (H1 & _ & H2 & H3 & _).
  split; [exact H1 | split; [exact H2 | exact H3]].
Defined.

(** ** The Glue and SageMaker aggregates *)
Section OtherAggregates.

Import ResourceAggregator.

Lemma glue_step_files (st : Glue.State) (kv : string * Payload) (st' : Glue.State) :
  Glue.step st kv = Return st' ->
  Glue.st_successful st' = (Glue.st_successful st ++ ok_regions [kv])%list /\
  Glue.st_errors st' = (Glue.st_errors st ++ error_entries [kv])%list.
Proof.
  destruct kv as [region result].
  unfold Glue.step, ok_regions, error_entries.
  simpl. unfold has_error. simpl.
  destruct (dict_has "error" result) eqn:Eerr; simpl.
  - destruct (dict_has_getitem _ _ Eerr) as (v & Hget & Hitem).
    rewrite Hitem. simpl. intros [= <-]. simpl.
    unfold dict_get_default. rewrite Hget. now rewrite app_nil_r.
  - intros H. repeat raise_or_return H. injection H as <-. simpl.
    now rewrite app_nil_r.
Qed.

Lemma sagemaker_step_files (st : SageMaker.State) (kv : string * Payload)
  (st' : SageMaker.State) :
  SageMaker.step st kv = Return st' ->
  SageMaker.st_successful st' = (SageMaker.st_successful st ++ ok_regions [kv])%list /\
  SageMaker.st_errors st' = (SageMaker.st_errors st ++ error_entries [kv])%list.
Proof.
  destruct kv as [region result].
  unfold SageMaker.step, ok_regions, error_entries.
  simpl. unfold has_error. simpl.
  destruct (dict_has "error" result) eqn:Eerr; simpl.
  - destruct (dict_has_getitem _ _ Eerr) as (v & Hget & Hitem).
    rewrite Hitem. simpl. intros [= <-]. simpl.
    unfold dict_get_default. rewrite Hget. now rewrite app_nil_r.
  - intros H. repeat raise_or_return H. injection H as <-. simpl.
    now rewrite app_nil_r.
Qed.

Lemma glue_lists (d : Dict Payload) (res : Glue.Resources) :
  Glue.aggregate d = Return res ->
  Glue.successful_regions res = ok_regions d /\
  Glue.errors res = error_entries d.
Proof.
  unfold Glue.aggregate. intros H. raise_or_return H. injection H as <-. simpl.
  destruct (partition_loop Glue.step Glue.st_successful Glue.st_errors
              glue_step_files _ _ _ E) as [Hs He].
  simpl in Hs, He. now rewrite Hs, He.
Qed.

Lemma sagemaker_lists (d : Dict Payload) (res : SageMaker.Resources) :
  SageMaker.aggregate d = Return res ->
  SageMaker.successful_regions res = ok_regions d /\
  SageMaker.errors res = error_entries d.
Proof.
  unfold SageMaker.aggregate. intros H. raise_or_return H. injection H as <-. simpl.
  destruct (partition_loop SageMaker.step SageMaker.st_successful
              SageMaker.st_errors sagemaker_step_files _ _ _ E) as [Hs He].
  simpl in Hs, He. now rewrite Hs, He.
Qed.

(** Two counters read from the same summary, one after the other. *)
Lemma two_counters_returned (A : Type) (summary : PyVal) (key1 key2 : string)
  (total1 total2 : Z) (k : Z -> Z -> PyResult A) (a : A) :
  (v <- py_get summary key1 (PyInt 0) ;;
   t1 <- int_iadd total1 v ;;
   v <- py_get summary key2 (PyInt 0) ;;
   t2 <- int_iadd total2 v ;;
   k t1 t2) = Return a ->
  exists counters z1 z2,
    summary = PyDict counters /\
    dict_get_default key1 (PyInt 0) counters = PyInt z1 /\
    dict_get_default key2 (PyInt 0) counters = PyInt z2 /\
    k (total1 + z1) (total2 + z2) = Return a.
Proof.
  destruct summary as [| | | | counters]; simpl; try discriminate.
  destruct (dict_get_default key1 (PyInt 0) counters) as [| z1 | | |] eqn:E1;
    simpl; try discriminate.
  destruct (dict_get_default key2 (PyInt 0) counters) as [| z2 | | |] eqn:E2;
    simpl; try discriminate.
  intros H. exists counters, z1, z2. repeat split; auto.
Qed.

Lemma glue_step_adds (st : Glue.State) (kv : string * Payload) (st' : Glue.State) :
  Glue.step st kv = Return st' ->
  Glue.st_databases st' = (Glue.st_databases st ++ listed "databases" kv)%list /\
  Glue.st_total_databases st'
    = Glue.st_total_databases st + counted "summary" "total_databases" kv /\
  Glue.st_total_tables st'
    = Glue.st_total_tables st + counted "summary" "total_tables" kv.
Proof.
  destruct kv as [region result]. unfold Glue.step, listed, counted, has_error.
  cbn [snd]. destruct (dict_has "error" result) eqn:Eerr.
  - intros H. raise_or_return H. injection H as <-. simpl.
    rewrite app_nil_r. repeat split; lia.
  - intros H. raise_or_return H.
    apply list_extend_returned in E. destruct E as (xs & Hxs & ->).
    rewrite Hxs. cbn [or_default].
    apply two_counters_returned in H.
    destruct H as (counters & z1 & z2 & -> & -> & -> & H).
    injection H as <-. simpl. auto.
Qed.

Lemma sagemaker_step_adds (st : SageMaker.State) (kv : string * Payload)
  (st' : SageMaker.State) :
  SageMaker.step st kv = Return st' ->
  SageMaker.all_notebooks st'
    = (SageMaker.all_notebooks st ++ listed "notebook_instances" kv)%list /\
  SageMaker.all_endpoints st'
    = (SageMaker.all_endpoints st ++ listed "endpoints" kv)%list /\
  SageMaker.all_training_jobs st'
    = (SageMaker.all_training_jobs st ++ listed "training_jobs" kv)%list /\
  SageMaker.total_active_notebooks st'
    = SageMaker.total_active_notebooks st + counted "summary" "active_notebooks" kv /\
  SageMaker.total_active_endpoints st'
    = SageMaker.total_active_endpoints st + counted "summary" "active_endpoints" kv.
Proof.
  destruct kv as [region result]. unfold SageMaker.step, listed, counted, has_error.
  cbn [snd]. destruct (dict_has "error" result) eqn:Eerr.
  - intros H. raise_or_return H. injection H as <-. simpl.
    rewrite !app_nil_r. repeat split; lia.
  - intros H. raise_or_return H.
    apply list_extend_returned in E. destruct E as (xs1 & Hxs1 & ->).
    raise_or_return H.
    apply list_extend_returned in E. destruct E as (xs2 & Hxs2 & ->).
    raise_or_return H.
    apply list_extend_returned in E. destruct E as (xs3 & Hxs3 & ->).
    rewrite Hxs1, Hxs2, Hxs3. cbn [or_default].
    apply two_counters_returned in H.
    destruct H as (counters & z1 & z2 & -> & -> & -> & H).
    injection H as <-. simpl. auto.
Qed.

Lemma section_summary_returned (resources : Dict PyVal) (section : string)
  (x : PyVal) :
  section_summary resources section = Return x ->
  exists fields,
    dict_get_default section (PyDict []) resources = PyDict fields /\
    x = dict_get_default "summary" (PyDict []) fields.
Proof.
  unfold section_summary, py_get.
  destruct (dict_get_default section (PyDict []) resources); try discriminate.
  intros [= <-]. eauto.
Qed.

Lemma py_get_returned (v : PyVal) (key : string) (default x : PyVal) :
  py_get v key default = Return x ->
  exists counters, v = PyDict counters /\ x = dict_get_default key default counters.
Proof.
  unfold py_get. destruct v; try discriminate. intros [= <-]. eauto.
Qed.

Lemma py_get_raised (v : PyVal) (key : string) (default : PyVal) (e : Exn) :
  py_get v key default = Raise e -> exn_class e = AttributeError.
Proof.
  unfold py_get. destruct v; try discriminate; now intros [= <-].
Qed.

Lemma readable_intro (resources : Dict PyVal) (section key : string)
  (x v : PyVal) :
  section_summary resources section = Return x ->
  py_get x key (PyInt 0) = Return v ->
  summary_readable resources section.
Proof.
  intros Hsection Hget.
  apply section_summary_returned in Hsection. destruct Hsection as (fields & Hf & ->).
  apply py_get_returned in Hget. destruct Hget as (counters & Hc & _).
  exists fields, counters. auto.
Qed.

Lemma readable_figure (resources : Dict PyVal) (section : string) :
  summary_readable resources section ->
  exists counters,
    section_summary resources section = Return (PyDict counters) /\
    forall key,
      py_get (PyDict counters) key (PyInt 0) = Return (figure resources section key).
Proof.
  intros (fields & counters & Hf & Hc). exists counters.
  unfold section_summary, figure. rewrite Hf. simpl. rewrite Hc. auto.
Qed.

End OtherAggregates.

(** X14: the aggregations of [fetch_glue_resources] and of
    [fetch_sagemaker_resources] file every region of the result
    dictionary under [successful_regions] or under [errors], never under
    both and never twice, so that the two lengths add up to the number
    of regions; a region is filed under [errors] exactly when its result
    has an ['error'] key, and then with the value of that key. *)
Theorem glue_and_sagemaker_partition_regions (d : Dict Payload) :
  dict_wf d ->
  (forall res, ResourceAggregator.Glue.aggregate d = Return res ->
     partitions d (ResourceAggregator.Glue.successful_regions res)
       (ResourceAggregator.Glue.errors res) /\
     classified_by_error_key d (ResourceAggregator.Glue.successful_regions res)
       (ResourceAggregator.Glue.errors res)) /\
  (forall res, ResourceAggregator.SageMaker.aggregate d = Return res ->
     partitions d (ResourceAggregator.SageMaker.successful_regions res)
       (ResourceAggregator.SageMaker.errors res) /\
     classified_by_error_key d (ResourceAggregator.SageMaker.successful_regions res)
       (ResourceAggregator.SageMaker.errors res)).
Proof.
  intros Hwf. split; intros res H.
  - destruct (glue_lists _ _ H) as [-> ->].
    split; [now apply ok_failed_partitions | now apply ok_failed_classified].
  - destruct (sagemaker_lists _ _ H) as [-> ->].
    split; [now apply ok_failed_partitions | now apply ok_failed_classified].
Qed.

Lemma glue_and_sagemaker_partition_regions_witness :
  exists glue sagemaker,
    ResourceAggregator.Glue.aggregate three_region_results = Return glue /\
    ResourceAggregator.SageMaker.aggregate three_region_results = Return sagemaker /\
    partitions three_region_results
      (ResourceAggregator.Glue.successful_regions glue)
      (ResourceAggregator.Glue.errors glue) /\
    partitions three_region_results
      (ResourceAggregator.SageMaker.successful_regions sagemaker)
      (ResourceAggregator.SageMaker.errors sagemaker).
Proof.
  do 2 eexists. split; [reflexivity |]. split; [reflexivity |].
  destruct (glue_and_sagemaker_partition_regions three_region_results
              three_region_results_wf) as [Hglue Hsagemaker].
  split; [apply (Hglue _ eq_refl) | apply (Hsagemaker _ eq_refl)].
Defined.

(** X15: in the dictionary [fetch_glue_resources] builds, [databases] is
    the concatenation, in the order of the region results, of the
    ['databases'] of the regions without an ['error'] key, and
    [summary.total_databases] and [summary.total_tables] are the sums of
    the regions' own counters (a missing counter counting for zero), not
    counts of the merged list. *)
Theorem glue_summary_adds_up_the_regions (d : Dict Payload)
  (res : ResourceAggregator.Glue.Resources) :
  ResourceAggregator.Glue.aggregate d = Return res ->
  ResourceAggregator.Glue.databases res = flat_map (listed "databases") d /\
  ResourceAggregator.Glue.total_databases (ResourceAggregator.Glue.summary res)
    = sum_Z (map (counted "summary" "total_databases") d) /\
  ResourceAggregator.Glue.total_tables (ResourceAggregator.Glue.summary res)
    = sum_Z (map (counted "summary" "total_tables") d).
Proof.
  unfold ResourceAggregator.Glue.aggregate. intros H. raise_or_return H.
  injection H as <-. cbn.
  pose proof (loop_appends ResourceAggregator.Glue.step
                ResourceAggregator.Glue.st_databases (listed "databases")
                (fun s x s' Hs => proj1 (glue_step_adds s x s' Hs)) _ _ _ E) as H1.
  pose proof (loop_adds ResourceAggregator.Glue.step
                ResourceAggregator.Glue.st_total_databases
                (counted "summary" "total_databases")
                (fun s x s' Hs => proj1 (proj2 (glue_step_adds s x s' Hs))) _ _ _ E)
    as H2.
  pose proof (loop_adds ResourceAggregator.Glue.step
                ResourceAggregator.Glue.st_total_tables
                (counted "summary" "total_tables")
                (fun s x s' Hs => proj2 (proj2 (glue_step_adds s x s' Hs))) _ _ _ E)
    as H3.
  simpl in H1, H2, H3. rewrite H1, H2, H3. auto.
Qed.

Lemma glue_summary_adds_up_the_regions_witness :
  exists res,
    ResourceAggregator.Glue.aggregate
      [("r1", [("databases", PyList [PyStr "sales"]);
               ("summary", PyDict [("total_databases", PyInt 1);
                                   ("total_tables", PyInt 4)])]);
       ("r2", [("error", PyStr "denied");
               ("summary", PyDict [("total_tables", PyInt 100)])]);
       ("r3", [("databases", PyList [PyStr "logs"; PyStr "raw"]);
               ("summary", PyDict [("total_tables", PyInt 3)])])] = Return res /\
    ResourceAggregator.Glue.databases res = [PyStr "sales"; PyStr "logs"; PyStr "raw"] /\
    ResourceAggregator.Glue.total_databases (ResourceAggregator.Glue.summary res) = 1 /\
    ResourceAggregator.Glue.total_tables (ResourceAggregator.Glue.summary res) = 7.
Proof.
  eexists. split; [reflexivity |].
  exact (glue_summary_adds_up_the_regions
           [("r1", [("databases", PyList [PyStr "sales"]);
                    ("summary", PyDict [("total_databases", PyInt 1);
                                        ("total_tables", PyInt 4)])]);
            ("r2", [("error", PyStr "denied");
                    ("summary", PyDict [("total_tables", PyInt 100)])]);
            ("r3", [("databases", PyList [PyStr "logs"; PyStr "raw"]);
                    ("summary", PyDict [("total_tables", PyInt 3)])])] _ eq_refl).
Defined.

(** X16: in the dictionary [fetch_sagemaker_resources] builds, the three
    lists are the concatenations, in the order of the region results,
    of the regions' ['notebook_instances'], ['endpoints'] and
    ['training_jobs'] (regions with an ['error'] key left out), the
    three totals of the summary are the lengths of these lists, and
    [active_notebooks] and [active_endpoints] are the sums of the
    regions' own counters. *)
Theorem sagemaker_summary_adds_up_the_regions (d : Dict Payload)
  (res : ResourceAggregator.SageMaker.Resources) :
  ResourceAggregator.SageMaker.aggregate d = Return res ->
  let summary := ResourceAggregator.SageMaker.summary res in
  ResourceAggregator.SageMaker.notebook_instances res
    = flat_map (listed "notebook_instances") d /\
  ResourceAggregator.SageMaker.endpoints res = flat_map (listed "endpoints") d /\
  ResourceAggregator.SageMaker.training_jobs res
    = flat_map (listed "training_jobs") d /\
  ResourceAggregator.SageMaker.total_notebooks summary
    = List.length (flat_map (listed "notebook_instances") d) /\
  ResourceAggregator.SageMaker.total_endpoints summary
    = List.length (flat_map (listed "endpoints") d) /\
  ResourceAggregator.SageMaker.total_training_jobs summary
    = List.length (flat_map (listed "training_jobs") d) /\
  ResourceAggregator.SageMaker.active_notebooks summary
    = sum_Z (map (counted "summary" "active_notebooks") d) /\
  ResourceAggregator.SageMaker.active_endpoints summary
    = sum_Z (map (counted "summary" "active_endpoints") d).
Proof.
  unfold ResourceAggregator.SageMaker.aggregate. intros H. raise_or_return H.
  injection H as <-. cbn.
  pose proof (loop_appends ResourceAggregator.SageMaker.step
                ResourceAggregator.SageMaker.all_notebooks
                (listed "notebook_instances")
                (fun s x s' Hs => proj1 (sagemaker_step_adds s x s' Hs)) _ _ _ E)
    as H1.
  pose proof (loop_appends ResourceAggregator.SageMaker.step
                ResourceAggregator.SageMaker.all_endpoints (listed "endpoints")
                (fun s x s' Hs => proj1 (proj2 (sagemaker_step_adds s x s' Hs)))
                _ _ _ E) as H2.
  pose proof (loop_appends ResourceAggregator.SageMaker.step
                ResourceAggregator.SageMaker.all_training_jobs
                (listed "training_jobs")
                (fun s x s' Hs =>
                   proj1 (proj2 (proj2 (sagemaker_step_adds s x s' Hs))))
                _ _ _ E) as H3.
  pose proof (loop_adds ResourceAggregator.SageMaker.step
                ResourceAggregator.SageMaker.total_active_notebooks
                (counted "summary" "active_notebooks")
                (fun s x s' Hs =>
                   proj1 (proj2 (proj2 (proj2 (sagemaker_step_adds s x s' Hs)))))
                _ _ _ E) as H4.
  pose proof (loop_adds ResourceAggregator.SageMaker.step
                ResourceAggregator.SageMaker.total_active_endpoints
                (counted "summary" "active_endpoints")
                (fun s x s' Hs =>
                   proj2 (proj2 (proj2 (proj2 (sagemaker_step_adds s x s' Hs)))))
                _ _ _ E) as H5.
  simpl in H1, H2, H3, H4, H5. rewrite H1, H2, H3, H4, H5. repeat split.
Qed.

Lemma sagemaker_summary_adds_up_the_regions_witness :
  exists res,
    ResourceAggregator.SageMaker.aggregate
      [("r1", [("notebook_instances", PyList [PyStr "nb-1"; PyStr "nb-2"]);
               ("summary", PyDict [("active_notebooks", PyInt 1)])]);
       ("r2", [("endpoints", PyList [PyStr "ep-1"]);
               ("summary", PyDict [("active_endpoints", PyInt 1);
                                   ("active_notebooks", PyInt 5)])])]
      = Return res /\
    ResourceAggregator.SageMaker.total_notebooks
      (ResourceAggregator.SageMaker.summary res) = 2%nat /\
    ResourceAggregator.SageMaker.active_notebooks
      (ResourceAggregator.SageMaker.summary res) = 6.
Proof.
  eexists. split; [reflexivity |].
  destruct (sagemaker_summary_adds_up_the_regions
              [("r1", [("notebook_instances", PyList [PyStr "nb-1"; PyStr "nb-2"]);
                       ("summary", PyDict [("active_notebooks", PyInt 1)])]);
               ("r2", [("endpoints", PyList [PyStr "ep-1"]);
                       ("summary", PyDict [("active_endpoints", PyInt 1);
                                           ("active_notebooks", PyInt 5)])])]
              _ eq_refl) as (_ & _ & _ & H4 & _ & _ & H7 & _).
  split; [exact H4 | exact H7].
Defined.

(** X17: [get_resource_summary] returns exactly when each of the
    sections ['ec2'], ['s3'], ['glue'] and ['sagemaker'] of its argument
    is missing or a dictionary whose ['summary'] is missing or a
    dictionary; it then gives every figure of the summary the value of
    the counter it is read from, and [0] where the section, the summary
    or the counter is missing.  In every other case it raises an
    [AttributeError]. *)
Theorem get_resource_summary_defaults_to_zero (resources : Dict PyVal) :
  (Forall (summary_readable resources) ["ec2"; "s3"; "glue"; "sagemaker"] <->
   ResourceAggregator.get_resource_summary resources
   = Return
       [("ec2", [("total_instances", figure resources "ec2" "total");
                 ("running_instances", figure resources "ec2" "running");
                 ("stopped_instances", figure resources "ec2" "stopped")]);
        ("s3", [("total_buckets", figure resources "s3" "total");
                ("total_size_gb", figure resources "s3" "total_size_gb")]);
        ("glue", [("total_databases", figure resources "glue" "total_databases");
                  ("total_tables", figure resources "glue" "total_tables")]);
        ("sagemaker",
         [("total_notebooks", figure resources "sagemaker" "total_notebooks");
          ("active_notebooks", figure resources "sagemaker" "active_notebooks");
          ("total_endpoints", figure resources "sagemaker" "total_endpoints")]);
        ("regions",
         [("queried", dict_get_default "total_regions" (PyInt 0) resources)])]) /\
  (forall summary,
     ResourceAggregator.get_resource_summary resources = Return summary ->
     Forall (summary_readable resources) ["ec2"; "s3"; "glue"; "sagemaker"]) /\
  (forall e,
     ResourceAggregator.get_resource_summary resources = Raise e ->
     exn_class e = AttributeError).
Proof.
  assert (Hreturned : forall summary,
            ResourceAggregator.get_resource_summary resources = Return summary ->
            Forall (summary_readable resources) ["ec2"; "s3"; "glue"; "sagemaker"]).
  { intros summary H. unfold ResourceAggregator.get_resource_summary in H.
    repeat raise_or_return H.
    repeat constructor; eapply readable_intro; eassumption. }
  split; [split | split]; eauto.
  - intros Hall.
    inversion Hall as [| ? ? Hec2 Hall1]; subst.
    inversion Hall1 as [| ? ? Hs3 Hall2]; subst.
    inversion Hall2 as [| ? ? Hglue Hall3]; subst.
    inversion Hall3 as [| ? ? Hsagemaker _]; subst.
    destruct (readable_figure _ _ Hec2) as (c1 & E1 & F1).
    destruct (readable_figure _ _ Hs3) as (c2 & E2 & F2).
    destruct (readable_figure _ _ Hglue) as (c3 & E3 & F3).
    destruct (readable_figure _ _ Hsagemaker) as (c4 & E4 & F4).
    unfold ResourceAggregator.get_resource_summary.
    rewrite E1, E2, E3, E4. cbn [bind].
    rewrite !F1, !F2, !F3, !F4. reflexivity.
  - intros e H. unfold ResourceAggregator.get_resource_summary in H.
    repeat match type of H with
           | bind ?m _ = Raise _ =>
               let E := fresh "E" in
               destruct m eqn:E; cbn [bind] in H;
               [| injection H as <-;
                  first [ eapply py_get_raised; exact E
                        | unfold ResourceAggregator.section_summary in E;
                          eapply py_get_raised; exact E ] ]
           end.
    discriminate.
Qed.

(** ** The regions to monitor *)
Section EnabledRegions.

Import RegionManager.

Variable settings : Settings.
Variable ec2 : Ec2Service.

(** [get_all_regions] returns a list, which the manager holds from then
    on; it issues one request at most and leaves the other cache alone. *)
Lemma get_all_regions_holds (self : t) (calls : Calls) :
  exists regions self' calls',
    get_all_regions settings ec2 self calls = (Return regions, (self', calls')) /\
    _all_regions self' = Some regions /\
    _enabled_regions self' = _enabled_regions self /\
    (describe_requests calls' <= describe_requests calls + 1)%nat /\
    (_all_regions self = Some regions -> self' = self /\ calls' = calls).
Proof.
  destruct (_all_regions self) as [cached |] eqn:Ecache.
  - exists cached, self, calls.
    rewrite (get_all_regions_cached settings ec2 _ _ _ Ecache).
    repeat split; auto; lia.
  - destruct (get_all_regions_fresh settings ec2 self calls Ecache)
      as (regions & -> & _).
    do 3 eexists. split; [reflexivity |]. repeat split; try discriminate.
    apply discover_calls.
Qed.

Lemma mem_string_In (x : string) (l : list string) :
  BaseClient.mem_string x l = true <-> In x l.
Proof.
  unfold BaseClient.mem_string. rewrite existsb_exists. split.
  - intros (y & Hin & Heq). apply String.eqb_eq in Heq. now subst.
  - intros Hin. exists x. split; [assumption | apply String.eqb_refl].
Qed.

Lemma filter_filter_same {A : Type} (f : A -> bool) (l : list A) :
  filter f (filter f l) = filter f l.
Proof.
  induction l as [| x l IH]; simpl; auto.
  destruct (f x) eqn:E; simpl; [rewrite E |]; now rewrite ?IH.
Qed.

End EnabledRegions.

(** X11: when [settings.ENABLED_REGIONS] is not empty,
    [get_enabled_regions] on a manager that holds no answer yet returns
    the configured list as it is, without building a client or asking
    the service, and leaves the cache of [get_all_regions] untouched;
    every later call returns the same list, again without a call. *)
Theorem configured_regions_are_used_without_asking
  (settings : Settings) (ec2 : RegionManager.Ec2Service)
  (self : RegionManager.t) (calls : RegionManager.Calls) :
  ENABLED_REGIONS settings <> [] ->
  RegionManager._enabled_regions self = None ->
  exists self',
    RegionManager.get_enabled_regions settings ec2 self calls
      = (Return (ENABLED_REGIONS settings), (self', calls)) /\
    RegionManager._all_regions self' = RegionManager._all_regions self /\
    forall calls',
      RegionManager.get_enabled_regions settings ec2 self' calls'
        = (Return (ENABLED_REGIONS settings), (self', calls')).
Proof.
  intros Hconfigured Hnone. unfold RegionManager.get_enabled_regions.
  rewrite Hnone. destruct (ENABLED_REGIONS settings) as [| r rs] eqn:E;
    [contradiction |].
  eexists. split; [reflexivity |]. split; reflexivity.
Qed.

Lemma configured_regions_are_used_without_asking_witness :
  exists self',
    RegionManager.get_enabled_regions
      (mkSettings "us-east-1" 30 10 ["eu-west-1"; "mars-1"]) denied_ec2
      RegionManager.init RegionManager.no_calls
      = (Return ["eu-west-1"; "mars-1"], (self', RegionManager.no_calls)) /\
    RegionManager._all_regions self' = None /\
    forall calls',
      RegionManager.get_enabled_regions
        (mkSettings "us-east-1" 30 10 ["eu-west-1"; "mars-1"]) denied_ec2
        self' calls'
        = (Return ["eu-west-1"; "mars-1"], (self', calls')).
Proof.
  apply (configured_regions_are_used_without_asking
           (mkSettings "us-east-1" 30 10 ["eu-west-1"; "mars-1"]) denied_ec2
           RegionManager.init RegionManager.no_calls).
  - discriminate.
  - reflexivity.
Defined.

(** X12: when [settings.ENABLED_REGIONS] is empty, [get_enabled_regions]
    on a manager that holds no answer yet returns what [get_all_regions]
    returns, at the cost of the calls [get_all_regions] makes (one
    request at most); it never raises, and the manager then holds the
    list in both caches, so that neither method asks the service again. *)
Theorem enabled_regions_default_to_all_regions
  (settings : Settings) (ec2 : RegionManager.Ec2Service)
  (self : RegionManager.t) (calls : RegionManager.Calls) :
  ENABLED_REGIONS settings = [] ->
  RegionManager._enabled_regions self = None ->
  exists regions self1 calls',
    RegionManager.get_all_regions settings ec2 self calls
      = (Return regions, (self1, calls')) /\
    RegionManager.get_enabled_regions settings ec2 self calls
      = (Return regions,
         (RegionManager.mkManager (Some regions) (Some regions), calls')) /\
    (RegionManager.describe_requests calls'
       <= RegionManager.describe_requests calls + 1)%nat /\
    forall later,
      RegionManager.get_enabled_regions settings ec2
        (RegionManager.mkManager (Some regions) (Some regions)) later
        = (Return regions,
           (RegionManager.mkManager (Some regions) (Some regions), later)) /\
      RegionManager.get_all_regions settings ec2
        (RegionManager.mkManager (Some regions) (Some regions)) later
        = (Return regions,
           (RegionManager.mkManager (Some regions) (Some regions), later)).
Proof.
  intros Hempty Hnone.
  destruct (get_all_regions_holds settings ec2 self calls)
    as (regions & self1 & calls' & Hall & Hheld & _ & Hcalls & _).
  exists regions, self1, calls'. split; [assumption |].
  unfold RegionManager.get_enabled_regions at 1. rewrite Hnone, Hempty, Hall, Hheld.
  repeat split; auto.
Qed.

Lemma enabled_regions_default_to_all_regions_witness :
  exists regions self1 calls',
    RegionManager.get_all_regions default_settings throttled_ec2
      RegionManager.init RegionManager.no_calls
      = (Return regions, (self1, calls')) /\
    RegionManager.get_enabled_regions default_settings throttled_ec2
      RegionManager.init RegionManager.no_calls
      = (Return regions,
         (RegionManager.mkManager (Some regions) (Some regions), calls')) /\
    (RegionManager.describe_requests calls'
       <= RegionManager.describe_requests RegionManager.no_calls + 1)%nat /\
    forall later,
      RegionManager.get_enabled_regions default_settings throttled_ec2
        (RegionManager.mkManager (Some regions) (Some regions)) later
        = (Return regions,
           (RegionManager.mkManager (Some regions) (Some regions), later)) /\
      RegionManager.get_all_regions default_settings throttled_ec2
        (RegionManager.mkManager (Some regions) (Some regions)) later
        = (Return regions,
           (RegionManager.mkManager (Some regions) (Some regions), later)).
Proof.
  apply enabled_regions_default_to_all_regions; reflexivity.
Defined.

(** X13: [filter_regions] never raises and returns the regions of its
    argument that [get_all_regions] lists, in the order and with the
    repetitions of the argument; a region is kept exactly when
    [is_region_available] says it is available, and filtering the
    result again changes nothing and asks the service nothing. *)
Theorem filter_regions_keeps_the_available_regions
  (settings : Settings) (ec2 : RegionManager.Ec2Service)
  (self : RegionManager.t) (regions : list string) (calls : RegionManager.Calls) :
  exists all_regions valid self' calls',
    RegionManager.get_all_regions settings ec2 self calls
      = (Return all_regions, (self', calls')) /\
    RegionManager.filter_regions settings ec2 self regions calls
      = (Return valid, (self', calls')) /\
    valid = filter (fun r => if in_dec string_dec r all_regions then true else false)
              regions /\
    (forall region,
       In region valid <->
       In region regions /\
       RegionManager.is_region_available settings ec2 self' region calls'
         = (Return true, (self', calls'))) /\
    RegionManager.filter_regions settings ec2 self' valid calls'
      = (Return valid, (self', calls')).
Proof.
  destruct (get_all_regions_holds settings ec2 self calls)
    as (all_regions & self' & calls' & Hall & Hheld & _ & _ & _).
  pose proof (get_all_regions_cached settings ec2 self' calls' all_regions Hheld)
    as Hagain.
  exists all_regions, (filter (fun r => BaseClient.mem_string r all_regions) regions),
    self', calls'.
  split; [assumption |]. split; [| split; [| split]].
  - unfold RegionManager.filter_regions. now rewrite Hall.
  - apply filter_ext. intros r.
    destruct (in_dec string_dec r all_regions) as [Hin | Hout].
    + now apply mem_string_In.
    + destruct (BaseClient.mem_string r all_regions) eqn:E; auto.
      apply mem_string_In in E. contradiction.
  - intros region. rewrite filter_In. unfold RegionManager.is_region_available.
    rewrite Hagain. split.
    + intros [Hin ->]. auto.
    + intros [Hin [= ->]]. auto.
  - unfold RegionManager.filter_regions. rewrite Hagain.
    now rewrite filter_filter_same.
Qed.

(** When the regions cannot be discovered, only the default region
    passes the filter. *)
Example filter_regions_without_discovery :
  fst (RegionManager.filter_regions default_settings denied_ec2 RegionManager.init
         ["eu-west-1"; "us-east-1"; "us-west-2"; "us-east-1"] RegionManager.no_calls)
  = Return ["us-east-1"; "us-east-1"].
Proof. reflexivity. Qed.

(** ** The regions named in the environment *)
Section EnabledRegionsValue.

Lemma str_lstrip_starts_clean (s : string) : starts_clean (str_lstrip s).
Proof.
  induction s as [| c s IH]; simpl; auto.
  destruct (isspace c) eqn:E; simpl; auto.
Qed.

Lemma str_lstrip_clean (s : string) : starts_clean s -> str_lstrip s = s.
Proof. destruct s as [| c s]; simpl; auto. now intros ->. Qed.

Lemma str_rstrip_starts_clean (s : string) :
  starts_clean s -> starts_clean (str_rstrip s).
Proof.
  destruct s as [| c s]; simpl; auto. intros Hc.
  destruct (str_rstrip s); simpl; auto. now rewrite Hc.
Qed.

Lemma str_rstrip_idempotent (s : string) : str_rstrip (str_rstrip s) = str_rstrip s.
Proof.
  induction s as [| c s IH]; simpl; auto.
  destruct (str_rstrip s) as [| c' rest] eqn:E.
  - destruct (isspace c) eqn:Ec; simpl; auto. now rewrite Ec.
  - change (str_rstrip (String c (String c' rest)))
      with (match str_rstrip (String c' rest) with
            | EmptyString => if isspace c then EmptyString else String c EmptyString
            | String _ _ as rest0 => String c rest0
            end).
    now rewrite IH.
Qed.

Lemma str_strip_idempotent (s : string) : str_strip (str_strip s) = str_strip s.
Proof.
  unfold str_strip.
  rewrite (str_lstrip_clean (str_rstrip (str_lstrip s))).
  - apply str_rstrip_idempotent.
  - apply str_rstrip_starts_clean, str_lstrip_starts_clean.
Qed.

Lemma has_char_lstrip (c : ascii) (s : string) :
  has_char c s = false -> has_char c (str_lstrip s) = false.
Proof.
  induction s as [| c' s IH]; simpl; auto.
  intros H. apply orb_false_iff in H. destruct H as [H1 H2].
  destruct (isspace c'); simpl; auto. now rewrite H1, H2.
Qed.

Lemma has_char_rstrip (c : ascii) (s : string) :
  has_char c s = false -> has_char c (str_rstrip s) = false.
Proof.
  induction s as [| c' s IH]; simpl; auto.
  intros H. apply orb_false_iff in H. destruct H as [H1 H2].
  specialize (IH H2).
  destruct (str_rstrip s) as [| c'' rest].
  - destruct (isspace c'); simpl; auto. now rewrite H1.
  - cbn [has_char] in *. now rewrite H1, IH.
Qed.

Lemma has_char_strip (c : ascii) (s : string) :
  has_char c s = false -> has_char c (str_strip s) = false.
Proof. intros H. now apply has_char_rstrip, has_char_lstrip. Qed.

(** The pieces of a split hold no separator. *)
Lemma str_split_pieces (sep : ascii) (s : string) :
  str_split sep s <> [] /\
  Forall (fun piece => has_char sep piece = false) (str_split sep s).
Proof.
  induction s as [| c s [IHne IH]]; simpl.
  - split; [discriminate | repeat constructor].
  - destruct (Ascii.eqb c sep) eqn:E.
    + split; [discriminate | now constructor].
    + destruct (str_split sep s) as [| piece pieces]; [contradiction |].
      split; [discriminate |].
      inversion IH as [| ? ? Hpiece Hpieces]; subst.
      constructor; auto. simpl. now rewrite E, Hpiece.
Qed.

(** A string without the separator is one piece. *)
Lemma str_split_one (sep : ascii) (s : string) :
  has_char sep s = false -> str_split sep s = [s].
Proof.
  induction s as [| c s IH]; simpl; auto.
  intros H. apply orb_false_iff in H. destruct H as [H1 H2].
  now rewrite H1, IH.
Qed.

(** A piece, the separator, and the rest. *)
Lemma str_split_app (sep : ascii) (a rest : string) :
  has_char sep a = false ->
  str_split sep (a ++ String sep rest) = a :: str_split sep rest.
Proof.
  induction a as [| c a IH]; simpl.
  - intros _. now rewrite Ascii.eqb_refl.
  - intros H. apply orb_false_iff in H. destruct H as [H1 H2].
    now rewrite H1, IH.
Qed.

(** Characters in front of the first separator go to the first piece. *)
Lemma str_split_prefix (sep : ascii) (pad rest : string) :
  has_char sep pad = false ->
  str_split sep (pad ++ rest)
  = match str_split sep rest with
    | piece :: pieces => (pad ++ piece) :: pieces
    | [] => [pad]
    end.
Proof.
  induction pad as [| c pad IH]; simpl.
  - intros _. destruct (str_split_pieces sep rest) as [Hne _].
    now destruct (str_split sep rest).
  - intros H. apply orb_false_iff in H. destruct H as [H1 H2].
    rewrite H1, IH by assumption.
    now destruct (str_split sep rest).
Qed.

Lemma all_blank_no_comma (pad : string) :
  all_blank pad = true -> has_char "," pad = false.
Proof.
  induction pad as [| c pad IH]; simpl; auto.
  intros H. apply andb_true_iff in H. destruct H as [Hc Hpad].
  rewrite IH by assumption. rewrite orb_false_r.
  destruct (Ascii.eqb c ",") eqn:E; auto.
  apply Ascii.eqb_eq in E. subst c. discriminate.
Qed.

Lemma str_lstrip_pad (pad s : string) :
  all_blank pad = true -> str_lstrip (pad ++ s) = str_lstrip s.
Proof.
  induction pad as [| c pad IH]; simpl; auto.
  intros H. apply andb_true_iff in H. destruct H as [-> Hpad]. auto.
Qed.

(** The pieces of a list of names joined by a comma and blanks: the
    first name, and every other name behind the blanks. *)
Lemma str_split_joined (pad : string) (names : list string) :
  all_blank pad = true ->
  Forall tidy names ->
  forall name,
    has_char "," name = false ->
    str_split "," (String.concat (String "," pad) (name :: names))
    = name :: map (append pad) names.
Proof.
  intros Hpad. induction 1 as [| next names Hnext _ IH]; intros name Hname.
  - simpl. now apply str_split_one.
  - cbn [String.concat]. cbn [String.concat] in IH.
    change (name ++ String "," pad ++ ?x) with (name ++ String "," (pad ++ x)).
    rewrite str_split_app by assumption. f_equal.
    destruct Hnext as (_ & _ & Hcomma).
    rewrite str_split_prefix by now apply all_blank_no_comma.
    now rewrite (IH next Hcomma).
Qed.

(** A piece made of blanks is stripped to nothing. *)
Lemma str_strip_blank (s : string) :
  all_blank s = true -> str_strip s = EmptyString.
Proof.
  unfold str_strip. induction s as [| c s IH]; simpl; auto.
  intros H. apply andb_true_iff in H. destruct H as [-> Hs]. auto.
Qed.

(** Between the commas of a string of blanks and commas are blanks. *)
Lemma str_split_blanks (s : string) :
  blanks_and_commas s = true ->
  Forall (fun piece => all_blank piece = true) (str_split "," s).
Proof.
  induction s as [| c s IH]; simpl.
  - intros _. repeat constructor.
  - intros H. apply andb_true_iff in H. destruct H as [Hc Hs].
    specialize (IH Hs).
    destruct (Ascii.eqb c ",") eqn:E; [now constructor |].
    rewrite orb_false_r in Hc.
    destruct (str_split "," s) as [| piece pieces]; [repeat constructor; simpl |].
    + now rewrite Hc.
    + inversion IH as [| ? ? Hpiece Hpieces]; subst.
      constructor; auto. simpl. now rewrite Hc, Hpiece.
Qed.

End EnabledRegionsValue.

(** X18: whatever the environment variable holds, every name of
    [Settings.ENABLED_REGIONS] is tidy: it is not empty, it neither
    starts nor ends with a blank, and it holds no comma.  A variable
    that is not set, or that holds blanks and commas only, gives the
    empty list, which [get_enabled_regions] reads as every region. *)
Theorem enabled_regions_are_tidy (raw : string) :
  Forall tidy (read_enabled_regions (Some raw)) /\
  (blanks_and_commas raw = true -> read_enabled_regions (Some raw) = []) /\
  read_enabled_regions None = [].
Proof.
  unfold read_enabled_regions. split; [| split; [| reflexivity]].
  - apply Forall_map, Forall_forall. intros piece Hin.
    apply filter_In in Hin. destruct Hin as [Hin Hkept].
    apply negb_true_iff, String.eqb_neq in Hkept.
    destruct (str_split_pieces "," raw) as [_ Hpieces].
    rewrite Forall_forall in Hpieces.
    split; [assumption | split].
    + apply str_strip_idempotent.
    + apply has_char_strip. auto.
  - intros Hblank. apply str_split_blanks in Hblank.
    induction Hblank as [| piece pieces Hpiece _ IH]; simpl; auto.
    now rewrite (str_strip_blank _ Hpiece).
Qed.

(** A value with stray commas and blanks. *)
Example enabled_regions_of_an_untidy_value :
  read_enabled_regions (Some " us-east-1 ,, eu-west-1,  ")
  = ["us-east-1"; "eu-west-1"] /\
  read_enabled_regions (Some " , ,") = [].
Proof. split; reflexivity. Qed.

(** X19: reading back a list of tidy names written with a comma between
    them, followed by any number of blanks, gives the list itself: the
    names, in their order, repetitions included. *)
Theorem enabled_regions_round_trip (pad : string) (names : list string) :
  all_blank pad = true ->
  Forall tidy names ->
  read_enabled_regions (Some (String.concat (String "," pad) names)) = names.
Proof.
  intros Hpad Hnames. unfold read_enabled_regions.
  destruct Hnames as [| name names Hname Hnames]; [reflexivity |].
  rewrite (str_split_joined pad names Hpad Hnames name)
    by (now destruct Hname as (_ & _ & H)).
  assert (Hkeep : forall n, tidy n ->
            str_strip (pad ++ n) = n /\
            negb (String.eqb (str_strip (pad ++ n)) EmptyString) = true).
  { intros n (Hne & Hstrip & _).
    assert (H : str_strip (pad ++ n) = n)
      by (unfold str_strip in *; now rewrite str_lstrip_pad).
    split; [assumption |]. rewrite H. now apply negb_true_iff, String.eqb_neq. }
  cbn [filter].
  destruct Hname as (Hne & Hstrip & Hcomma). rewrite Hstrip.
  replace (negb (String.eqb name EmptyString)) with true
    by (symmetry; now apply negb_true_iff, String.eqb_neq).
  cbn [map]. rewrite Hstrip. f_equal.
  induction Hnames as [| n names Hn _ IH]; simpl; auto.
  destruct (Hkeep n Hn) as [H1 H2]. rewrite H2. simpl. now rewrite H1, IH.
Qed.

Lemma enabled_regions_round_trip_witness :
  read_enabled_regions (Some "us-east-1, eu-west-1, us-east-1")
  = ["us-east-1"; "eu-west-1"; "us-east-1"].
Proof.
  apply (enabled_regions_round_trip " " ["us-east-1"; "eu-west-1"; "us-east-1"]).
  - reflexivity.
  - repeat constructor; discriminate.
Defined.

(** ** The cost client: the daily costs and the calls made *)
Section CostCalls.

Import CostExplorer.

Variable float_of_str : string -> PyResult float.
Variable service_api : Request -> nat -> BaseClient.CallOutcome Response.

(** The loop of [_get_daily_costs] makes one entry per bucket, or raises
    at the first amount that does not read. *)
Lemma daily_entries_all_or_nothing (results : list ResultByTime) :
  forall acc,
    or_default []
      (for_each
         (fun daily_costs result =>
            let date := dict_get_default "Start" "Unknown"
                          (or_empty (TimePeriod result)) in
            let amount := unblended_amount (Total result) in
            x <- float_of_str amount ;;
            Return (daily_costs ++ [mkDaily date (float_round2 x)])%list)
         results acc)
    = if forallb (amount_reads float_of_str) results
      then (acc ++ map (daily_entry float_of_str) results)%list
      else [].
Proof.
  induction results as [| result results IH]; intros acc; simpl.
  - now rewrite app_nil_r.
  - unfold amount_reads at 1, daily_entry at 1.
    destruct (float_of_str (unblended_amount (Total result))) as [x |]; simpl; auto.
    rewrite IH. destruct (forallb _ results); auto.
    now rewrite <- app_assoc.
Qed.

Lemma calls_after_bounded (request : Request) (calls : nat) :
  (calls <= calls_after service_api request calls <= calls + 3)%nat.
Proof. apply safe_api_call_bounded. Qed.

End CostCalls.

(** X9: when the service answers the daily request with time buckets,
    [_get_daily_costs] returns one entry per bucket, in the order of the
    response, with the bucket's ['Start'] (or ['Unknown']) as date and
    its amount rounded to two decimals as cost, provided every amount
    reads as a float; if one amount does not, the whole list is empty. *)
Theorem daily_costs_follow_the_buckets
  (float_of_str : string -> PyResult float)
  (service_api : CostExplorer.Request -> nat ->
                 BaseClient.CallOutcome CostExplorer.Response)
  (start_date end_date : date) (calls : nat)
  (results : list CostExplorer.ResultByTime) :
  response_to service_api (daily_request start_date end_date) calls
    = Some (CostExplorer.mkResponse (Some results)) ->
  fst (CostExplorer._get_daily_costs float_of_str service_api start_date end_date
         calls)
  = Return (if forallb (amount_reads float_of_str) results
            then map (daily_entry float_of_str) results
            else []).
Proof.
  intros Hresponse. rewrite _get_daily_costs_returns. cbn [fst].
  rewrite Hresponse. unfold from_buckets, CostExplorer.daily_entries.
  now rewrite daily_entries_all_or_nothing.
Qed.

Lemma daily_costs_follow_the_buckets_witness :
  fst (CostExplorer._get_daily_costs float_of_decimal
         (fun _ _ =>
            BaseClient.Responded
              (CostExplorer.mkResponse
                 (Some [CostExplorer.mkResult (Some [("Start", "2024-06-02")])
                          (Some [("UnblendedCost", [("Amount", "3.456")])]) None;
                        CostExplorer.mkResult None None None;
                        CostExplorer.mkResult (Some [("Start", "2024-06-01")])
                          (Some [("UnblendedCost", [("Amount", "1.5")])]) None])))
         (mkDate 2024 6 1) (mkDate 2024 6 3) 0%nat)
  = Return [CostExplorer.mkDaily "2024-06-02"
              (float_round2 (or_default float_zero (float_of_decimal "3.456")));
            CostExplorer.mkDaily "Unknown" float_zero;
            CostExplorer.mkDaily "2024-06-01"
              (float_round2 (or_default float_zero (float_of_decimal "1.5")))].
Proof.
  apply (daily_costs_follow_the_buckets float_of_decimal _ _ _ 0%nat
           [CostExplorer.mkResult (Some [("Start", "2024-06-02")])
              (Some [("UnblendedCost", [("Amount", "3.456")])]) None;
            CostExplorer.mkResult None None None;
            CostExplorer.mkResult (Some [("Start", "2024-06-01")])
              (Some [("UnblendedCost", [("Amount", "1.5")])]) None]).
  reflexivity.
Defined.

(** X10: one call of [get_cost_and_usage] makes at most twelve
    invocations of the Cost Explorer operation (four requests, each tried
    three times at most), whatever the day and whatever the service
    answers. *)
Theorem get_cost_and_usage_makes_at_most_twelve_calls
  (float_of_str : string -> PyResult float)
  (service_api : CostExplorer.Request -> nat ->
                 BaseClient.CallOutcome CostExplorer.Response)
  (today : date) (calls : nat) :
  (calls <= snd (CostExplorer.get_cost_and_usage float_of_str service_api today
                   calls) <= calls + 12)%nat.
Proof.
  unfold CostExplorer.get_cost_and_usage, aws_try, aws_bind, aws_lift, aws_ret.
  destruct (date_replace_day today 1) as [month_start |]; [| simpl; lia].
  destruct (CostExplorer.month_end month_start) as [month_end_date |];
    [| simpl; lia].
  destruct (date_add_days today (-30)) as [thirty_days_ago |]; [| simpl; lia].
  rewrite _get_cost_for_period_returns, _get_daily_costs_returns,
    _get_service_breakdown_returns.
  pose proof (calls_after_bounded service_api
                (period_request month_start today) calls) as H1.
  set (c1 := calls_after service_api (period_request month_start today) calls) in *.
  pose proof (calls_after_bounded service_api
                (daily_request thirty_days_ago today) c1) as H2.
  set (c2 := calls_after service_api (daily_request thirty_days_ago today) c1) in *.
  pose proof (calls_after_bounded service_api
                (breakdown_request month_start today) c2) as H3.
  set (c3 := calls_after service_api (breakdown_request month_start today) c2) in *.
  destruct (date_add_days today (-1)) as [yesterday |]; [| simpl; lia].
  rewrite _get_cost_for_period_returns.
  pose proof (calls_after_bounded service_api
                (period_request yesterday today) c3) as H4.
  simpl. lia.
Qed.

(** ** The Glue client *)
Section Glue.

Import GlueClient.

Variable str_datetime : datetime -> string.
Variable service : Service.

Lemma map_result_app {A B : Type} (f : A -> PyResult B) (l1 l2 : list A) :
  map_result f (l1 ++ l2)
  = (xs <- map_result f l1 ;; ys <- map_result f l2 ;; Return (xs ++ ys)%list).
Proof.
  induction l1 as [| x l1 IH]; simpl.
  - now destruct (map_result f l2).
  - destruct (f x) as [y |]; simpl; auto. rewrite IH.
    destruct (map_result f l1) as [xs |]; simpl; auto.
    now destruct (map_result f l2).
Qed.

(** The inner loop of [_get_tables] appends the entries of a page, or
    raises at the first table without a name. *)
Lemma append_tables_map (database_name : string) (table_list : list Table) :
  forall tables,
    append_tables str_datetime database_name table_list tables
    = match map_result (table_data str_datetime database_name) table_list with
      | Return new => Return (tables ++ new)%list
      | Raise e => Raise e
      end.
Proof.
  unfold append_tables.
  induction table_list as [| table table_list IH]; intros tables; simpl.
  - now rewrite app_nil_r.
  - destruct (table_data str_datetime database_name table) as [data |]; simpl; auto.
    rewrite IH.
    destruct (map_result _ table_list) as [new |]; simpl; auto.
    now rewrite <- app_assoc.
Qed.

Lemma tables_response_bounded (database_name : string) (next_token : option string)
  (calls : nat) (response : option GetTablesResponse) (calls' : nat) :
  tables_response service database_name next_token calls = (response, calls') ->
  (calls <= calls')%nat.
Proof.
  unfold tables_response. intros H.
  pose proof (safe_api_call_bounded
                (client_get_tables service database_name
                   (if truthy next_token then next_token else None))
                BaseClient.default_max_retries calls) as Hb.
  rewrite H in Hb. simpl in Hb. lia.
Qed.

Lemma serves_calls (database_name : string) (next_token : option string)
  (calls : nat) (pages : list (list Table)) (calls' : nat) :
  serves service database_name next_token calls pages calls' -> (calls <= calls')%nat.
Proof.
  induction 1 as [? ? ? ? H _ | ? ? ? ? ? H _ | ? ? ? ? ? ? ? H _ _ IH];
    apply tables_response_bounded in H; lia.
Qed.

(** The loop over the pages the service serves. *)
Lemma read_pages_serves (database_name : string) (next_token : option string)
  (calls : nat) (pages : list (list Table)) (calls' : nat) :
  serves service database_name next_token calls pages calls' ->
  forall fuel tables,
    (List.length pages < fuel)%nat ->
    match map_result (table_data str_datetime database_name) (List.concat pages) with
    | Return new =>
        read_pages str_datetime service fuel database_name next_token tables calls
        = Some (Return (tables ++ new)%list, calls')
    | Raise e =>
        exists c,
          read_pages str_datetime service fuel database_name next_token tables calls
          = Some (Raise e, c) /\ (calls <= c <= calls')%nat
    end.
Proof.
  induction 1 as [next_token calls response calls' Hresponse Hnone
                 | next_token calls table_list token calls' Hresponse Hlast
                 | next_token calls table_list token calls' pages calls''
                     Hresponse Hmore Hrest IH];
    intros fuel tables Hfuel;
    (destruct fuel as [| fuel]; [simpl in Hfuel; lia |]);
    cbn [read_pages]; unfold tables_response in Hresponse; rewrite Hresponse.
  - simpl. rewrite app_nil_r.
    destruct response as [[[table_list |] token] |]; auto.
    now contradiction (Hnone table_list token).
  - cbn [List.concat]. rewrite app_nil_r, append_tables_map.
    destruct (map_result _ table_list) as [new | e].
    + now rewrite Hlast.
    + exists calls'. split; auto.
      pose proof (tables_response_bounded _ _ _ _ _ Hresponse). lia.
  - cbn [List.concat]. rewrite map_result_app, append_tables_map.
    pose proof (tables_response_bounded _ _ _ _ _ Hresponse) as Hb1.
    pose proof (serves_calls _ _ _ _ _ Hrest) as Hb2.
    destruct (map_result _ table_list) as [new | e]; cbn [bind].
    + rewrite Hmore. simpl in Hfuel.
      specialize (IH fuel (tables ++ new)%list ltac:(lia)).
      destruct (map_result _ (List.concat pages)) as [new' | e]; cbn [bind].
      * now rewrite IH, app_assoc.
      * destruct IH as (c & -> & Hc). exists c. split; auto. lia.
    + exists calls'. split; auto.
Qed.

Lemma safe_api_call_responded {R : Type} (func : nat -> BaseClient.CallOutcome R)
  (calls : nat) (r : R) :
  func calls = BaseClient.Responded r ->
  BaseClient.safe_api_call func BaseClient.default_max_retries calls
  = (Some r, S calls).
Proof.
  intros H. unfold BaseClient.safe_api_call, BaseClient.default_max_retries.
  cbn [BaseClient.attempts]. now rewrite H.
Qed.

Lemma named_tables_read (database_name : string) (table_list : list Table) :
  Forall (fun table => Table_Name table <> None) table_list ->
  exists new,
    map_result (table_data str_datetime database_name) table_list = Return new.
Proof.
  induction 1 as [| table table_list Hname _ [new IH]]; simpl; eauto.
  unfold table_data at 1. destruct (Table_Name table); [| contradiction].
  simpl. rewrite IH. simpl. eauto.
Qed.

Lemma read_pages_endless (database_name : string) :
  endless service database_name ->
  forall fuel next_token tables calls,
    read_pages str_datetime service fuel database_name next_token tables calls = None.
Proof.
  intros Hendless. induction fuel as [| fuel IH]; intros next_token tables calls;
    [reflexivity |].
  cbn [read_pages].
  destruct (Hendless (if truthy next_token then next_token else None) calls)
    as (table_list & token & Hcall & Htoken & Hnamed).
  rewrite (safe_api_call_responded _ _ _ Hcall).
  rewrite append_tables_map.
  destruct (named_tables_read database_name table_list Hnamed) as [new ->].
  rewrite Htoken. apply IH.
Qed.

(** The tables [_get_tables] returns are filed under the database asked for. *)
Lemma append_tables_database (database_name : string) (table_list : list Table) :
  forall tables tables',
    append_tables str_datetime database_name table_list tables = Return tables' ->
    Forall (fun table => table_database table = database_name) tables ->
    Forall (fun table => table_database table = database_name) tables'.
Proof.
  unfold append_tables.
  induction table_list as [| table table_list IH]; simpl; intros tables tables' H Hall.
  - now injection H as <-.
  - unfold table_data in H at 1.
    destruct (Table_Name table) as [table_name |]; simpl in H; [| discriminate].
    eapply IH; [exact H |].
    apply Forall_app. split; auto.
Qed.

Lemma read_pages_database (database_name : string) :
  forall fuel next_token tables calls tables' calls',
    read_pages str_datetime service fuel database_name next_token tables calls
    = Some (Return tables', calls') ->
    Forall (fun table => table_database table = database_name) tables ->
    Forall (fun table => table_database table = database_name) tables'.
Proof.
  induction fuel as [| fuel IH]; intros next_token tables calls tables' calls' H Hall;
    [discriminate |].
  cbn [read_pages] in H.
  destruct (BaseClient.safe_api_call _ _ _) as [response c].
  destruct response as [[[table_list |] token] |];
    try (injection H as <- _; assumption).
  destruct (append_tables str_datetime database_name table_list tables)
    as [tables1 |] eqn:E; [| discriminate].
  pose proof (append_tables_database _ _ _ _ E Hall) as Hall1.
  destruct (truthy token).
  - eapply IH; eauto.
  - now injection H as <- _.
Qed.

Lemma _get_tables_database (fuel : nat) (database_name : string) (calls : nat)
  (tables : list TableData) (calls' : nat) :
  _get_tables str_datetime service fuel database_name calls = Some (tables, calls') ->
  Forall (fun table => table_database table = database_name) tables.
Proof.
  unfold _get_tables.
  destruct (read_pages _ _ _ _ _ _ _) as [[[tables' | e] c] |] eqn:E;
    try discriminate; intros [= <- _].
  - eapply read_pages_database; eauto.
  - constructor.
Qed.

(** The loop over the databases of a response, when every table
    listing comes to an end. *)
Lemma parse_databases_returns (fuel : nat) (self_region : string) :
  (forall database_name c,
     _get_tables str_datetime service fuel database_name c <> None) ->
  forall database_list databases total_tables calls,
  exists r calls',
    parse_databases str_datetime service fuel self_region database_list
      databases total_tables calls = Some (r, calls') /\
    match database_names database_list with
    | Some names =>
        exists new,
          r = Return ((databases ++ new)%list,
                      (total_tables + list_sum (map table_count new))%nat) /\
          map name new = names /\
          Forall (database_consistent self_region) new
    | None => exists e, r = Raise e
    end.
Proof.
  intros Hends. induction database_list as [| db database_list IH];
    intros databases total_tables calls.
  - simpl. do 2 eexists. split; [reflexivity |]. exists [].
    rewrite app_nil_r, Nat.add_0_r. repeat split; constructor.
  - cbn [parse_databases database_names fold_right].
    destruct (Name db) as [database_name |] eqn:Ename.
    2:{ do 2 eexists. split; [reflexivity |]. eauto. }
    destruct (_get_tables str_datetime service fuel database_name calls)
      as [[tables calls1] |] eqn:Etables; [| now contradiction (Hends database_name calls)].
    set (data := {| name := database_name;
                    description := _; location := _; create_time := _;
                    table_count := List.length tables; tables := tables;
                    region := self_region |}).
    destruct (IH (databases ++ [data])%list
                (total_tables + List.length tables)%nat calls1)
      as (r & calls' & -> & Hr).
    do 2 eexists. split; [reflexivity |].
    fold (database_names database_list).
    destruct (database_names database_list) as [names |].
    + destruct Hr as (new & -> & Hnames & Hall). exists (data :: new).
      split; [| split].
      * rewrite <- app_assoc. simpl. f_equal. f_equal. lia.
      * simpl. now rewrite Hnames.
      * constructor; auto. repeat split.
        apply (_get_tables_database _ _ _ _ _ Etables).
    + exact Hr.
Qed.

End Glue.

(** X20: [_get_tables] follows the tokens of the service.  When the
    service serves a sequence of pages to the requests the method makes
    (each page but the last carrying a token, the listing ending with a
    page without token or with a request that gives no table list),
    the method returns the entries of the tables of all the pages, in
    their order, provided every table has a ['Name']; if a table lacks
    it, the method returns the empty list, whatever it had read.  It
    makes no request beyond those that serve the pages. *)
Theorem get_tables_reads_every_page
  (str_datetime : datetime -> string) (service : GlueClient.Service)
  (database_name : string) (calls : nat)
  (pages : list (list GlueClient.Table)) (calls' fuel : nat) :
  serves service database_name None calls pages calls' ->
  (List.length pages < fuel)%nat ->
  exists calls'',
    GlueClient._get_tables str_datetime service fuel database_name calls
    = Some (or_default []
              (map_result (GlueClient.table_data str_datetime database_name)
                 (List.concat pages)),
            calls'') /\
    (calls <= calls'' <= calls')%nat /\
    ((exists tables,
        map_result (GlueClient.table_data str_datetime database_name)
          (List.concat pages) = Return tables) -> calls'' = calls').
Proof.
  intros Hserves Hfuel. unfold GlueClient._get_tables.
  pose proof (read_pages_serves str_datetime service _ _ _ _ _ Hserves fuel []
                Hfuel) as H.
  pose proof (serves_calls _ _ _ _ _ _ Hserves) as Hcalls.
  destruct (map_result _ (List.concat pages)) as [new | e].
  - rewrite H. exists calls'. simpl.
    split; [reflexivity | split; [lia | reflexivity]].
  - destruct H as (c & -> & Hc). exists c. simpl.
    split; [reflexivity | split; [exact Hc |]].
    intros [tables Htables]. discriminate.
Qed.

Lemma get_tables_reads_every_page_witness :
  exists calls'',
    GlueClient._get_tables (fun _ => "2024-01-01 00:00:00+00:00") two_page_glue 3
      "sales" 0
    = Some (or_default []
              (map_result
                 (GlueClient.table_data (fun _ => "2024-01-01 00:00:00+00:00")
                    "sales")
                 (List.concat [[GlueClient.mkTable (Some "orders") None None None None;
                           GlueClient.mkTable (Some "items") None None None None];
                          [GlueClient.mkTable (Some "refunds") None None None
                             None]])),
            calls'') /\
    (0 <= calls'' <= 3)%nat /\
    ((exists tables,
        map_result
          (GlueClient.table_data (fun _ => "2024-01-01 00:00:00+00:00") "sales")
          (List.concat [[GlueClient.mkTable (Some "orders") None None None None;
                    GlueClient.mkTable (Some "items") None None None None];
                   [GlueClient.mkTable (Some "refunds") None None None None]])
        = Return tables) -> calls'' = 3%nat).
Proof.
  apply (get_tables_reads_every_page _ two_page_glue "sales" 0
           [[GlueClient.mkTable (Some "orders") None None None None;
             GlueClient.mkTable (Some "items") None None None None];
            [GlueClient.mkTable (Some "refunds") None None None None]] 3 3).
  - eapply serves_more; [reflexivity | reflexivity |].
    eapply serves_last; reflexivity.
  - simpl. lia.
Defined.

(** The listing of the witness: three tables over two pages, the second
    page served after one throttled attempt. *)
Example two_pages_of_tables :
  GlueClient._get_tables (fun _ => "2024-01-01 00:00:00+00:00") two_page_glue 3
    "sales" 0
  = Some ([GlueClient.mkTableData "orders" "sales" "N/A" "N/A" "N/A" [];
           GlueClient.mkTableData "items" "sales" "N/A" "N/A" "N/A" [];
           GlueClient.mkTableData "refunds" "sales" "N/A" "N/A" "N/A" []],
          3%nat).
Proof. reflexivity. Qed.

(** X21: the loop of [_get_tables] has no bound of its own: against a
    service that hands out a token with every page, the method does not
    return, however many pages it is allowed to read. *)
Theorem get_tables_has_no_page_bound
  (str_datetime : datetime -> string) (service : GlueClient.Service)
  (database_name : string) :
  endless service database_name ->
  forall fuel calls,
    GlueClient._get_tables str_datetime service fuel database_name calls = None.
Proof.
  intros Hendless fuel calls. unfold GlueClient._get_tables.
  now rewrite (read_pages_endless str_datetime service database_name Hendless).
Qed.

Lemma get_tables_has_no_page_bound_witness :
  GlueClient._get_tables (fun _ => "") repeating_glue 1000 "sales" 0 = None.
Proof.
  apply (get_tables_has_no_page_bound (fun _ => "") repeating_glue "sales").
  intros next_token n. do 2 eexists. split; [reflexivity |].
  split; [reflexivity | constructor].
Defined.

(** X22: when every table listing comes to an end, [get_databases]
    returns, and what it returns has the keys ['databases'], ['summary']
    and ['region'] and a summary that counts what the dictionary lists:
    [total_databases] is the number of entries of ['databases'] and
    [total_tables] the sum of their [table_count], each of which is the
    number of tables of its entry.  The entries are the databases of the
    response, in its order, when every one of them has a ['Name']; they
    are none at all when one has not, when the request gives no
    response, or when the response has no ['DatabaseList']. *)
Theorem get_databases_counts_what_it_lists
  (str_datetime : datetime -> string) (service : GlueClient.Service)
  (fuel : nat) (self_region : string) (calls : nat) :
  (forall database_name c,
     GlueClient._get_tables str_datetime service fuel database_name c <> None) ->
  exists databases calls',
    GlueClient.get_databases str_datetime service fuel self_region calls
    = Some (glue_result self_region databases, calls') /\
    Forall (database_consistent self_region) databases /\
    match fst (BaseClient.safe_api_call (GlueClient.client_get_databases service)
                 BaseClient.default_max_retries calls) with
    | Some (GlueClient.mkDatabases (Some database_list)) =>
        match database_names database_list with
        | Some names => map GlueClient.name databases = names
        | None => databases = []
        end
    | _ => databases = []
    end.
Proof.
  intros Hends. unfold GlueClient.get_databases.
  destruct (BaseClient.safe_api_call _ _ _) as [response calls1]. cbn [fst].
  destruct response as [[[database_list |]] |];
    try (exists [], calls1; repeat split; constructor).
  destruct (parse_databases_returns str_datetime service fuel self_region Hends
              database_list [] O calls1) as (r & calls' & -> & Hr).
  destruct (database_names database_list) as [names |].
  - destruct Hr as (new & -> & Hnames & Hall). exists new, calls'.
    repeat split; auto.
  - destruct Hr as [e ->]. exists [], calls'. repeat split; constructor.
Qed.

Lemma get_databases_counts_what_it_lists_witness :
  exists databases calls',
    GlueClient.get_databases (fun _ => "") two_page_glue 3 "eu-west-1" 0
    = Some (glue_result "eu-west-1" databases, calls') /\
    Forall (database_consistent "eu-west-1") databases /\
    map GlueClient.name databases = ["sales"; "logs"].
Proof.
  apply (get_databases_counts_what_it_lists (fun _ => "") two_page_glue 3
           "eu-west-1" 0).
  intros database_name c. destruct c as [| c]; cbn; discriminate.
Defined.

(** ** The SageMaker client *)
Section SageMaker.

Import SageMakerClient.

Variable str_datetime : datetime -> string.
Variable service : Service.
Variable self_region : string.

(** Collecting the entries of a list: all of them, or an exception. *)
Lemma collect_data_map {A B : Type} (data : A -> PyResult B) (items : list A) :
  collect_data data items = map_result data items.
Proof.
  unfold collect_data.
  assert (G : forall acc,
            for_each (fun result x => d <- data x ;; Return (result ++ [d])%list)
              items acc
            = match map_result data items with
              | Return new => Return (acc ++ new)%list
              | Raise e => Raise e
              end).
  { induction items as [| x items IH]; intros acc; simpl.
    - now rewrite app_nil_r.
    - destruct (data x) as [d |]; simpl; auto. rewrite IH.
      destruct (map_result data items); simpl; auto.
      now rewrite <- app_assoc. }
  rewrite G. now destruct (map_result data items).
Qed.

Lemma _get_notebook_instances_returns (calls : nat) :
  _get_notebook_instances str_datetime service self_region calls
  = (Return (entries_of (instance_data str_datetime self_region)
               (field_of NotebookInstances
                  (fst (BaseClient.safe_api_call
                          (client_list_notebook_instances service)
                          BaseClient.default_max_retries calls)))),
     snd (BaseClient.safe_api_call (client_list_notebook_instances service)
            BaseClient.default_max_retries calls)).
Proof.
  unfold _get_notebook_instances, aws_try, aws_bind, aws_safe_api_call, aws_lift,
    aws_ret.
  destruct (BaseClient.safe_api_call _ _ _) as [[[[items |]] |] calls']; simpl; auto.
  rewrite collect_data_map. now destruct (map_result _ items).
Qed.

Lemma _get_endpoints_returns (calls : nat) :
  _get_endpoints str_datetime service self_region calls
  = (Return (entries_of (endpoint_data str_datetime self_region)
               (field_of Endpoints
                  (fst (BaseClient.safe_api_call (client_list_endpoints service)
                          BaseClient.default_max_retries calls)))),
     snd (BaseClient.safe_api_call (client_list_endpoints service)
            BaseClient.default_max_retries calls)).
Proof.
  unfold _get_endpoints, aws_try, aws_bind, aws_safe_api_call, aws_lift, aws_ret.
  destruct (BaseClient.safe_api_call _ _ _) as [[[[items |]] |] calls']; simpl; auto.
  rewrite collect_data_map. now destruct (map_result _ items).
Qed.

Lemma _get_recent_training_jobs_returns (calls : nat) :
  _get_recent_training_jobs str_datetime service self_region calls
  = (Return (entries_of (job_data str_datetime self_region)
               (field_of TrainingJobSummaries
                  (fst (BaseClient.safe_api_call (client_list_training_jobs service)
                          BaseClient.default_max_retries calls)))),
     snd (BaseClient.safe_api_call (client_list_training_jobs service)
            BaseClient.default_max_retries calls)).
Proof.
  unfold _get_recent_training_jobs, aws_try, aws_bind, aws_safe_api_call, aws_lift,
    aws_ret.
  destruct (BaseClient.safe_api_call _ _ _) as [[[[items |]] |] calls']; simpl; auto.
  rewrite collect_data_map. now destruct (map_result _ items).
Qed.

Lemma count_status_bounded {A : Type} (status : A -> string) (wanted : string)
  (items : list A) :
  (count_status status wanted items <= List.length items)%nat.
Proof. apply filter_length_le. Qed.

End SageMaker.

(** X23: [get_resources] never raises, and its three listings fail
    independently of each other.  Each list of the dictionary it returns
    holds one entry per item of the response to its own request, in the
    order of the response, or is empty when that request gave no
    response, when the response lacks the list, or when one of its items
    has no name; what happens to one listing changes nothing in the
    others.  The totals of the summary are the lengths of the lists, no
    count of active resources exceeds its total, and at most nine
    invocations of the service are made. *)
Theorem sagemaker_listings_fail_independently
  (str_datetime : datetime -> string) (service : SageMakerClient.Service)
  (self_region : string) (calls : nat) :
  let notebooks :=
    BaseClient.safe_api_call (SageMakerClient.client_list_notebook_instances service)
      BaseClient.default_max_retries calls in
  let endpoints :=
    BaseClient.safe_api_call (SageMakerClient.client_list_endpoints service)
      BaseClient.default_max_retries (snd notebooks) in
  let jobs :=
    BaseClient.safe_api_call (SageMakerClient.client_list_training_jobs service)
      BaseClient.default_max_retries (snd endpoints) in
  exists nbs eps tjs active_notebooks active_endpoints running,
    SageMakerClient.get_resources str_datetime service self_region calls
    = (Return
         [("notebook_instances", SageMakerClient.NotebookList nbs);
          ("endpoints", SageMakerClient.EndpointList eps);
          ("training_jobs", SageMakerClient.JobList tjs);
          ("summary",
           SageMakerClient.Summary
             [("total_notebooks", List.length nbs);
              ("active_notebooks", active_notebooks);
              ("total_endpoints", List.length eps);
              ("active_endpoints", active_endpoints);
              ("total_training_jobs", List.length tjs);
              ("running_training_jobs", running)]);
          ("region", SageMakerClient.Region self_region)],
       snd jobs) /\
    nbs = entries_of (SageMakerClient.instance_data str_datetime self_region)
            (field_of SageMakerClient.NotebookInstances (fst notebooks)) /\
    eps = entries_of (SageMakerClient.endpoint_data str_datetime self_region)
            (field_of SageMakerClient.Endpoints (fst endpoints)) /\
    tjs = entries_of (SageMakerClient.job_data str_datetime self_region)
            (field_of SageMakerClient.TrainingJobSummaries (fst jobs)) /\
    (active_notebooks <= List.length nbs)%nat /\
    (active_endpoints <= List.length eps)%nat /\
    (running <= List.length tjs)%nat /\
    (calls <= snd jobs <= calls + 9)%nat.
Proof.
  intros notebooks endpoints jobs.
  unfold SageMakerClient.get_resources, aws_try, aws_bind.
  rewrite _get_notebook_instances_returns. fold notebooks.
  rewrite _get_endpoints_returns. fold endpoints.
  rewrite _get_recent_training_jobs_returns. fold jobs.
  unfold aws_ret. do 6 eexists. split; [reflexivity |].
  repeat (split; [reflexivity |]).
  repeat (split; [apply count_status_bounded |]).
  pose proof (safe_api_call_bounded
                (SageMakerClient.client_list_notebook_instances service)
                BaseClient.default_max_retries calls) as H1.
  pose proof (safe_api_call_bounded
                (SageMakerClient.client_list_endpoints service)
                BaseClient.default_max_retries (snd notebooks)) as H2.
  pose proof (safe_api_call_bounded
                (SageMakerClient.client_list_training_jobs service)
                BaseClient.default_max_retries (snd endpoints)) as H3.
  fold notebooks in H1. fold endpoints in H2. fold jobs in H3.
  unfold BaseClient.default_max_retries in *. lia.
Qed.

(** A region where the endpoints cannot be listed and one training job
    has no name: the notebooks are listed all the same. *)
Example notebooks_survive_the_other_listings :
  fst (SageMakerClient.get_resources (fun _ => "2024-05-01 10:00:00+00:00")
         {| SageMakerClient.client_list_notebook_instances := fun _ =>
              BaseClient.Responded
                (SageMakerClient.mkNotebookInstances
                   (Some [SageMakerClient.mkNotebookInstance (Some "nb-1") None
                            (Some "InService") None None None;
                          SageMakerClient.mkNotebookInstance (Some "nb-2") None
                            None None None None]));
            SageMakerClient.client_list_endpoints := fun _ =>
              BaseClient.ClientError "AccessDeniedException" "not allowed";
            SageMakerClient.client_list_training_jobs := fun _ =>
              BaseClient.Responded
                (SageMakerClient.mkTrainingJobs
                   (Some [SageMakerClient.mkTrainingJob (Some "job-1") None None
                            None None;
                          SageMakerClient.mkTrainingJob None (Some "InProgress")
                            None None None])) |}
         "eu-west-1" 0%nat)
  = Return
      [("notebook_instances",
        SageMakerClient.NotebookList
          [SageMakerClient.mkNotebookData "nb-1" "N/A" "InService" "N/A" "N/A"
             "N/A" "eu-west-1";
           SageMakerClient.mkNotebookData "nb-2" "N/A" "Unknown" "N/A" "N/A"
             "N/A" "eu-west-1"]);
       ("endpoints", SageMakerClient.EndpointList []);
       ("training_jobs", SageMakerClient.JobList []);
       ("summary",
        SageMakerClient.Summary
          [("total_notebooks", 2%nat); ("active_notebooks", 1%nat);
           ("total_endpoints", 0%nat); ("active_endpoints", 0%nat);
           ("total_training_jobs", 0%nat); ("running_training_jobs", 0%nat)]);
       ("region", SageMakerClient.Region "eu-west-1")].
Proof. reflexivity. Qed.

(** ** The S3 client *)
Section S3.

Import S3Client.

Variable strftime : datetime -> string.
Variable service : Service.

Lemma count_objects_adds (contents : list S3Object) :
  forall size_bytes object_count,
    count_objects contents (size_bytes, object_count)
    = (size_bytes + sum_Z (map size_of contents),
       object_count + Z.of_nat (List.length contents)).
Proof.
  unfold count_objects.
  induction contents as [| obj contents IH]; intros size_bytes object_count.
  - simpl. f_equal; lia.
  - cbn [fold_left map List.length sum_Z fold_right]. rewrite IH.
    fold (size_of obj). unfold sum_Z. f_equal; lia.
Qed.

Lemma sum_Z_app (l1 l2 : list Z) : sum_Z (l1 ++ l2) = sum_Z l1 + sum_Z l2.
Proof.
  unfold sum_Z. induction l1 as [| z l1 IH]; simpl; [reflexivity |].
  rewrite IH. lia.
Qed.

(** The loop of [_get_bucket_metrics_direct] over the pages. *)
Lemma direct_loop (pages : list (PyResult Page)) :
  forall size_bytes object_count,
    match objects_listed pages with
    | Some objects =>
        for_each
          (fun totals next_page =>
             page <- next_page ;;
             match Contents page with
             | Some contents => Return (count_objects contents totals)
             | None => Return totals
             end)
          pages (size_bytes, object_count)
        = Return (size_bytes + sum_Z (map size_of objects),
                  object_count + Z.of_nat (List.length objects))
    | None =>
        exists e,
          for_each
            (fun totals next_page =>
               page <- next_page ;;
               match Contents page with
               | Some contents => Return (count_objects contents totals)
               | None => Return totals
               end)
            pages (size_bytes, object_count)
          = Raise e
    end.
Proof.
  induction pages as [| [page | e] pages IH]; intros size_bytes object_count.
  - simpl. f_equal. f_equal; lia.
  - cbn [objects_listed for_each bind].
    destruct (Contents page) as [contents |]; cbn [bind].
    + rewrite count_objects_adds.
      specialize (IH (size_bytes + sum_Z (map size_of contents))
                     (object_count + Z.of_nat (List.length contents))).
      destruct (objects_listed pages) as [objects |]; [| exact IH].
      rewrite IH, map_app, length_app, Nat2Z.inj_add, sum_Z_app.
      f_equal. f_equal; lia.
    + specialize (IH size_bytes object_count).
      destruct (objects_listed pages) as [objects |]; exact IH.
  - simpl. eauto.
Qed.

Lemma metric_statistics_listings (metric_name storage_type bucket_name : string)
  (calls : Calls) :
  listings (snd (metric_statistics service metric_name storage_type bucket_name
                   calls)) = listings calls /\
  s3_calls (snd (metric_statistics service metric_name storage_type bucket_name
                   calls)) = s3_calls calls.
Proof.
  unfold metric_statistics. now destruct (BaseClient.safe_api_call _ _ _).
Qed.

(** The direct listing depends on the number of listings started, and
    starts one. *)
Lemma direct_listing (bucket_name : string) (calls : Calls) :
  fst (_get_bucket_metrics_direct service bucket_name calls)
  = match objects_listed (list_objects_v2_pages service bucket_name
                            (listings calls)) with
    | Some objects =>
        (sum_Z (map size_of objects), Z.of_nat (List.length objects))
    | None => (0, 0)
    end /\
  snd (_get_bucket_metrics_direct service bucket_name calls)
  = mkCalls (s3_calls calls) (cloudwatch_calls calls) (S (listings calls)).
Proof.
  unfold _get_bucket_metrics_direct.
  pose proof (direct_loop (list_objects_v2_pages service bucket_name
                             (listings calls)) 0 0) as H.
  destruct (objects_listed _) as [objects |].
  - rewrite H. simpl. auto.
  - destruct H as [e ->]. auto.
Qed.

(** The keys of a list of datapoints that all have a timestamp. *)
Lemma timestamp_keys_returned (datapoints : list Datapoint)
  (keyed : list (datetime * Datapoint)) :
  timestamp_keys datapoints = Return keyed ->
  map snd keyed = datapoints /\
  Forall (fun kd => Timestamp (snd kd) = Some (fst kd)) keyed.
Proof.
  unfold timestamp_keys.
  assert (G : forall acc keyed',
            for_each
              (fun keyed x =>
                 match Timestamp x with
                 | Some timestamp => Return (keyed ++ [(timestamp, x)])%list
                 | None => Raise (mkExn KeyError "'Timestamp'")
                 end) datapoints acc = Return keyed' ->
            Forall (fun kd => Timestamp (snd kd) = Some (fst kd)) acc ->
            map snd keyed' = (map snd acc ++ datapoints)%list /\
            Forall (fun kd => Timestamp (snd kd) = Some (fst kd)) keyed').
  { induction datapoints as [| x datapoints IH]; simpl; intros acc keyed' H Hacc.
    - injection H as <-. now rewrite app_nil_r.
    - destruct (Timestamp x) as [timestamp |] eqn:E; simpl in H; [| discriminate].
      destruct (IH _ _ H) as [Hmap Hall].
      + apply Forall_app. split; auto.
      + split; auto. rewrite Hmap, map_app, <- app_assoc. reflexivity. }
  intros H. destruct (G [] keyed H) as [Hmap Hall]; auto.
Qed.

(** The head of the sorted list is an element no other is later than. *)
Lemma sorted_head_is_latest (keyed : list (datetime * Datapoint)) :
  match fold_right insert_by_timestamp [] keyed with
  | [] => keyed = []
  | first :: _ =>
      In first keyed /\
      forall other, In other keyed -> instant (fst other) <= instant (fst first)
  end.
Proof.
  induction keyed as [| x keyed IH]; [reflexivity |].
  cbn [fold_right].
  destruct (fold_right insert_by_timestamp [] keyed) as [| head sorted].
  - subst keyed. simpl. split; [now left |].
    intros other [<- | []]. lia.
  - destruct IH as [Hin Hmax]. cbn [insert_by_timestamp].
    destruct (instant (fst x) <? instant (fst head)) eqn:E.
    + apply Z.ltb_lt in E. split; [now right |].
      intros other [<- | Hother]; [lia | auto].
    + apply Z.ltb_ge in E. split; [now left |].
      intros other [<- | Hother]; [lia |].
      specialize (Hmax _ Hother). lia.
Qed.

(** The entries [parse_buckets] adds, when it returns. *)
Lemma parse_buckets_returned (self : t) (bucket_list : list Bucket) :
  forall buckets total_size_bytes calls buckets' total' calls',
    parse_buckets strftime service self bucket_list buckets total_size_bytes calls
    = (Return (buckets', total'), calls') ->
    exists new,
      buckets' = (buckets ++ new)%list /\
      total' = total_size_bytes
               + sum_Z (map (fun bucket => Z.max 0 (size_bytes bucket)) new) /\
      map (fun bucket => Some (name bucket)) new = map Name bucket_list /\
      Forall bucket_consistent new.
Proof.
  induction bucket_list as [| bucket bucket_list IH];
    intros buckets total_size_bytes calls buckets' total' calls' H.
  - injection H as <- <- _. exists []. rewrite app_nil_r. simpl.
    repeat split; [lia | constructor].
  - cbn [parse_buckets] in H.
    destruct (_parse_bucket strftime service self bucket calls)
      as [[bucket_data | e] calls1] eqn:Eparse; [| discriminate].
    apply IH in H. destruct H as (new & -> & -> & Hnames & Hall).
    exists (bucket_data :: new).
    unfold _parse_bucket in Eparse.
    destruct (Name bucket) as [bucket_name |] eqn:Ename; [| discriminate].
    destruct (_get_bucket_region service bucket_name calls) as [r c1].
    destruct (_get_bucket_metrics service self bucket_name c1) as [[size count] c2].
    destruct (gigabytes size) as [gb |] eqn:Egb; simpl in Eparse; [| discriminate].
    injection Eparse as <- _.
    split; [now rewrite <- app_assoc | split; [| split]].
    + cbn [map sum_Z fold_right size_bytes].
      fold (sum_Z (map (fun bucket => Z.max 0 (size_bytes bucket)) new)).
      destruct (0 <? size) eqn:E;
        [apply Z.ltb_lt in E | apply Z.ltb_ge in E]; lia.
    + simpl. now rewrite Ename, Hnames.
    + constructor; auto.
Qed.

End S3.

(** X24: [_get_bucket_metrics_direct] returns the sum of the sizes (an
    object without ['Size'] counting for zero) and the number of the
    objects of all the pages the paginator yields, when no page raises;
    when a page does, it returns [(0, 0)], whatever the pages before
    held.  It never raises, and it starts one listing. *)
Theorem direct_metrics_count_every_object_or_nothing
  (service : S3Client.Service) (bucket_name : string) (calls : S3Client.Calls) :
  S3Client._get_bucket_metrics_direct service bucket_name calls
  = (match objects_listed (S3Client.list_objects_v2_pages service bucket_name
                             (S3Client.listings calls)) with
     | Some objects =>
         (sum_Z (map size_of objects), Z.of_nat (List.length objects))
     | None => (0, 0)
     end,
     S3Client.mkCalls (S3Client.s3_calls calls) (S3Client.cloudwatch_calls calls)
       (S (S3Client.listings calls))).
Proof.
  destruct (direct_listing service bucket_name calls) as [H1 H2].
  rewrite <- H1, <- H2. now destruct (S3Client._get_bucket_metrics_direct _ _ _).
Qed.

(** A listing whose third page fails gives no figure at all. *)
Example a_failed_page_zeroes_the_figures :
  fst (S3Client._get_bucket_metrics_direct two_bucket_s3 "scratch"
         (S3Client.mkCalls 0 0 0)) = (15, 3) /\
  fst (S3Client._get_bucket_metrics_direct
         {| S3Client.client_list_buckets :=
              S3Client.client_list_buckets two_bucket_s3;
            S3Client.client_get_bucket_location :=
              S3Client.client_get_bucket_location two_bucket_s3;
            S3Client.list_objects_v2_pages := fun _ _ =>
              [Return (S3Client.mkPage (Some [S3Client.mkObject (Some 10)]));
               Return (S3Client.mkPage (Some [S3Client.mkObject (Some 7)]));
               Raise (mkExn (OtherError "ClientError") "SlowDown")];
            S3Client.cloudwatch_get_metric_statistics :=
              S3Client.cloudwatch_get_metric_statistics two_bucket_s3 |}
         "scratch" (S3Client.mkCalls 0 0 0)) = (0, 0).
Proof. split; reflexivity. Qed.

(** X25: [_get_bucket_metrics] takes the figures of CloudWatch only when
    one of them is positive.  It returns without listing the objects
    exactly when the client holds a CloudWatch client, both metrics
    could be read, and the size or the count read is positive; the
    figures returned are then those two.  In every other case (no
    CloudWatch client, a metric that cannot be read, both figures zero
    or negative) it starts one listing and returns what
    [_get_bucket_metrics_direct] makes of it. *)
Theorem cloudwatch_figures_are_used_only_when_positive
  (service : S3Client.Service) (self : S3Client.t) (bucket_name : string)
  (calls : S3Client.Calls) :
  let size :=
    S3Client.metric_statistics service "BucketSizeBytes" "StandardStorage"
      bucket_name calls in
  let count :=
    S3Client.metric_statistics service "NumberOfObjects" "AllStorageTypes"
      bucket_name (snd size) in
  let result := S3Client._get_bucket_metrics service self bucket_name calls in
  (S3Client.listings (snd result) = S3Client.listings calls <->
   S3Client.cloudwatch_client self = true /\
   exists size_bytes object_count,
     S3Client.latest_average (fst size) = Return size_bytes /\
     S3Client.latest_average (fst count) = Return object_count /\
     (0 < size_bytes \/ 0 < object_count) /\
     result = ((size_bytes, object_count), snd count)) /\
  (S3Client.listings (snd result) <> S3Client.listings calls ->
   S3Client.listings (snd result) = S (S3Client.listings calls) /\
   fst result
   = fst (S3Client._get_bucket_metrics_direct service bucket_name calls)).
Proof.
  intros size count result.
  assert (Hdirect : forall c,
            S3Client.listings c = S3Client.listings calls ->
            S3Client.listings
              (snd (S3Client._get_bucket_metrics_direct service bucket_name c))
            = S (S3Client.listings calls) /\
            fst (S3Client._get_bucket_metrics_direct service bucket_name c)
            = fst (S3Client._get_bucket_metrics_direct service bucket_name calls)).
  { intros c Hc.
    destruct (direct_listing service bucket_name c) as [H1 H2].
    destruct (direct_listing service bucket_name calls) as [H3 _].
    rewrite H1, H2, H3, Hc. auto. }
  pose proof (proj1 (metric_statistics_listings service "BucketSizeBytes"
                       "StandardStorage" bucket_name calls)) as Hsize.
  pose proof (proj1 (metric_statistics_listings service "NumberOfObjects"
                       "AllStorageTypes" bucket_name (snd size))) as Hcount.
  fold size in Hsize. fold count in Hcount. rewrite Hsize in Hcount.
  assert (Hresult :
            (S3Client.cloudwatch_client self = true /\
             exists size_bytes object_count,
               S3Client.latest_average (fst size) = Return size_bytes /\
               S3Client.latest_average (fst count) = Return object_count /\
               (0 < size_bytes \/ 0 < object_count) /\
               result = ((size_bytes, object_count), snd count)) \/
            (~ (S3Client.cloudwatch_client self = true /\
                exists size_bytes object_count,
                  S3Client.latest_average (fst size) = Return size_bytes /\
                  S3Client.latest_average (fst count) = Return object_count /\
                  (0 < size_bytes \/ 0 < object_count)) /\
             exists c, S3Client.listings c = S3Client.listings calls /\
                       result
                       = S3Client._get_bucket_metrics_direct service bucket_name c)).
  { unfold result, S3Client._get_bucket_metrics.
    destruct (S3Client.cloudwatch_client self).
    2:{ right. split; [intros [H _]; discriminate | eauto]. }
    fold size. destruct size as [size_response c1] eqn:Esize. cbn [fst snd] in *.
    destruct (S3Client.latest_average size_response) as [size_bytes | e].
    2:{ right. split; [intros (_ & s & c & H & _); discriminate | eauto]. }
    fold count. destruct count as [count_response c2] eqn:Ecount.
    cbn [fst snd] in *.
    destruct (S3Client.latest_average count_response) as [object_count | e].
    2:{ right. split; [intros (_ & s & c & _ & H & _); discriminate | eauto]. }
    destruct ((0 <? size_bytes) || (0 <? object_count)) eqn:Epositive.
    - left. split; auto. exists size_bytes, object_count.
      apply orb_true_iff in Epositive. rewrite !Z.ltb_lt in Epositive. auto.
    - right. split; [| eauto].
      intros (_ & s & c & [= <-] & [= <-] & Hpos).
      apply orb_false_iff in Epositive. rewrite !Z.ltb_ge in Epositive. lia. }
  destruct Hresult as [(Hcw & s & c & Hs & Hc & Hpos & Hres)
                      | (Hnot & c & Hc & Hres)].
  - split.
    + split; [intros _ | intros _; now rewrite Hres].
      split; eauto 10.
    + rewrite Hres. cbn [snd]. intros H. contradiction.
  - destruct (Hdirect c Hc) as [H1 H2]. rewrite <- Hres in H1, H2. split.
    + split; [intros H; lia |].
      intros (Hcw & s & c' & Hs & Hc' & Hpos & _). exfalso. apply Hnot. eauto 10.
    + auto.
Qed.

(** X26: the figure [_get_bucket_metrics] reads from a metric is [0]
    when the response has no datapoint; otherwise it is the ['Average']
    of one of the datapoints, cut to an integer, and no datapoint of the
    response has a later timestamp than that one. *)
Theorem latest_average_reads_the_latest_datapoint
  (response : option S3Client.MetricStatistics) (figure : Z) :
  S3Client.latest_average response = Return figure ->
  match response with
  | Some (S3Client.mkStatistics (Some (datapoint :: datapoints))) =>
      exists latest timestamp average,
        In latest (datapoint :: datapoints) /\
        S3Client.Timestamp latest = Some timestamp /\
        S3Client.Average latest = Some average /\
        int_of_float average = Return figure /\
        forall other timestamp',
          In other (datapoint :: datapoints) ->
          S3Client.Timestamp other = Some timestamp' ->
          instant timestamp' <= instant timestamp
  | _ => figure = 0
  end.
Proof.
  unfold S3Client.latest_average.
  destruct response as [[[[| datapoint datapoints] |]] |];
    try (now intros [= <-]).
  intros H. unfold S3Client.sorted_by_timestamp in H.
  destruct (S3Client.timestamp_keys (datapoint :: datapoints)) as [keyed |] eqn:Ekeys;
    cbn [bind] in H; [| discriminate].
  destruct (timestamp_keys_returned _ _ Ekeys) as [Hmap Hall].
  pose proof (sorted_head_is_latest keyed) as Hhead.
  destruct (fold_right S3Client.insert_by_timestamp [] keyed)
    as [| [timestamp latest] sorted]; [discriminate |].
  cbn [map snd] in H. destruct Hhead as [Hin Hmax].
  destruct (S3Client.Average latest) as [average |] eqn:Eaverage; [| discriminate].
  rewrite Forall_forall in Hall.
  exists latest, timestamp, average. repeat split; auto.
  - rewrite <- Hmap. change latest with (snd (timestamp, latest)). now apply in_map.
  - apply (Hall _ Hin).
  - intros other timestamp' Hother Htime.
    rewrite <- Hmap in Hother. apply in_map_iff in Hother.
    destruct Hother as ([t' other'] & Heq & Hin'). simpl in Heq. subst other'.
    pose proof (Hall _ Hin') as Ht'. simpl in Ht'.
    rewrite Htime in Ht'. injection Ht' as ->.
    apply (Hmax _ Hin').
Qed.

Lemma latest_average_reads_the_latest_datapoint_witness :
  exists latest timestamp average,
    In latest [S3Client.mkDatapoint (Some (mkDatetime 1000 0))
                 (Some (S754_finite false 1 0));
               S3Client.mkDatapoint (Some (mkDatetime 3000 0))
                 (Some (S754_finite false 8193 (-1)));
               S3Client.mkDatapoint (Some (mkDatetime 2000 0))
                 (Some (S754_finite false 2 0))] /\
    S3Client.Timestamp latest = Some timestamp /\
    S3Client.Average latest = Some average /\
    int_of_float average = Return 4096 /\
    forall other timestamp',
      In other [S3Client.mkDatapoint (Some (mkDatetime 1000 0))
                  (Some (S754_finite false 1 0));
                S3Client.mkDatapoint (Some (mkDatetime 3000 0))
                  (Some (S754_finite false 8193 (-1)));
                S3Client.mkDatapoint (Some (mkDatetime 2000 0))
                  (Some (S754_finite false 2 0))] ->
      S3Client.Timestamp other = Some timestamp' ->
      instant timestamp' <= instant timestamp.
Proof.
  apply (latest_average_reads_the_latest_datapoint
           (Some (S3Client.mkStatistics
                    (Some [S3Client.mkDatapoint (Some (mkDatetime 1000 0))
                             (Some (S754_finite false 1 0));
                           S3Client.mkDatapoint (Some (mkDatetime 3000 0))
                             (Some (S754_finite false 8193 (-1)));
                           S3Client.mkDatapoint (Some (mkDatetime 2000 0))
                             (Some (S754_finite false 2 0))]))) 4096).
  reflexivity.
Defined.

(** What [get_buckets] returns is the dictionary of a list of entries. *)
Lemma get_buckets_shape
  (strftime : datetime -> string) (service : S3Client.Service)
  (self : S3Client.t) (calls : S3Client.Calls) :
  exists buckets,
    fst (S3Client.get_buckets strftime service self calls) = s3_result self buckets.
Proof.
  unfold S3Client.get_buckets.
  destruct (BaseClient.safe_api_call _ _ _) as [response n].
  destruct response as [[[bucket_list |]] |]; try (now exists []).
  destruct (S3Client.parse_buckets strftime service self bucket_list [] 0 _)
    as [[[buckets total] | e] calls'] eqn:Eparse; [| now exists []].
  apply parse_buckets_returned in Eparse.
  destruct Eparse as (new & -> & -> & _). cbn [app Z.add].
  destruct (S3Client.gigabytes _) as [gb |] eqn:Egb; [| now exists []].
  exists new. unfold s3_result. cbn [fst]. now rewrite Egb.
Qed.

(** X27: [get_buckets] never raises, and the dictionary it returns has
    the keys ['buckets'], ['summary'] and ['region'] and a summary that
    counts what the dictionary lists: [total] is the number of entries,
    [total_size_bytes] the sum of the sizes that are positive, and
    [total_size_gb] that sum in gigabytes, rounded to two decimals (the
    integer [0] for an empty sum).  Every entry carries the size in
    gigabytes of its own size in bytes.  The entries are the buckets of
    the response, in its order, or none at all: none when the request
    gave no response, when the response has no ['Buckets'], or when a
    bucket has no ['Name']. *)
Theorem get_buckets_counts_what_it_lists
  (strftime : datetime -> string) (service : S3Client.Service)
  (self : S3Client.t) (calls : S3Client.Calls) :
  exists buckets,
    fst (S3Client.get_buckets strftime service self calls) = s3_result self buckets /\
    Forall bucket_consistent buckets /\
    match fst (BaseClient.safe_api_call (S3Client.client_list_buckets service)
                 BaseClient.default_max_retries (S3Client.s3_calls calls)) with
    | Some (S3Client.mkBuckets (Some bucket_list)) =>
        (buckets = [] \/
         map (fun bucket => Some (S3Client.name bucket)) buckets
         = map S3Client.Name bucket_list) /\
        (In None (map S3Client.Name bucket_list) -> buckets = [])
    | _ => buckets = []
    end.
Proof.
  unfold S3Client.get_buckets.
  destruct (BaseClient.safe_api_call _ _ _) as [response n]. cbn [fst].
  destruct response as [[[bucket_list |]] |];
    try (exists []; repeat split; constructor).
  destruct (S3Client.parse_buckets strftime service self bucket_list [] 0 _)
    as [[[buckets total] | e] calls'] eqn:Eparse.
  - apply parse_buckets_returned in Eparse.
    destruct Eparse as (new & -> & -> & Hnames & Hall). cbn [app Z.add].
    destruct (S3Client.gigabytes _) as [gb |] eqn:Egb.
    + exists new. split; [| split; [| split]]; auto.
      * unfold s3_result. cbn [fst]. now rewrite Egb.
      * intros Hin. rewrite <- Hnames in Hin.
        apply in_map_iff in Hin. destruct Hin as (bucket & Heq & _). discriminate.
    + exists []. split; [| split; [| split]]; auto.
  - exists []. split; [| split; [| split]]; auto.
Qed.

(** The S3 of the samples: CloudWatch gives the figures of the first
    bucket, those of the second are counted from a listing. *)
Example two_buckets_listed :
  fst (S3Client.get_buckets (fun _ => "2023-11-14 22:13:20") two_bucket_s3
         (S3Client.mkClient "us-east-1" true) (S3Client.mkCalls 0 0 0))
  = [("buckets",
      S3Client.BucketList
        [S3Client.mkBucketData "logs" "us-east-1" "2023-11-14 22:13:20" 4096
           (NumFloat float_zero) 7;
         S3Client.mkBucketData "scratch" "eu-west-1" "N/A" 15
           (NumFloat float_zero) 3]);
     ("summary",
      S3Client.Summary [("total", NumInt 2); ("total_size_bytes", NumInt 4111);
                        ("total_size_gb", NumFloat float_zero)]);
     ("region", S3Client.Region "us-east-1")].
Proof. vm_compute. reflexivity. Qed.

(** X28: the dictionary [fetch_s3_resources] returns has an ['error']
    key exactly when the S3 client could not be constructed; it then
    holds the message of the exception, an empty bucket list and a
    summary of zeros.  In every other case, a CloudWatch client that
    cannot be constructed and S3 requests that fail included, it is the
    dictionary [get_buckets] returns for a client of the default region,
    which has no ['error'] key. *)
Theorem fetch_s3_resources_reports_a_missing_client_only
  (settings : Settings) (strftime : datetime -> string)
  (service : S3Client.Service) (s3_init cloudwatch_init : PyResult unit)
  (calls : S3Client.Calls) :
  let result :=
    fst (fetch_s3_resources settings strftime service s3_init cloudwatch_init
           calls) in
  (dict_has "error" result = true <-> exists e, s3_init = Raise e) /\
  (forall e,
     s3_init = Raise e ->
     result
     = [("buckets", S3Client.BucketList []);
        ("summary", S3Client.Summary [("total", NumInt 0);
                                      ("total_size_bytes", NumInt 0);
                                      ("total_size_gb", NumInt 0)]);
        ("error", S3Client.ErrorText (exn_str e))]) /\
  (s3_init = Return tt ->
   exists buckets cloudwatch,
     result = s3_result (S3Client.mkClient (AWS_DEFAULT_REGION settings) cloudwatch)
                buckets /\
     (cloudwatch = true <-> cloudwatch_init = Return tt)).
Proof.
  intros result. unfold result, fetch_s3_resources, S3Client.init.
  destruct s3_init as [[] | e]; cbn [bind truthy].
  - destruct (get_buckets_shape strftime service
                (S3Client.mkClient (AWS_DEFAULT_REGION settings)
                   match cloudwatch_init with
                   | Return _ => true
                   | Raise _ => false
                   end) calls) as (buckets & Hbuckets).
    rewrite Hbuckets. split; [| split].
    + split; [discriminate | intros [e He]; discriminate].
    + discriminate.
    + intros _. do 2 eexists. split; [reflexivity |].
      destruct cloudwatch_init as [[] | e]; split; auto; discriminate.
  - split; [| split].
    + split; [eauto | reflexivity].
    + now intros e' [= <-].
    + discriminate.
Qed.
